(** * Options wheel trading bot: a shallow embedding of the Python sources

    The development follows the layout of the repository: one module per
    source file ([config/config.py], [models/models.py],
    [utils/setup_utils.py], [database/generic_dao.py],
    [risk_management/risk_manager.py], [core/strategy.py], [ai/base.py],
    [ai/kill/semantic_kill.py], [ai/slippage/predictor.py]).

    Modelling conventions.
    - A Python [float] is an exact rational ([Q]); a Python [int] is [Z].
      Rounding, NaN and infinities are outside the model.
    - A Python exception of class [Exception] is a value of [exn]; code that
      can raise returns [result A = exn + A]; [try: ... except Exception]
      is a [match] on that sum.
    - Module-level singletons ([config], [risk_manager], [db_manager]) and
      the outside world (clock, files, language model) are explicit
      arguments. *)

From Stdlib Require Import ZArith NArith QArith Qround String Ascii List Bool Lia Lqa.
From Stdlib Require Import DecimalString.
Import ListNotations.

Local Open Scope string_scope.
Local Open Scope Q_scope.

(** ** A small model of the Python runtime *)

Module Py.

(** The exception classes the modelled code can raise. *)
Inductive exn : Type :=
| Exception (msg : string)
| ValueError (msg : string)
| TypeError (msg : string)
| ZeroDivisionError (msg : string)
| UnboundLocalError (msg : string)
| KeyError (msg : string)
| IntegrityError (msg : string)
| OperationalError (msg : string).

(** [str(e)] *)
Definition str_exn (e : exn) : string :=
  match e with
  | Exception m | ValueError m | TypeError m | ZeroDivisionError m
  | UnboundLocalError m | KeyError m | IntegrityError m
  | OperationalError m => m
  end.

Definition result (A : Type) : Type := (exn + A)%type.

Definition ret {A} (a : A) : result A := inr a.
Definition raise {A} (e : exn) : result A := inl e.

Definition bind {A B} (c : result A) (k : A -> result B) : result B :=
  match c with
  | inl e => inl e
  | inr a => k a
  end.

(** A value whose Python type is not fixed by the code: the settings record
    annotates a field [float] but may bind it to a [str]. *)
Inductive pyval : Type :=
| PyFloat (q : Q)
| PyStr (s : string).

(** [x < y] for a float [x] and a dynamically typed [y]. *)
Definition float_lt (x : Q) (y : pyval) : result bool :=
  match y with
  | PyFloat q => ret (negb (Qle_bool q x))
  | PyStr _ =>
      raise (TypeError
        "'<' not supported between instances of 'float' and 'str'")
  end.

(** [y < x] and [y > x] for a dynamically typed [y] and a float [x]. *)
Definition lt_float (y : pyval) (x : Q) : result bool :=
  match y with
  | PyFloat q => ret (negb (Qle_bool x q))
  | PyStr _ =>
      raise (TypeError
        "'<' not supported between instances of 'str' and 'float'")
  end.

Definition gt_float (y : pyval) (x : Q) : result bool :=
  match y with
  | PyFloat q => ret (negb (Qle_bool q x))
  | PyStr _ =>
      raise (TypeError
        "'>' not supported between instances of 'str' and 'float'")
  end.

(** Float comparisons, named after the Python operators. *)
Definition lt (a b : Q) : bool := negb (Qle_bool b a).
Definition le (a b : Q) : bool := Qle_bool a b.
Definition gt (a b : Q) : bool := negb (Qle_bool a b).
Definition ge (a b : Q) : bool := Qle_bool b a.

(** [a / b] on floats raises on a zero divisor. *)
Definition truediv (a b : Q) : result Q :=
  if Qeq_bool b 0 then raise (ZeroDivisionError "float division by zero")
  else ret (a / b).

(** Built-in [min] and [max] on two arguments: the first argument is kept
    unless the second is strictly better. *)
Definition min (a b : Q) : Q := if lt b a then b else a.
Definition max (a b : Q) : Q := if gt b a then b else a.

(** [abs] on a float. *)
Definition abs (a : Q) : Q := if lt a 0 then - a else a.

(** [int(x)] on a float truncates towards zero. *)
Definition int_of_float (x : Q) : Z := Z.quot (Qnum x) (Zpos (Qden x)).

(** [needle in haystack] on strings. *)
Fixpoint contains (needle haystack : string) : bool :=
  if String.prefix needle haystack then true
  else match haystack with
       | EmptyString => false
       | String _ rest => contains needle rest
       end.

(** [x in xs] for a list of strings. *)
Definition str_in (x : string) (xs : list string) : bool :=
  existsb (String.eqb x) xs.

(** [str(n)] on an int. *)
Definition str_int (n : Z) : string := NilZero.string_of_int (Z.to_int n).

(** A number that is an [int] or a [float]. *)
Inductive number : Type :=
| Int (z : Z)
| Float (q : Q).

(** [os.getenv(name, default)] over an explicit environment. *)
Fixpoint getenv (environ : list (string * string)) (name default : string)
  : string :=
  match environ with
  | [] => default
  | (k, v) :: rest => if String.eqb k name then v else getenv rest name default
  end.

End Py.

Declare Scope py_scope.
Delimit Scope py_scope with py.
Notation "x <- c ;; k" := (Py.bind c (fun x => k))
  (at level 61, c at next level, right associativity) : py_scope.
Notation "c ;;; k" := (Py.bind c (fun _ => k))
  (at level 61, right associativity) : py_scope.

(** ** config/config.py *)

Module Config.
Import Py.
Local Open Scope py_scope.

(** The fields of the settings record that the modelled code reads.  The
    record stands for the instance after the generated [__init__] bound
    every field (from a keyword argument or the class default) and before
    [__post_init__] runs. *)
Record OptionWheelConfig : Type := {
  api_key : string;
  api_secret : string;
  access_token : string;
  quantity_per_lot : Z;
  otm_delta_range_low : Q;
  otm_delta_range_high : Q;
  max_concurrent_positions : Z;
  max_daily_loss_limit : Q;
  max_portfolio_risk : Q;
  dry_run : bool;
  strategy_mode : string;
  risk_per_trade_percent : Q;
  slippage_bps : Z;
  otm_delta_range_conservative_low : Q;
  otm_delta_range_conservative_high : Q;
  otm_delta_range_balanced_low : Q;
  otm_delta_range_balanced_high : Q;
  otm_delta_range_aggressive_low : Q;
  otm_delta_range_aggressive_high : Q;
  enable_ai_features : bool;
  ai_features : list string;
  ai_confidence_threshold : Q;
  semantic_kill_confidence_threshold : pyval
}.

Definition set_otm_delta_range (self : OptionWheelConfig) (low high : Q)
  : OptionWheelConfig :=
  {| api_key := api_key self;
     api_secret := api_secret self;
     access_token := access_token self;
     quantity_per_lot := quantity_per_lot self;
     otm_delta_range_low := low;
     otm_delta_range_high := high;
     max_concurrent_positions := max_concurrent_positions self;
     max_daily_loss_limit := max_daily_loss_limit self;
     max_portfolio_risk := max_portfolio_risk self;
     dry_run := dry_run self;
     strategy_mode := strategy_mode self;
     risk_per_trade_percent := risk_per_trade_percent self;
     slippage_bps := slippage_bps self;
     otm_delta_range_conservative_low := otm_delta_range_conservative_low self;
     otm_delta_range_conservative_high := otm_delta_range_conservative_high self;
     otm_delta_range_balanced_low := otm_delta_range_balanced_low self;
     otm_delta_range_balanced_high := otm_delta_range_balanced_high self;
     otm_delta_range_aggressive_low := otm_delta_range_aggressive_low self;
     otm_delta_range_aggressive_high := otm_delta_range_aggressive_high self;
     enable_ai_features := enable_ai_features self;
     ai_features := ai_features self;
     ai_confidence_threshold := ai_confidence_threshold self;
     semantic_kill_confidence_threshold :=
       semantic_kill_confidence_threshold self |}.

(** The checks both [__post_init__] bodies start with (lines 180-194 and
    244-261): strategy mode, band order, risk per trade, credentials.  The
    messages are the source's without the interpolated values. *)
Definition validate (self : OptionWheelConfig) : result unit :=
  if negb (str_in (strategy_mode self)
             ["conservative"; "balanced"; "aggressive"])
  then raise (ValueError "Invalid strategy_mode")
  else if ge (otm_delta_range_low self) (otm_delta_range_high self)
  then raise (ValueError "Delta range low must be less than high")
  else if le (risk_per_trade_percent self) 0
          || gt (risk_per_trade_percent self) 0.10
  then raise (ValueError
                "Risk per trade percent should be between 0 and 0.10 (10%)")
  else if negb (dry_run self) && String.eqb (api_key self) ""
  then raise (ValueError "KITE_API_KEY is required when DRY_RUN is false")
  else if negb (dry_run self) && String.eqb (api_secret self) ""
  then raise (ValueError "KITE_API_SECRET is required when DRY_RUN is false")
  else if negb (dry_run self) && String.eqb (access_token self) ""
  then raise (ValueError "KITE_ACCESS_TOKEN is required when DRY_RUN is false")
  else ret tt.

(** The first [def __post_init__] of the class body (lines 177-212).  The
    class body binds the name a second time further down, so this
    function is never the method of the class. *)
Module FirstDefinition.

Definition __post_init__ (self : OptionWheelConfig)
  : result OptionWheelConfig :=
  validate self ;;;
  let self :=
    if String.eqb (strategy_mode self) "conservative" then
      set_otm_delta_range self
        (otm_delta_range_conservative_low self)
        (otm_delta_range_conservative_high self)
    else if String.eqb (strategy_mode self) "aggressive" then
      set_otm_delta_range self
        (otm_delta_range_aggressive_low self)
        (otm_delta_range_aggressive_high self)
    else
      set_otm_delta_range self
        (otm_delta_range_balanced_low self)
        (otm_delta_range_balanced_high self) in
  if lt (ai_confidence_threshold self) 0.0
     || gt (ai_confidence_threshold self) 1.0
  then raise (ValueError
                "AI confidence threshold should be between 0.0 and 1.0")
  else
    below <- lt_float (semantic_kill_confidence_threshold self) 0.0 ;;
    above <- (if below then ret true
              else gt_float (semantic_kill_confidence_threshold self) 1.0) ;;
    if above
    then raise (ValueError
           "Semantic kill confidence threshold should be between 0.0 and 1.0")
    else ret self.

End FirstDefinition.

(** The second [def __post_init__] (lines 241-261): the binding the class
    ends up with, and the one the dataclass [__init__] calls. *)
Definition __post_init__ (self : OptionWheelConfig)
  : result OptionWheelConfig :=
  validate self ;;; ret self.

(** The constructor call: bind the fields, then run [__post_init__]. *)
Definition new (fields : OptionWheelConfig) : result OptionWheelConfig :=
  __post_init__ fields.

(** Class default of [semantic_kill_confidence_threshold]: the last
    assignment in the class body (line 238) keeps the string that
    [os.getenv] returns. *)
Definition default_semantic_kill_confidence_threshold
  (environ : list (string * string)) : pyval :=
  PyStr (getenv environ "SEMANTIC_KILL_CONFIDENCE_THRESHOLD" "0.9").

(** The class defaults when no variable of the environment is set, with
    [dry_run] switched on so that the credential checks pass. *)
Definition dry_run_defaults : OptionWheelConfig :=
  {| api_key := "";
     api_secret := "";
     access_token := "";
     quantity_per_lot := 150;
     otm_delta_range_low := 0.15;
     otm_delta_range_high := 0.25;
     max_concurrent_positions := 5;
     max_daily_loss_limit := 5000.0;
     max_portfolio_risk := 0.02;
     dry_run := true;
     strategy_mode := "balanced";
     risk_per_trade_percent := 0.01;
     slippage_bps := 5;
     otm_delta_range_conservative_low := 0.10;
     otm_delta_range_conservative_high := 0.15;
     otm_delta_range_balanced_low := 0.15;
     otm_delta_range_balanced_high := 0.25;
     otm_delta_range_aggressive_low := 0.25;
     otm_delta_range_aggressive_high := 0.35;
     enable_ai_features := false;
     ai_features := ["rag"; "regime"; "slippage"; "news"; "stress";
                     "compliance"; "explain"; "hedge"; "whatif"];
     ai_confidence_threshold := 0.7;
     semantic_kill_confidence_threshold :=
       default_semantic_kill_confidence_threshold [] |}.

Definition with_strategy_mode (self : OptionWheelConfig) (mode : string)
  : OptionWheelConfig :=
  {| api_key := api_key self;
     api_secret := api_secret self;
     access_token := access_token self;
     quantity_per_lot := quantity_per_lot self;
     otm_delta_range_low := otm_delta_range_low self;
     otm_delta_range_high := otm_delta_range_high self;
     max_concurrent_positions := max_concurrent_positions self;
     max_daily_loss_limit := max_daily_loss_limit self;
     max_portfolio_risk := max_portfolio_risk self;
     dry_run := dry_run self;
     strategy_mode := mode;
     risk_per_trade_percent := risk_per_trade_percent self;
     slippage_bps := slippage_bps self;
     otm_delta_range_conservative_low := otm_delta_range_conservative_low self;
     otm_delta_range_conservative_high := otm_delta_range_conservative_high self;
     otm_delta_range_balanced_low := otm_delta_range_balanced_low self;
     otm_delta_range_balanced_high := otm_delta_range_balanced_high self;
     otm_delta_range_aggressive_low := otm_delta_range_aggressive_low self;
     otm_delta_range_aggressive_high := otm_delta_range_aggressive_high self;
     enable_ai_features := enable_ai_features self;
     ai_features := ai_features self;
     ai_confidence_threshold := ai_confidence_threshold self;
     semantic_kill_confidence_threshold :=
       semantic_kill_confidence_threshold self |}.

Definition with_ai_thresholds (self : OptionWheelConfig)
  (ai : Q) (semantic_kill : pyval) : OptionWheelConfig :=
  {| api_key := api_key self;
     api_secret := api_secret self;
     access_token := access_token self;
     quantity_per_lot := quantity_per_lot self;
     otm_delta_range_low := otm_delta_range_low self;
     otm_delta_range_high := otm_delta_range_high self;
     max_concurrent_positions := max_concurrent_positions self;
     max_daily_loss_limit := max_daily_loss_limit self;
     max_portfolio_risk := max_portfolio_risk self;
     dry_run := dry_run self;
     strategy_mode := strategy_mode self;
     risk_per_trade_percent := risk_per_trade_percent self;
     slippage_bps := slippage_bps self;
     otm_delta_range_conservative_low := otm_delta_range_conservative_low self;
     otm_delta_range_conservative_high := otm_delta_range_conservative_high self;
     otm_delta_range_balanced_low := otm_delta_range_balanced_low self;
     otm_delta_range_balanced_high := otm_delta_range_balanced_high self;
     otm_delta_range_aggressive_low := otm_delta_range_aggressive_low self;
     otm_delta_range_aggressive_high := otm_delta_range_aggressive_high self;
     enable_ai_features := enable_ai_features self;
     ai_features := ai_features self;
     ai_confidence_threshold := ai;
     semantic_kill_confidence_threshold := semantic_kill |}.

(** The band the specification promises for a mode. *)
Definition mode_band (mode : string) : Q * Q :=
  if String.eqb mode "conservative" then (0.10, 0.15)
  else if String.eqb mode "aggressive" then (0.25, 0.35)
  else (0.15, 0.25).

End Config.


(** ** datetime (standard library), as far as the stored timestamps need it *)

Module Datetime.
Import Py.
Local Open Scope N_scope.

(** A naive [datetime] object. *)
Record datetime : Type := {
  year : N;
  month : N;
  day : N;
  hour : N;
  minute : N;
  second : N;
  microsecond : N
}.

Definition is_leap (y : N) : bool :=
  ((y mod 4 =? 0) && negb (y mod 100 =? 0)) || (y mod 400 =? 0).

Definition days_in_month (y m : N) : N :=
  if m =? 2 then (if is_leap y then 29 else 28)
  else if (m =? 4) || (m =? 6) || (m =? 9) || (m =? 11) then 30
  else 31.

(** The range checks of the [datetime] constructor. *)
Definition valid (d : datetime) : bool :=
  (1 <=? year d) && (year d <=? 9999) &&
  (1 <=? month d) && (month d <=? 12) &&
  (1 <=? day d) && (day d <=? days_in_month (year d) (month d)) &&
  (hour d <? 24) && (minute d <? 60) && (second d <? 60) &&
  (microsecond d <? 1000000).

Definition digit (n : N) : ascii := ascii_of_N (48 + n).

(** [width] decimal digits of [n], most significant first (["%0<width>d"]). *)
Fixpoint zfill (width : nat) (n : N) : string :=
  match width with
  | O => EmptyString
  | S w => String (digit (n / 10 ^ N.of_nat w))
                  (zfill w (n mod 10 ^ N.of_nat w))
  end.

(** [datetime.isoformat()]: seconds precision, microseconds only when they
    are not zero. *)
Definition isoformat (d : datetime) : string :=
  (zfill 4 (year d) ++ "-" ++ zfill 2 (month d) ++ "-" ++ zfill 2 (day d)
   ++ "T" ++ zfill 2 (hour d) ++ ":" ++ zfill 2 (minute d) ++ ":"
   ++ zfill 2 (second d)
   ++ (if N.eqb (microsecond d) 0 then ""
       else "." ++ zfill 6 (microsecond d)))%string.

Definition digit_value (c : ascii) : option N :=
  let n := N_of_ascii c in
  if (48 <=? n) && (n <=? 57) then Some (n - 48) else None.

(** Read exactly [width] decimal digits. *)
Fixpoint read_digits (width : nat) (acc : N) (s : string)
  : option (N * string) :=
  match width with
  | O => Some (acc, s)
  | S w =>
      match s with
      | EmptyString => None
      | String c rest =>
          match digit_value c with
          | Some v => read_digits w (acc * 10 + v) rest
          | None => None
          end
      end
  end.

(** Read one given character. *)
Definition expect (c : ascii) (s : string) : option string :=
  match s with
  | String c' rest => if Ascii.eqb c c' then Some rest else None
  | EmptyString => None
  end.

Definition parse (s : string) : option datetime :=
  match read_digits 4 0 s with
  | None => None
  | Some (y, s) =>
  match expect "-" s with
  | None => None
  | Some s =>
  match read_digits 2 0 s with
  | None => None
  | Some (mo, s) =>
  match expect "-" s with
  | None => None
  | Some s =>
  match read_digits 2 0 s with
  | None => None
  | Some (d, s) =>
  match expect "T" s with
  | None => None
  | Some s =>
  match read_digits 2 0 s with
  | None => None
  | Some (h, s) =>
  match expect ":" s with
  | None => None
  | Some s =>
  match read_digits 2 0 s with
  | None => None
  | Some (mi, s) =>
  match expect ":" s with
  | None => None
  | Some s =>
  match read_digits 2 0 s with
  | None => None
  | Some (se, s) =>
      match s with
      | EmptyString =>
          Some {| year := y; month := mo; day := d; hour := h;
                  minute := mi; second := se; microsecond := 0 |}
      | _ =>
          match expect "." s with
          | None => None
          | Some s =>
              match read_digits 6 0 s with
              | Some (us, EmptyString) =>
                  Some {| year := y; month := mo; day := d; hour := h;
                          minute := mi; second := se; microsecond := us |}
              | _ => None
              end
          end
      end
  end end end end end end end end end end end.

(** [datetime.fromisoformat(s)] on the two layouts [isoformat] emits for a
    naive datetime.  Python's parser accepts further ISO 8601 layouts; the
    modelled code only ever parses strings that [isoformat] produced, and
    every other string is rejected here. *)
Definition fromisoformat (s : string) : result datetime :=
  match parse s with
  | Some d =>
      if valid d then ret d
      else raise (ValueError "datetime field is out of range")
  | None => raise (ValueError "Invalid isoformat string")
  end.

End Datetime.

(** ** models/models.py *)

Module Models.
Import Py.
Import Datetime.

Record Trade : Type := {
  order_id : string;
  symbol : string;
  exchange : string;
  instrument_token : Z;
  transaction_type : string;
  order_type : string;
  product : string;
  quantity : Z;
  price : Q;
  filled_quantity : Z;
  average_price : Q;
  trigger_price : Q;
  validity : string;
  status : string;
  disclosed_quantity : Z;
  market_protection : Q;
  (* annotated [datetime]; the persistence code treats both as nullable *)
  order_timestamp : option datetime;
  exchange_timestamp : option datetime;
  exchange_order_id : string;
  parent_order_id : option string;
  trade_type : string;
  tax_category : string;
  stt_paid : Q;
  brokerage : Q;
  taxes : Q;
  turnover_charges : Q;
  stamp_duty : Q;
  date : option datetime
}.

(** [Trade.net_pnl] *)
Definition net_pnl (self : Trade) : Q :=
  let gross_pnl :=
    if String.eqb (transaction_type self) "BUY"
    then average_price self * inject_Z (filled_quantity self)
    else - (average_price self * inject_Z (filled_quantity self)) in
  let total_fees :=
    stt_paid self + brokerage self + taxes self + turnover_charges self
    + stamp_duty self in
  gross_pnl - total_fees.

(** Every timestamp a [Trade] carries is a datetime Python can construct. *)
Definition opt_valid (d : option datetime) : bool :=
  match d with
  | Some d => valid d
  | None => true
  end.

Definition well_formed (t : Trade) : bool :=
  opt_valid (order_timestamp t) && opt_valid (exchange_timestamp t)
  && opt_valid (date t).

End Models.


(** ** database/generic_dao.py and database/database.py *)

Module Database.
Import Py.
Import Datetime.
Import Models.
Local Open Scope py_scope.

(** A value bound to, or read from, a column. *)
Inductive sql_value : Type :=
| SqlNull
| SqlInteger (z : Z)
| SqlReal (q : Q)
| SqlText (s : string).

(** A Python [dict] from column names to values, in insertion order. *)
Definition row : Type := list (string * sql_value).

Fixpoint dict_get (d : row) (k : string) : option sql_value :=
  match d with
  | [] => None
  | (k', v) :: rest => if String.eqb k' k then Some v else dict_get rest k
  end.

Definition keys (d : row) : list string := map fst d.

(** The [trades] table of [DatabaseManager.init_db]: the rows in insertion
    order and the last key that [AUTOINCREMENT] handed out.  The column
    [created_at] is left out: nothing reads it. *)
Record db : Type := {
  trades : list row;
  last_rowid : Z
}.

Definition empty_db : db := {| trades := []; last_rowid := 0 |}.

(** Columns declared [NOT NULL] without a default. *)
Definition trades_not_null : list string :=
  ["order_id"; "symbol"; "exchange"; "instrument_token"; "transaction_type";
   "order_type"; "product"; "quantity"; "price"; "filled_quantity";
   "average_price"; "trigger_price"; "validity"; "status";
   "disclosed_quantity"; "market_protection"].

(** The columns of the table after [id], with their [DEFAULT]. *)
Definition trades_schema : list (string * sql_value) :=
  [("order_id", SqlNull); ("symbol", SqlNull); ("exchange", SqlNull);
   ("instrument_token", SqlNull); ("transaction_type", SqlNull);
   ("order_type", SqlNull); ("product", SqlNull); ("quantity", SqlNull);
   ("price", SqlNull); ("filled_quantity", SqlNull);
   ("average_price", SqlNull); ("trigger_price", SqlNull);
   ("validity", SqlNull); ("status", SqlNull);
   ("disclosed_quantity", SqlNull); ("market_protection", SqlNull);
   ("order_timestamp", SqlNull); ("exchange_timestamp", SqlNull);
   ("exchange_order_id", SqlNull); ("parent_order_id", SqlNull);
   ("trade_type", SqlText "fno"); ("tax_category", SqlText "STT_applicable");
   ("stt_paid", SqlReal 0.0); ("brokerage", SqlReal 0.0);
   ("taxes", SqlReal 0.0); ("turnover_charges", SqlReal 0.0);
   ("stamp_duty", SqlReal 0.0); ("date", SqlNull)].

Definition is_null (v : sql_value) : bool :=
  match v with
  | SqlNull => true
  | _ => false
  end.

(** SQL [=] on two values: [NULL] equals nothing. *)
Definition sql_eqb (a b : sql_value) : bool :=
  match a, b with
  | SqlInteger x, SqlInteger y => Z.eqb x y
  | SqlReal x, SqlReal y => Qeq_bool x y
  | SqlText x, SqlText y => String.eqb x y
  | _, _ => false
  end.

Definition column_is (col : string) (v : sql_value) (r : row) : bool :=
  match dict_get r col with
  | Some v' => sql_eqb v' v
  | None => false
  end.

(** [INSERT OR REPLACE INTO trades (columns) VALUES (values)]: columns that
    are not named take their default, a [NULL] in a [NOT NULL] column
    aborts the statement, and the rows that hold the same [order_id]
    ([UNIQUE]) are deleted before the new row is written. *)
Definition insert_or_replace (d : db) (columns : list string)
  (values : list sql_value) : result db :=
  match columns with
  | [] => raise (OperationalError "syntax error")
  | _ =>
    let bound := combine columns values in
    let new_row :=
      map (fun cd : string * sql_value =>
             match dict_get bound (fst cd) with
             | Some v => (fst cd, v)
             | None => cd
             end) trades_schema in
    if existsb (fun c => match dict_get new_row c with
                         | Some v => is_null v
                         | None => true
                         end) trades_not_null
    then raise (IntegrityError "NOT NULL constraint failed")
    else
      let rowid := (last_rowid d + 1)%Z in
      let key := match dict_get new_row "order_id" with
                 | Some v => v
                 | None => SqlNull
                 end in
      ret {| trades :=
               (filter (fun r => negb (column_is "order_id" key r)) (trades d)
                ++ [("id", SqlInteger rowid) :: new_row])%list;
             last_rowid := rowid |}
  end.

(** [SELECT * FROM trades WHERE <column> = ?] followed by [fetchone()]. *)
Definition select_one (d : db) (column : string) (v : sql_value)
  : option row :=
  find (column_is column v) (trades d).

(** The attributes of a [GenericDAO] instance. *)
Record GenericDAO : Type := {
  table_name : string;
  columns : list string;
  primary_key : string
}.

(** [TradeDAO.__init__] *)
Definition TradeDAO : GenericDAO :=
  {| table_name := "trades";
     primary_key := "order_id";
     columns :=
       ["order_id"; "symbol"; "exchange"; "instrument_token";
        "transaction_type"; "order_type"; "product"; "quantity"; "price";
        "filled_quantity"; "average_price"; "trigger_price"; "validity";
        "status"; "disclosed_quantity"; "market_protection";
        "order_timestamp"; "exchange_timestamp"; "exchange_order_id";
        "parent_order_id"; "trade_type"; "tax_category"; "stt_paid";
        "brokerage"; "taxes"; "turnover_charges"; "stamp_duty"; "date"] |}.

(** [GenericDAO.insert]: any exception of the statement is logged and
    reported as [False]; the rolled-back database is the old one. *)
Definition insert (self : GenericDAO) (d : db) (data : row) : db * bool :=
  let columns := filter (fun k => str_in k (columns self)) (keys data) in
  let values :=
    map (fun k => match dict_get data k with
                  | Some v => v
                  | None => SqlNull
                  end) columns in
  match insert_or_replace d columns values with
  | inr d' => (d', true)
  | inl _ => (d, false)
  end.

(** [GenericDAO.get_by_id] *)
Definition get_by_id (self : GenericDAO) (d : db) (item_id : sql_value)
  : option row :=
  select_one d (primary_key self) item_id.

Definition opt_isoformat (d : option datetime) : sql_value :=
  match d with
  | Some d => SqlText (isoformat d)
  | None => SqlNull
  end.

Definition opt_text (s : option string) : sql_value :=
  match s with
  | Some s => SqlText s
  | None => SqlNull
  end.

(** [TradeDAO.insert_trade] *)
Definition insert_trade (self : GenericDAO) (d : db) (trade : Trade)
  : db * bool :=
  let order_timestamp_str := opt_isoformat (order_timestamp trade) in
  let exchange_timestamp_str := opt_isoformat (exchange_timestamp trade) in
  let date_str := opt_isoformat (date trade) in
  let trade_dict : row :=
    [("order_id", SqlText (order_id trade));
     ("symbol", SqlText (symbol trade));
     ("exchange", SqlText (exchange trade));
     ("instrument_token", SqlInteger (instrument_token trade));
     ("transaction_type", SqlText (transaction_type trade));
     ("order_type", SqlText (order_type trade));
     ("product", SqlText (product trade));
     ("quantity", SqlInteger (quantity trade));
     ("price", SqlReal (price trade));
     ("filled_quantity", SqlInteger (filled_quantity trade));
     ("average_price", SqlReal (average_price trade));
     ("trigger_price", SqlReal (trigger_price trade));
     ("validity", SqlText (validity trade));
     ("status", SqlText (status trade));
     ("disclosed_quantity", SqlInteger (disclosed_quantity trade));
     ("market_protection", SqlReal (market_protection trade));
     ("order_timestamp", order_timestamp_str);
     ("exchange_timestamp", exchange_timestamp_str);
     ("exchange_order_id", SqlText (exchange_order_id trade));
     ("parent_order_id", opt_text (parent_order_id trade));
     ("trade_type", SqlText (trade_type trade));
     ("tax_category", SqlText (tax_category trade));
     ("stt_paid", SqlReal (stt_paid trade));
     ("brokerage", SqlReal (brokerage trade));
     ("taxes", SqlReal (taxes trade));
     ("turnover_charges", SqlReal (turnover_charges trade));
     ("stamp_duty", SqlReal (stamp_duty trade));
     ("date", date_str)] in
  insert self d trade_dict.

(** [row[key]] *)
Definition getitem (r : row) (key : string) : result sql_value :=
  match dict_get r key with
  | Some v => ret v
  | None => raise (KeyError key)
  end.

(** [row.get(key, default)] *)
Definition get (r : row) (key : string) (default : sql_value) : sql_value :=
  match dict_get r key with
  | Some v => v
  | None => default
  end.

(** The [Trade] record is typed: a column read into a field must hold the
    storage class the schema declares for it.  A row written by
    [insert_trade] always does; any other value is outside the model and is
    reported as a [TypeError]. *)
Definition as_text (v : sql_value) : result string :=
  match v with
  | SqlText s => ret s
  | _ => raise (TypeError "expected TEXT")
  end.

Definition as_integer (v : sql_value) : result Z :=
  match v with
  | SqlInteger z => ret z
  | _ => raise (TypeError "expected INTEGER")
  end.

Definition as_real (v : sql_value) : result Q :=
  match v with
  | SqlReal q => ret q
  | _ => raise (TypeError "expected REAL")
  end.

Definition as_optional_text (v : sql_value) : result (option string) :=
  match v with
  | SqlNull => ret None
  | SqlText s => ret (Some s)
  | _ => raise (TypeError "expected TEXT or NULL")
  end.

(** [datetime.fromisoformat(v) if v else None] *)
Definition opt_fromisoformat (v : sql_value) : result (option datetime) :=
  match v with
  | SqlNull => ret None
  | SqlText "" => ret None
  | SqlText s => d <- fromisoformat s ;; ret (Some d)
  | _ => raise (TypeError "fromisoformat: argument must be str")
  end.

(** [TradeDAO._row_to_trade] *)
Definition _row_to_trade (r : row) : result Trade :=
  v <- getitem r "order_timestamp" ;;
  order_timestamp <- opt_fromisoformat v ;;
  v <- getitem r "exchange_timestamp" ;;
  exchange_timestamp <- opt_fromisoformat v ;;
  v <- getitem r "date" ;;
  date <- opt_fromisoformat v ;;
  order_id <- (v <- getitem r "order_id" ;; as_text v) ;;
  symbol <- (v <- getitem r "symbol" ;; as_text v) ;;
  exchange <- (v <- getitem r "exchange" ;; as_text v) ;;
  instrument_token <- (v <- getitem r "instrument_token" ;; as_integer v) ;;
  transaction_type <- (v <- getitem r "transaction_type" ;; as_text v) ;;
  order_type <- (v <- getitem r "order_type" ;; as_text v) ;;
  product <- (v <- getitem r "product" ;; as_text v) ;;
  quantity <- (v <- getitem r "quantity" ;; as_integer v) ;;
  price <- (v <- getitem r "price" ;; as_real v) ;;
  filled_quantity <- (v <- getitem r "filled_quantity" ;; as_integer v) ;;
  average_price <- (v <- getitem r "average_price" ;; as_real v) ;;
  trigger_price <- (v <- getitem r "trigger_price" ;; as_real v) ;;
  validity <- (v <- getitem r "validity" ;; as_text v) ;;
  status <- (v <- getitem r "status" ;; as_text v) ;;
  disclosed_quantity <- (v <- getitem r "disclosed_quantity" ;; as_integer v) ;;
  market_protection <- (v <- getitem r "market_protection" ;; as_real v) ;;
  exchange_order_id <- (v <- getitem r "exchange_order_id" ;; as_text v) ;;
  parent_order_id <- (v <- getitem r "parent_order_id" ;; as_optional_text v) ;;
  trade_type <- as_text (get r "trade_type" (SqlText "fno")) ;;
  tax_category <- as_text (get r "tax_category" (SqlText "STT_applicable")) ;;
  stt_paid <- as_real (get r "stt_paid" (SqlReal 0.0)) ;;
  brokerage <- as_real (get r "brokerage" (SqlReal 0.0)) ;;
  taxes <- as_real (get r "taxes" (SqlReal 0.0)) ;;
  turnover_charges <- as_real (get r "turnover_charges" (SqlReal 0.0)) ;;
  stamp_duty <- as_real (get r "stamp_duty" (SqlReal 0.0)) ;;
  ret {| Models.order_id := order_id;
         Models.symbol := symbol;
         Models.exchange := exchange;
         Models.instrument_token := instrument_token;
         Models.transaction_type := transaction_type;
         Models.order_type := order_type;
         Models.product := product;
         Models.quantity := quantity;
         Models.price := price;
         Models.filled_quantity := filled_quantity;
         Models.average_price := average_price;
         Models.trigger_price := trigger_price;
         Models.validity := validity;
         Models.status := status;
         Models.disclosed_quantity := disclosed_quantity;
         Models.market_protection := market_protection;
         Models.order_timestamp := order_timestamp;
         Models.exchange_timestamp := exchange_timestamp;
         Models.exchange_order_id := exchange_order_id;
         Models.parent_order_id := parent_order_id;
         Models.trade_type := trade_type;
         Models.tax_category := tax_category;
         Models.stt_paid := stt_paid;
         Models.brokerage := brokerage;
         Models.taxes := taxes;
         Models.turnover_charges := turnover_charges;
         Models.stamp_duty := stamp_duty;
         Models.date := date |}.

(** [TradeDAO.get_trade_by_id]: [None] when no row matches; an exception of
    [_row_to_trade] is not caught here. *)
Definition get_trade_by_id (self : GenericDAO) (d : db) (order_id : string)
  : result (option Trade) :=
  match get_by_id self d (SqlText order_id) with
  | None => ret None
  | Some [] => ret None
  | Some r => t <- _row_to_trade r ;; ret (Some t)
  end.

(** [DatabaseManager.insert_trade] and [DatabaseManager.get_trade_by_id]
    delegate to the [TradeDAO] of the same database file. *)
Module DatabaseManager.

Definition insert_trade (d : db) (trade : Trade) : db * bool :=
  Database.insert_trade TradeDAO d trade.

Definition get_trade_by_id (d : db) (order_id : string)
  : result (option Trade) :=
  Database.get_trade_by_id TradeDAO d order_id.

End DatabaseManager.

End Database.


(** ** utils/setup_utils.py *)

Module SetupUtils.
Import Py.
Local Open Scope py_scope.

Inductive breaker_state : Type := CLOSED | OPEN | HALF_OPEN.

(** The variables of [decorator] that outlive a call of [wrapper].  The
    wrapper declares [nonlocal state, last_failure_time] only. *)
Record cells : Type := {
  calls : list Q;
  failures : list Q;
  state : breaker_state;
  last_failure_time : option Q
}.

(** The body of [decorator] before it returns [wrapper]. *)
Definition decorator : cells :=
  {| calls := []; failures := []; state := CLOSED; last_failure_time := None |}.

Definition set_state (c : cells) (s : breaker_state) : cells :=
  {| calls := calls c; failures := failures c; state := s;
     last_failure_time := last_failure_time c |}.

Definition open_at (c : cells) (now : Q) : cells :=
  {| calls := calls c; failures := failures c; state := OPEN;
     last_failure_time := Some now |}.

(** The local variables of one activation of [wrapper].  [failures] and
    [calls] are assigned in the body of [wrapper] (the two list
    comprehensions) and are not declared [nonlocal]: Python compiles both
    as locals of [wrapper], unbound when the activation starts. *)
Record frame : Type := {
  local_failures : option (list Q);
  local_calls : option (list Q)
}.

Definition fresh_frame : frame :=
  {| local_failures := None; local_calls := None |}.

(** Reading a local variable. *)
Definition load (name : string) (v : option (list Q)) : result (list Q) :=
  match v with
  | Some l => ret l
  | None =>
      raise (UnboundLocalError
        ("cannot access local variable '" ++ name
         ++ "' where it is not associated with a value"))
  end.

(** Truth value of [last_failure_time]: [None] and [0.0] are false. *)
Definition truthy (t : option Q) : bool :=
  match t with
  | Some t => negb (Qeq_bool t 0)
  | None => false
  end.

(** What one call of [wrapper] did. *)
Record report (A : Type) : Type := {
  invoked : bool;          (* was [func] called? *)
  outcome : result A       (* the value returned or the exception raised *)
}.
Arguments invoked {A} _.
Arguments outcome {A} _.

(** The [except Exception as e] block of [wrapper], entered with a fresh
    frame; [now] is the reading of [time.time()]. *)
Definition on_failure (failure_threshold : Z) (c : cells) (fr : frame)
  (now : Q) : result cells :=
  fs <- load "failures" (local_failures fr) ;;
  let fs := (fs ++ [now])%list in
  cs <- load "calls" (local_calls fr) ;;
  let cs := (cs ++ [now])%list in
  let cutoff := now - 300 in
  let fs := filter (fun t => gt t cutoff) fs in
  let cs := filter (fun t => gt t cutoff) cs in
  if (failure_threshold <=? Z.of_nat (length fs))%Z
  then ret (open_at c now)
  else ret c.

(** One call of the function that [circuit_breaker(failure_threshold,
    timeout)] returns for [func].  [func_result] is what [func] does if it
    is called. *)
Definition wrapper {A} (failure_threshold : Z) (timeout : Q)
  (c : cells) (now : Q) (func_result : result A) : cells * report A :=
  let gate : result cells :=
    match state c with
    | OPEN =>
        if truthy (last_failure_time c)
           && gt (now - match last_failure_time c with
                        | Some t => t
                        | None => 0
                        end) timeout
        then ret (set_state c HALF_OPEN)
        else raise (Exception "Circuit breaker is OPEN")
    | _ => ret c
    end in
  match gate with
  | inl e => (c, {| invoked := false; outcome := inl e |})
  | inr c =>
      match func_result with
      | inr result =>
          let c := match state c with
                   | HALF_OPEN => set_state c CLOSED
                   | _ => c
                   end in
          (c, {| invoked := true; outcome := inr result |})
      | inl e =>
          match on_failure failure_threshold c fresh_frame now with
          | inr c' => (c', {| invoked := true; outcome := inl e |})
          | inl e' => (c, {| invoked := true; outcome := inl e' |})
          end
      end
  end.

(** A sequence of calls: each call comes with the clock reading and with
    what the wrapped function would do. *)
Fixpoint run {A} (failure_threshold : Z) (timeout : Q) (c : cells)
  (events : list (Q * result A)) : cells * list (report A) :=
  match events with
  | [] => (c, [])
  | (now, func_result) :: rest =>
      let (c1, r) := wrapper failure_threshold timeout c now func_result in
      let (c2, rs) := run failure_threshold timeout c1 rest in
      (c2, r :: rs)
  end.

End SetupUtils.

(** ** models/enums.py *)

Module Enums.

Inductive StrategyType : Type := CASH_SECURED_PUT | COVERED_CALL.

End Enums.

(** ** risk_management/risk_manager.py *)

Module RiskManagement.
Import Py.
Import Config.
Import Models.
Import Enums.
Local Open Scope py_scope.

(** [RiskConfig]; the defaults are read from the settings record. *)
Record RiskConfig : Type := {
  daily_loss_limit : Q;
  position_size_limit : Q;
  portfolio_risk_limit : Q;
  max_concurrent_positions : Z;
  margin_utilization_limit : Q;
  max_portfolio_value_at_risk : Q
}.

Definition default_RiskConfig (config : OptionWheelConfig) : RiskConfig :=
  {| daily_loss_limit := max_daily_loss_limit config;
     position_size_limit := 0.10;
     portfolio_risk_limit := max_portfolio_risk config;
     max_concurrent_positions := Config.max_concurrent_positions config;
     margin_utilization_limit := 0.95;
     max_portfolio_value_at_risk := 0.15 |}.

(** The fields of [Position] that the risk manager reads. *)
Record Position : Type := {
  pos_symbol : string;
  pos_quantity : Z;
  pos_average_price : Q;
  pos_last_price : Q
}.

(** The attributes of a [RiskManager] instance. *)
Record RiskManager : Type := {
  risk_config : RiskConfig;
  daily_pnl : Q;
  daily_losses : Q;
  current_positions : list (string * Position);
  trades_today : list Trade;
  portfolio_value : Q;
  cash_available : Q;
  margin_available : Q;
  margin_used : Q
}.

(** [RiskManager.__init__] *)
Definition init (rc : RiskConfig) : RiskManager :=
  {| risk_config := rc;
     daily_pnl := 0.0;
     daily_losses := 0.0;
     current_positions := [];
     trades_today := [];
     portfolio_value := 0.0;
     cash_available := 0.0;
     margin_available := 0.0;
     margin_used := 0.0 |}.

(** [RiskManager.update_portfolio_value] *)
Definition update_portfolio_value (self : RiskManager) (v : Q) : RiskManager :=
  {| risk_config := risk_config self;
     daily_pnl := daily_pnl self;
     daily_losses := daily_losses self;
     current_positions := current_positions self;
     trades_today := trades_today self;
     portfolio_value := v;
     cash_available := cash_available self;
     margin_available := margin_available self;
     margin_used := margin_used self |}.

(** [RiskManager.add_trade] *)
Definition add_trade (self : RiskManager) (trade : Trade) : RiskManager :=
  {| risk_config := risk_config self;
     daily_pnl := daily_pnl self;
     daily_losses := daily_losses self;
     current_positions := current_positions self;
     trades_today := (trades_today self ++ [trade])%list;
     portfolio_value := portfolio_value self;
     cash_available := cash_available self;
     margin_available := margin_available self;
     margin_used := margin_used self |}.

(** [RiskManager._calculate_required_margin] *)
Definition _calculate_required_margin (self : RiskManager) (trade : Trade)
  : Q :=
  if String.eqb (transaction_type trade) "BUY" then
    price trade * inject_Z (quantity trade)
  else if contains "CE" (symbol trade) || contains "PE" (symbol trade) then
    min (price trade * inject_Z (quantity trade) * 2)
        (daily_loss_limit (risk_config self))
  else
    price trade * inject_Z (quantity trade) * 0.2.

Section Formatting.

(** Python's rendering of a float in an f-string: [{x}] and [{x:.2%}]. *)
Variable repr_float : Q -> string.
Variable format_percent : Q -> string.

(** The [try] block of [RiskManager.should_place_order]; the optional
    [position] argument is not read by the source and is left out. *)
Definition should_place_order_body (self : RiskManager) (trade : Trade)
  : result (bool * string) :=
  let rc := risk_config self in
  if ge (daily_losses self) (daily_loss_limit rc) then
    ret (false, "Daily loss limit exceeded: " ++ repr_float (daily_losses self)
                ++ " >= " ++ repr_float (daily_loss_limit rc))
  else if (max_concurrent_positions rc
           <=? Z.of_nat (length (current_positions self)))%Z then
    ret (false, "Maximum concurrent positions reached: "
                ++ str_int (Z.of_nat (length (current_positions self)))
                ++ " >= " ++ str_int (max_concurrent_positions rc))
  else
    let position_value := abs (price trade * inject_Z (quantity trade)) in
    denied <-
      (if gt (portfolio_value self) 0 then
         position_size_percentage <-
           truediv position_value (portfolio_value self) ;;
         if gt position_size_percentage (position_size_limit rc) then
           ret (Some ("Position size exceeds limit: "
                      ++ format_percent position_size_percentage ++ " > "
                      ++ format_percent (position_size_limit rc)))
         else ret None
       else ret None) ;;
    match denied with
    | Some reason => ret (false, reason)
    | None =>
        let required_margin := _calculate_required_margin self trade in
        if lt (cash_available self) required_margin then
          ret (false, "Insufficient margin: Available "
                      ++ repr_float (cash_available self) ++ ", Required "
                      ++ repr_float required_margin)
        else
          denied <-
            (if gt (margin_available self) 0 then
               margin_utilization <-
                 truediv (margin_used self + required_margin)
                         (margin_available self + margin_used self) ;;
               if gt margin_utilization (margin_utilization_limit rc) then
                 ret (Some ("Margin utilization exceeds limit: "
                            ++ format_percent margin_utilization ++ " > "
                            ++ format_percent (margin_utilization_limit rc)))
               else ret None
             else ret None) ;;
          match denied with
          | Some reason => ret (false, reason)
          | None => ret (true, "Order approved")
          end
    end.

(** [RiskManager.should_place_order]: the instance after the call, and what
    the call returned or raised. *)
Definition should_place_order (self : RiskManager) (trade : Trade)
  : RiskManager * result (bool * string) :=
  match should_place_order_body self trade with
  | inr answer => (self, ret answer)
  | inl e => (self, ret (false, "Risk check failed: " ++ str_exn e))
  end.

End Formatting.

(** [RiskManager.calculate_max_position_size] *)
Definition calculate_max_position_size (config : OptionWheelConfig)
  (self : RiskManager) (underlying_price : Q) (strategy_type : StrategyType)
  : result Z :=
  if le (portfolio_value self) 0 then ret 0%Z
  else
    let max_risk := portfolio_value self * risk_per_trade_percent config in
    max_lots <-
      match strategy_type with
      | CASH_SECURED_PUT =>
          let strike_price := underlying_price * 0.95 in
          truediv max_risk (strike_price * inject_Z (quantity_per_lot config))
      | COVERED_CALL =>
          truediv max_risk
                  (underlying_price * inject_Z (quantity_per_lot config))
      end ;;
    let max_position_size :=
      (int_of_float max_lots * quantity_per_lot config)%Z in
    let max_position_size :=
      if (max_position_size <? quantity_per_lot config)%Z then
        if ge max_risk (underlying_price * inject_Z (quantity_per_lot config))
        then quantity_per_lot config
        else 0%Z
      else max_position_size in
    ret max_position_size.

End RiskManagement.


(** ** ai/base.py *)

Module AIBase.
Import Py.
Import Config.

(** [AIBase.__init__]: the set of enabled features. *)
Definition enabled_features (config : OptionWheelConfig) : list string :=
  if enable_ai_features config then ai_features config else [].

(** [AIBase.is_enabled], through the module-level [is_enabled]. *)
Definition is_enabled (config : OptionWheelConfig) (feature_flag : string)
  : bool :=
  enable_ai_features config && str_in feature_flag (enabled_features config).

End AIBase.

(** ** ai/kill/semantic_kill.py *)

Module SemanticKill.
Import Py.
Import Config.
Import AIBase.
Local Open Scope py_scope.

(** What lines 44-90 of [judge_message] come to for a message: the model
    is asked and its answer is read as JSON. *)
Inductive llm_answer : Type :=
| Judged (decision : string) (confidence : Q) (explanation : string)
| Malformed                (* JSONDecodeError, ValueError or KeyError *)
| Failed (e : exn).        (* any other exception *)

Section Judge.

(** The outside world: the regular-expression engine, [str.lower().strip()],
    the language model behind [call_llm] with [json.loads], and the
    rendering of a float in an f-string. *)
Variable re_search : string -> string -> bool.
Variable lower_strip : string -> string.
Variable ask_llm : string -> llm_answer.
Variable repr_float : Q -> string.

(** [_check_obvious_kill_intent] *)
Definition _check_obvious_kill_intent (message_text : string) : bool * Q :=
  let text_lower := lower_strip message_text in
  let high_confidence_patterns :=
    ["\b(stop|halt|emergency|kill|shutdown|terminate)\b";
     "\b(immediate|urgent|now|asap)\s+(stop|halt|kill|shutdown)\b";
     "^(stop|halt|kill|shutdown)\s*(now|immediately|right\s*away)?\s*$";
     "\b(emergency\s+stop|kill\s+switch|emergency\s+kill)\b"] in
  let medium_confidence_patterns :=
    ["\b(pause|suspend|disable)\b";
     "\b(problem|issue|broken|not\s+working)\b";
     "\b(loss(es)?|drawdown|crash|disaster)\b";
     "\b(help|assistance|required)\s+(stop|halt|pause)\b"] in
  if existsb (fun pattern => re_search pattern text_lower)
       high_confidence_patterns
  then (true, 0.95)
  else if existsb (fun pattern => re_search pattern text_lower)
            medium_confidence_patterns
  then (true, 0.75)
  else (false, 0.1).

Definition count_keywords (keywords : list string) (text : string) : Z :=
  Z.of_nat (length (filter (fun keyword => contains keyword text) keywords)).

(** [_heuristic_judgment]; the score in the explanation is rendered by
    [str_int]. *)
Definition _heuristic_judgment (message_text : string)
  : string * Q * string :=
  let text_lower := lower_strip message_text in
  let crisis_keywords :=
    ["emergency"; "crisis"; "disaster"; "panic"; "catastrophe";
     "critical"; "urgent"; "immediate"; "asap"; "now"] in
  let stop_keywords :=
    ["stop"; "halt"; "kill"; "shutdown"; "terminate"; "cancel";
     "pause"; "suspend"; "disable"; "freeze"] in
  let concern_keywords :=
    ["problem"; "issue"; "broken"; "not working"; "error";
     "loss"; "drawdown"; "crash"; "down"] in
  let crisis_score := count_keywords crisis_keywords text_lower in
  let stop_score := count_keywords stop_keywords text_lower in
  let concern_score := count_keywords concern_keywords text_lower in
  let total_score := (crisis_score * 3 + stop_score * 2 + concern_score)%Z in
  if (5 <=? total_score)%Z then
    ("KILL", 0.9, "High crisis score: " ++ str_int total_score)
  else if (3 <=? total_score)%Z then
    ("PAUSE", 0.7, "Medium stop score: " ++ str_int total_score)
  else if (1 <=? total_score)%Z then
    ("INQUIRE", 0.4, "Low concern score: " ++ str_int total_score)
  else
    ("OK", 0.2, "No clear intent detected, score: " ++ str_int total_score).

(** The value an f-string shows for the configured threshold. *)
Definition show_threshold (v : pyval) : string :=
  match v with
  | PyFloat q => repr_float q
  | PyStr s => s
  end.

(** The [try] block of [judge_message]. *)
Definition judge_message_body (config : OptionWheelConfig)
  (message_text : string) : result (bool * Q * string) :=
  let '(has_obvious_kill_intent, regex_confidence) :=
    _check_obvious_kill_intent message_text in
  if has_obvious_kill_intent && ge regex_confidence 0.95 then
    ret (true, regex_confidence, "Obvious kill command detected")
  else
    judged <-
      match ask_llm message_text with
      | Judged decision confidence explanation =>
          ret (decision, confidence, explanation)
      | Malformed => ret (_heuristic_judgment message_text)
      | Failed e => raise e
      end ;;
    let '(decision, confidence, explanation) := judged in
    let should_activate := str_in decision ["KILL"; "PAUSE"] in
    below <- float_lt confidence (semantic_kill_confidence_threshold config) ;;
    if below then
      ret (false, confidence * 0.5,
           explanation ++ " (Confidence below threshold "
           ++ show_threshold (semantic_kill_confidence_threshold config)
           ++ ")")
    else
      ret (should_activate, confidence, explanation).

(** [judge_message] *)
Definition judge_message (config : OptionWheelConfig) (message_text : string)
  : bool * Q * string :=
  if negb (is_enabled config "semantic_kill") then
    (false, 0.0, "Feature disabled")
  else
    match judge_message_body config message_text with
    | inr answer => answer
    | inl e => (false, 0.1, "Error in judgment: " ++ str_exn e)
    end.

End Judge.

End SemanticKill.

(** ** ai/slippage/predictor.py *)

Module SlippagePredictor.
Import Py.
Import Config.
Import AIBase.
Import Datetime.
Local Open Scope py_scope.

(** An entry of the order dictionary: the key is absent, or it is bound to
    [None] or to a number.  Orders with values of other types are outside
    the model. *)
Inductive entry : Type :=
| Absent
| IsNone
| Num (q : Q).

(** A looked-up value. *)
Inductive value : Type :=
| VNone
| VNum (q : Q).

(** The keys of [order_dict] that [_extract_features] reads; [timestamp]
    is absent or [None] ([None] here), or a [datetime]. *)
Record order : Type := {
  bid_ask_spread : entry;
  seconds_to_expiry : entry;
  open_interest : entry;
  volume : entry;
  vwap_deviation : entry;
  event_dummy : entry;
  quantity : entry;
  price : entry;
  market_volatility : entry;
  order_book_imbalance : entry;
  timestamp : option datetime;
  delta : entry
}.

(** [order_dict.get(key, default)] *)
Definition get (e : entry) (default : Q) : value :=
  match e with
  | Absent => VNum default
  | IsNone => VNone
  | Num q => VNum q
  end.

(** Arithmetic on looked-up values: [None] is not a number. *)
Definition number_of (v : value) : result Q :=
  match v with
  | VNum q => ret q
  | VNone => raise (TypeError "unsupported operand type(s): 'NoneType'")
  end.

Definition truth (v : value) : bool :=
  match v with
  | VNum q => negb (Qeq_bool q 0)
  | VNone => false
  end.

(** [_get_time_of_day_factor]; [now] is the reading of [datetime.now()]. *)
Definition _get_time_of_day_factor (now : datetime)
  (timestamp : option datetime) : Q :=
  let timestamp := match timestamp with
                   | Some t => t
                   | None => now
                   end in
  let hour := Z.of_N (hour timestamp) in
  let minute := Z.of_N (minute timestamp) in
  let minutes_from_open := (hour * 60 + minute - (9 * 60 + 15))%Z in
  if (minutes_from_open <? 0)%Z then 1.0
  else if (minutes_from_open <? 30)%Z then 1.5
  else if (6 * 60 - 30 <? minutes_from_open)%Z then 1.4
  else if (hour =? 15)%Z && (0 <=? minute)%Z then 1.3
  else 1.0.

(** The dictionary [_extract_features] returns. *)
Record features : Type := {
  f_bid_ask_spread : value;
  f_seconds_to_expiry : value;
  f_open_interest : value;
  f_volume : value;
  f_vwap_deviation : value;
  f_event_dummy : value;
  f_order_size : Q;
  f_market_volatility : value;
  f_order_book_imbalance : value;
  f_time_of_day_factor : Q;
  f_option_greek : value
}.

(** [_extract_features] *)
Definition _extract_features (now : datetime) (order_dict : order)
  : result features :=
  q <- number_of (get (quantity order_dict) 50) ;;
  p <- number_of (get (price order_dict) 100) ;;
  ret {| f_bid_ask_spread := get (bid_ask_spread order_dict) 0.1;
         f_seconds_to_expiry := get (seconds_to_expiry order_dict) 2592000;
         f_open_interest := get (open_interest order_dict) 10000;
         f_volume := get (volume order_dict) 1000;
         f_vwap_deviation := get (vwap_deviation order_dict) 0.02;
         f_event_dummy := get (event_dummy order_dict) 0;
         f_order_size := q * p;
         f_market_volatility := get (market_volatility order_dict) 0.20;
         f_order_book_imbalance := get (order_book_imbalance order_dict) 0.0;
         f_time_of_day_factor :=
           _get_time_of_day_factor now (timestamp order_dict);
         f_option_greek := get (delta order_dict) 0.3 |}.

(** [_calculate_predicted_slippage] *)
Definition _calculate_predicted_slippage (f : features) : result Q :=
  let base_slippage := 5.0 in
  spread <- number_of (f_bid_ask_spread f) ;;
  let spread_factor := spread * 50 in
  let size_factor := min (f_order_size f / 100000) 2.0 in
  oi <- number_of (f_open_interest f) ;;
  let liquidity_factor := max (1.0 - oi / 100000) 0.2 in
  vol <- number_of (f_market_volatility f) ;;
  let vol_factor := vol * 10 in
  let time_factor := f_time_of_day_factor f in
  let predicted_slippage :=
    base_slippage + spread_factor + size_factor + vol_factor in
  let predicted_slippage := predicted_slippage * liquidity_factor in
  let predicted_slippage := predicted_slippage * time_factor in
  let predicted_slippage :=
    if truth (f_event_dummy f) then predicted_slippage * 1.5
    else predicted_slippage in
  let predicted_slippage := max 1.0 (min predicted_slippage 100.0) in
  ret predicted_slippage.

(** The [try] block of [predict]. *)
Definition predict_body (now : datetime) (order_dict : order) : result Q :=
  features <- _extract_features now order_dict ;;
  _calculate_predicted_slippage features.

(** [predict] *)
Definition predict (config : OptionWheelConfig) (now : datetime)
  (order_dict : order) : number :=
  if negb (is_enabled config "slippage") then Int (slippage_bps config)
  else
    match predict_body now order_dict with
    | inr predicted_slippage => Float predicted_slippage
    | inl _ => Int (slippage_bps config)
    end.

End SlippagePredictor.


(** ** core/strategy.py *)

Module Strategy.
Import Py.
Import Config.
Import Datetime.
Import Models.
Import Database.
Import RiskManagement.
Local Open Scope py_scope.

(** The parameters of an order sent to the broker client; the keyword
    arguments that the source merges into them are left out. *)
Record order_params : Type := {
  tradingsymbol : string;
  op_exchange : string;
  op_transaction_type : string;
  op_quantity : Z;
  op_order_type : string;
  op_product : string;
  op_price : Q
}.

(** The optional keyword arguments that [place_order] reads. *)
Record kwargs : Type := {
  kw_trigger_price : option Q;
  kw_validity : option string;
  kw_disclosed_quantity : option Z;
  kw_market_protection : option Q;
  kw_parent_order_id : option string
}.

Definition no_kwargs : kwargs :=
  {| kw_trigger_price := None; kw_validity := None;
     kw_disclosed_quantity := None; kw_market_protection := None;
     kw_parent_order_id := None |}.

(** What the outside world answers during one call of [place_order]. *)
Record world : Type := {
  kill_switch_file_exists : bool;   (* [os.path.exists(config.kill_switch_file)] *)
  market_open : bool;               (* [is_market_open()] *)
  unix_time : Z;                    (* [int(datetime.now().timestamp())] *)
  order_time : datetime;            (* [datetime.now()] for [order_timestamp] *)
  exchange_time : datetime;         (* [datetime.now()] for [exchange_timestamp] *)
  typed_confirmation : string;      (* the line [input()] returns *)
  broker_reply : result string      (* what [kite.place_order] does *)
}.

(** The objects [place_order] acts on: the strategy instance, the broker
    client, and the module-level [db_manager], [risk_manager] and
    notification manager. *)
Record system : Type := {
  database : db;
  risk_manager : RiskManager;
  broker_calls : list order_params;         (* calls of [kite.place_order] *)
  notifications : list (string * string);   (* calls of [send_notification] *)
  critical_alerts : list (string * string);
  active_orders : list (string * order_params);
  kill_switch_active : bool;
  trading_enabled : bool
}.

Definition set_kill_switch (s : system) : system :=
  {| database := database s; risk_manager := risk_manager s;
     broker_calls := broker_calls s; notifications := notifications s;
     critical_alerts := critical_alerts s; active_orders := active_orders s;
     kill_switch_active := true; trading_enabled := false |}.

Definition notify (s : system) (title message : string) : system :=
  {| database := database s; risk_manager := risk_manager s;
     broker_calls := broker_calls s;
     notifications := (notifications s ++ [(title, message)])%list;
     critical_alerts := critical_alerts s; active_orders := active_orders s;
     kill_switch_active := kill_switch_active s;
     trading_enabled := trading_enabled s |}.

Definition alert (s : system) (alert_type message : string) : system :=
  {| database := database s; risk_manager := risk_manager s;
     broker_calls := broker_calls s; notifications := notifications s;
     critical_alerts := (critical_alerts s ++ [(alert_type, message)])%list;
     active_orders := active_orders s;
     kill_switch_active := kill_switch_active s;
     trading_enabled := trading_enabled s |}.

Definition record_trade (s : system) (trade : Trade) : system :=
  {| database := fst (DatabaseManager.insert_trade (database s) trade);
     risk_manager := add_trade (risk_manager s) trade;
     broker_calls := broker_calls s; notifications := notifications s;
     critical_alerts := critical_alerts s; active_orders := active_orders s;
     kill_switch_active := kill_switch_active s;
     trading_enabled := trading_enabled s |}.

Definition call_broker (s : system) (p : order_params) : system :=
  {| database := database s; risk_manager := risk_manager s;
     broker_calls := (broker_calls s ++ [p])%list;
     notifications := notifications s;
     critical_alerts := critical_alerts s; active_orders := active_orders s;
     kill_switch_active := kill_switch_active s;
     trading_enabled := trading_enabled s |}.

Definition track_order (s : system) (order_id : string) (p : order_params)
  : system :=
  {| database := database s; risk_manager := risk_manager s;
     broker_calls := broker_calls s; notifications := notifications s;
     critical_alerts := critical_alerts s;
     active_orders :=
       (filter (fun kv => negb (String.eqb (fst kv) order_id))
               (active_orders s) ++ [(order_id, p)])%list;
     kill_switch_active := kill_switch_active s;
     trading_enabled := trading_enabled s |}.

(** [_check_kill_switch] *)
Definition _check_kill_switch (w : world) (s : system) : system * bool :=
  if kill_switch_file_exists w then (set_kill_switch s, true)
  else (s, false).

(** [_confirm_live_trading] *)
Definition _confirm_live_trading (config : OptionWheelConfig) (w : world)
  : bool :=
  if dry_run config then true
  else String.eqb (typed_confirmation w) "CONFIRM".

Definition or_default {A} (o : option A) (default : A) : A :=
  match o with
  | Some a => a
  | None => default
  end.

Section PlaceOrder.

(** Python's rendering of a float in an f-string. *)
Variable repr_float : Q -> string.

(** The synthetic trade of the dry-run branch. *)
Definition mock_trade (w : world) (order_id symbol transaction_type : string)
  (quantity : Z) (price : Q) (order_type product : string) (kw : kwargs)
  : Trade :=
  {| Models.order_id := order_id;
     Models.symbol := symbol;
     Models.exchange := "NFO";
     Models.instrument_token := 0;
     Models.transaction_type := transaction_type;
     Models.order_type := order_type;
     Models.product := product;
     Models.quantity := quantity;
     Models.price := price;
     Models.filled_quantity := quantity;
     Models.average_price := price;
     Models.trigger_price := or_default (kw_trigger_price kw) 0;
     Models.validity := or_default (kw_validity kw) "DAY";
     Models.status := "COMPLETE";
     Models.disclosed_quantity := or_default (kw_disclosed_quantity kw) 0%Z;
     Models.market_protection := or_default (kw_market_protection kw) 0;
     Models.order_timestamp := Some (order_time w);
     Models.exchange_timestamp := Some (exchange_time w);
     Models.exchange_order_id := order_id;
     Models.parent_order_id := kw_parent_order_id kw;
     Models.trade_type := "fno";
     Models.tax_category := "STT_applicable";
     Models.stt_paid := 0;
     Models.brokerage := 0;
     Models.taxes := 0;
     Models.turnover_charges := 0;
     Models.stamp_duty := 0;
     Models.date := None |}.

Definition order_text (transaction_type : string) (quantity : Z)
  (symbol : string) (price : Q) : string :=
  transaction_type ++ " " ++ str_int quantity ++ " " ++ symbol ++ " @ ₹"
  ++ repr_float price.

(** [OptionWheelStrategy.place_order].  The state the [try] block reached
    when an exception is raised is kept: Python does not undo effects. *)
Definition place_order (config : OptionWheelConfig) (w : world) (s : system)
  (symbol transaction_type : string) (quantity : Z) (price : Q)
  (order_type product : string) (kw : kwargs) : system * option string :=
  let (s, killed) := _check_kill_switch w s in
  if killed then (s, None)
  else if negb (market_open w) then (s, None)
  else if (quantity <=? 0)%Z then (s, None)
  else if le price 0 && String.eqb order_type "LIMIT" then (s, None)
  else if dry_run config then
    let order_id := "DRY_RUN_" ++ str_int (unix_time w) in
    let s := notify s "DRY RUN Order Simulation"
               ("[DRY RUN] Order: "
                ++ order_text transaction_type quantity symbol price) in
    let trade := mock_trade w order_id symbol transaction_type quantity price
                   order_type product kw in
    let s := record_trade s trade in
    (s, Some order_id)
  else if negb (_confirm_live_trading config w) then (s, None)
  else
    let order_params :=
      {| tradingsymbol := symbol; op_exchange := "NFO";
         op_transaction_type := transaction_type; op_quantity := quantity;
         op_order_type := order_type; op_product := product;
         op_price := price |} in
    let s := call_broker s order_params in
    match broker_reply w with
    | inr order_id =>
        let s := notify s "Order Notification"
                   ("ORDER PLACED: "
                    ++ order_text transaction_type quantity symbol price
                    ++ " (ID: " ++ order_id ++ ")") in
        let s := track_order s order_id order_params in
        (s, Some order_id)
    | inl e =>
        let s := alert s "ORDER_PLACEMENT_FAILED" (str_exn e) in
        (s, None)
    end.

End PlaceOrder.

End Strategy.


(** ** Inputs used in the examples, and auxiliary definitions *)

Module Examples.

Definition june_first : Datetime.datetime :=
  {| Datetime.year := 2023; Datetime.month := 6; Datetime.day := 1;
     Datetime.hour := 10; Datetime.minute := 30; Datetime.second := 15;
     Datetime.microsecond := 123456 |}.

Definition noon : Datetime.datetime :=
  {| Datetime.year := 2024; Datetime.month := 1; Datetime.day := 15;
     Datetime.hour := 12; Datetime.minute := 0; Datetime.second := 0;
     Datetime.microsecond := 0 |}.

(** The trade of [test_trade_model] and [test_trade_insertion_and_retrieval]
    in [basic_functionality_test.py], with a fixed clock reading. *)
Definition test_trade : Models.Trade :=
  {| Models.order_id := "TEST_ORDER_001";
     Models.symbol := "NIFTY23JUN18000CE";
     Models.exchange := "NFO";
     Models.instrument_token := 12345;
     Models.transaction_type := "SELL";
     Models.order_type := "LIMIT";
     Models.product := "NRML";
     Models.quantity := 50;
     Models.price := 150.0;
     Models.filled_quantity := 50;
     Models.average_price := 150.0;
     Models.trigger_price := 0.0;
     Models.validity := "DAY";
     Models.status := "COMPLETE";
     Models.disclosed_quantity := 0;
     Models.market_protection := 0.0;
     Models.order_timestamp := Some june_first;
     Models.exchange_timestamp := Some june_first;
     Models.exchange_order_id := "TEST_ORDER_001";
     Models.parent_order_id := None;
     Models.trade_type := "fno";
     Models.tax_category := "STT_applicable";
     Models.stt_paid := 0.0;
     Models.brokerage := 0.0;
     Models.taxes := 0.0;
     Models.turnover_charges := 0.0;
     Models.stamp_duty := 0.0;
     Models.date := None |}.

(** A risk manager whose margin figures cancel: the utilisation check
    divides by zero. *)
Definition cancelling_margins : RiskManagement.RiskManager :=
  {| RiskManagement.risk_config :=
       RiskManagement.default_RiskConfig Config.dry_run_defaults;
     RiskManagement.daily_pnl := 0.0;
     RiskManagement.daily_losses := 0.0;
     RiskManagement.current_positions := [];
     RiskManagement.trades_today := [];
     RiskManagement.portfolio_value := 1000000;
     RiskManagement.cash_available := 50000;
     RiskManagement.margin_available := 2000;
     RiskManagement.margin_used := -2000 |}.

(** A fresh risk manager with a given portfolio value. *)
Definition funded (portfolio_value : Q) : RiskManagement.RiskManager :=
  RiskManagement.update_portfolio_value
    (RiskManagement.init
       (RiskManagement.default_RiskConfig Config.dry_run_defaults))
    portfolio_value.

(** An order dictionary without keys, and one whose spread is [None]. *)
Definition empty_order : SlippagePredictor.order :=
  {| SlippagePredictor.bid_ask_spread := SlippagePredictor.Absent;
     SlippagePredictor.seconds_to_expiry := SlippagePredictor.Absent;
     SlippagePredictor.open_interest := SlippagePredictor.Absent;
     SlippagePredictor.volume := SlippagePredictor.Absent;
     SlippagePredictor.vwap_deviation := SlippagePredictor.Absent;
     SlippagePredictor.event_dummy := SlippagePredictor.Absent;
     SlippagePredictor.quantity := SlippagePredictor.Absent;
     SlippagePredictor.price := SlippagePredictor.Absent;
     SlippagePredictor.market_volatility := SlippagePredictor.Absent;
     SlippagePredictor.order_book_imbalance := SlippagePredictor.Absent;
     SlippagePredictor.timestamp := None;
     SlippagePredictor.delta := SlippagePredictor.Absent |}.

Definition order_without_spread : SlippagePredictor.order :=
  {| SlippagePredictor.bid_ask_spread := SlippagePredictor.IsNone;
     SlippagePredictor.seconds_to_expiry := SlippagePredictor.Absent;
     SlippagePredictor.open_interest := SlippagePredictor.Absent;
     SlippagePredictor.volume := SlippagePredictor.Absent;
     SlippagePredictor.vwap_deviation := SlippagePredictor.Absent;
     SlippagePredictor.event_dummy := SlippagePredictor.Absent;
     SlippagePredictor.quantity := SlippagePredictor.Absent;
     SlippagePredictor.price := SlippagePredictor.Absent;
     SlippagePredictor.market_volatility := SlippagePredictor.Absent;
     SlippagePredictor.order_book_imbalance := SlippagePredictor.Absent;
     SlippagePredictor.timestamp := None;
     SlippagePredictor.delta := SlippagePredictor.Absent |}.

(** The class defaults in dry-run mode with [ENABLE_AI_FEATURES=true],
    [AI_FEATURES] naming the slippage and semantic-kill features, and
    [SLIPPAGE_BPS=500]; [SEMANTIC_KILL_CONFIDENCE_THRESHOLD] is unset. *)
Definition ai_config_500 : Config.OptionWheelConfig :=
  {| Config.api_key := "";
     Config.api_secret := "";
     Config.access_token := "";
     Config.quantity_per_lot := 150;
     Config.otm_delta_range_low := 0.15;
     Config.otm_delta_range_high := 0.25;
     Config.max_concurrent_positions := 5;
     Config.max_daily_loss_limit := 5000.0;
     Config.max_portfolio_risk := 0.02;
     Config.dry_run := true;
     Config.strategy_mode := "balanced";
     Config.risk_per_trade_percent := 0.01;
     Config.slippage_bps := 500;
     Config.otm_delta_range_conservative_low := 0.10;
     Config.otm_delta_range_conservative_high := 0.15;
     Config.otm_delta_range_balanced_low := 0.15;
     Config.otm_delta_range_balanced_high := 0.25;
     Config.otm_delta_range_aggressive_low := 0.25;
     Config.otm_delta_range_aggressive_high := 0.35;
     Config.enable_ai_features := true;
     Config.ai_features := ["slippage"; "semantic_kill"];
     Config.ai_confidence_threshold := 0.7;
     Config.semantic_kill_confidence_threshold :=
       Config.default_semantic_kill_confidence_threshold [] |}.

(** A regular-expression engine for a message that no pattern matches, a
    model that answers KILL with confidence 0.95, and a float renderer. *)
Definition no_match : string -> string -> bool := fun _ _ => false.
Definition already_lower : string -> string := fun s => s.
Definition llm_says_kill : string -> SemanticKill.llm_answer :=
  fun _ => SemanticKill.Judged "KILL" 0.95 "user asks for an emergency stop".
Definition repr_stub : Q -> string := fun _ => "150.0".

(** The world and the objects of a dry-run order during market hours. *)
Definition trading_hours : Strategy.world :=
  {| Strategy.kill_switch_file_exists := false;
     Strategy.market_open := true;
     Strategy.unix_time := 1685615415;
     Strategy.order_time := june_first;
     Strategy.exchange_time := june_first;
     Strategy.typed_confirmation := "";
     Strategy.broker_reply := inl (Py.Exception "unreachable") |}.

Definition idle_system : Strategy.system :=
  {| Strategy.database := Database.empty_db;
     Strategy.risk_manager := funded 1000000;
     Strategy.broker_calls := [];
     Strategy.notifications := [];
     Strategy.critical_alerts := [];
     Strategy.active_orders := [];
     Strategy.kill_switch_active := false;
     Strategy.trading_enabled := true |}.

(** Four failing calls, one second apart. *)
Definition four_failures : list (Q * Py.result unit) :=
  [(0, inl (Py.Exception "connection refused"));
   (1, inl (Py.Exception "connection refused"));
   (2, inl (Py.Exception "connection refused"));
   (3, inl (Py.Exception "connection refused"))].


End Examples.


From Stdlib Require Import Sorted Permutation.

(** ** utils/setup_utils.py: the retry decorator *)

Module Retry.
Import Py.

(** What one call of the function returned by [with_retry] did: how often
    [func] was called, the arguments of [time.sleep] in order, the state
    [func] left behind, and the value returned ([None] when the loop ends
    without a call) or the exception raised. *)
Record report (S A : Type) : Type := {
  calls : nat;
  slept : list Q;
  final : S;
  outcome : result (option A)
}.
Arguments calls {S A} _.
Arguments slept {S A} _.
Arguments final {S A} _.
Arguments outcome {S A} _.

(** [backoff_factor * (2 ** attempt)] *)
Definition pause (backoff_factor : Q) (attempt : nat) : Q :=
  backoff_factor * inject_Z (2 ^ Z.of_nat attempt).

Section WithRetry.
Context {S A : Type}.

(** [max_retries] and [backoff_factor] of the decorator; [func s k] is what
    the [k]-th call of the wrapped function does in state [s]. *)
Variable max_retries : Z.
Variable backoff_factor : Q.
Variable func : S -> nat -> S * result A.

(** The [for attempt in range(max_retries + 1)] loop, [remaining]
    iterations before the end, at iteration [attempt].  [time.sleep]
    rejects a negative length. *)
Fixpoint loop (remaining attempt : nat) (s : S) (naps : list Q)
  : report S A :=
  match remaining with
  | O => {| calls := attempt; slept := naps; final := s;
            outcome := inr None |}
  | Datatypes.S remaining' =>
      match func s attempt with
      | (s', inr v) =>
          {| calls := Datatypes.S attempt; slept := naps; final := s';
             outcome := inr (Some v) |}
      | (s', inl e) =>
          if (Z.of_nat attempt =? max_retries)%Z then
            {| calls := Datatypes.S attempt; slept := naps; final := s';
               outcome := inl e |}
          else
            let wait_time := pause backoff_factor attempt in
            if lt wait_time 0 then
              {| calls := Datatypes.S attempt; slept := naps; final := s';
                 outcome :=
                   inl (ValueError "sleep length must be non-negative") |}
            else
              loop remaining' (Datatypes.S attempt) s'
                (naps ++ [wait_time])%list
      end
  end.

(** The function that [with_retry(max_retries, backoff_factor)] returns
    for [func]. *)
Definition with_retry (s : S) : report S A :=
  loop (Z.to_nat (max_retries + 1)) 0 s [].

End WithRetry.

(** The sum of a list of floats. *)
Definition total (l : list Q) : Q := fold_right Qplus 0 l.

End Retry.

(** ** models/models.py: option contracts *)

Module OptionContracts.
Import Py.
Import Datetime.

(** [OptionContract]; of the optional fields only [delta] is read by the
    modelled code, the others ([gamma], [theta], ...) are left out. *)
Record OptionContract : Type := {
  symbol : string;
  instrument_token : Z;
  exchange : string;
  last_price : Q;
  expiry : datetime;
  strike : Q;
  tick_size : Q;
  lot_size : Z;
  instrument_type : string;
  segment : string;
  option_type : string;
  tradingsymbol : string;
  open_interest : Q;
  delta : option Q
}.

(** [OptionContract.intrinsic_value] *)
Definition intrinsic_value (self : OptionContract) (underlying_price : Q)
  : Q :=
  if String.eqb (option_type self) "CE"
  then max 0 (underlying_price - strike self)
  else max 0 (strike self - underlying_price).

(** [OptionContract.time_value] *)
Definition time_value (self : OptionContract) (underlying_price : Q) : Q :=
  let intrinsic_value := intrinsic_value self underlying_price in
  max 0 (last_price self - intrinsic_value).

(** [OptionContract.is_in_the_money] *)
Definition is_in_the_money (self : OptionContract) (underlying_price : Q)
  : bool :=
  if String.eqb (option_type self) "CE"
  then gt underlying_price (strike self)
  else lt underlying_price (strike self).

End OptionContracts.

(** ** risk_management/risk_manager.py: counters and limits *)

Module RiskLimits.
Import Py.
Import Config.
Import Models.
Import RiskManagement.

Definition set_daily (self : RiskManager) (pnl losses : Q)
  (today : list Trade) : RiskManager :=
  {| risk_config := risk_config self;
     daily_pnl := pnl;
     daily_losses := losses;
     current_positions := current_positions self;
     trades_today := today;
     portfolio_value := portfolio_value self;
     cash_available := cash_available self;
     margin_available := margin_available self;
     margin_used := margin_used self |}.


(** [RiskManager.update_daily_pnl] *)
Definition update_daily_pnl (self : RiskManager) (pnl : Q) : RiskManager :=
  let daily_pnl' := daily_pnl self + pnl in
  let daily_losses' :=
    if lt pnl 0 then daily_losses self + abs pnl else daily_losses self in
  set_daily self daily_pnl' daily_losses' (trades_today self).

(** A trading day: [update_daily_pnl] called once per realised result. *)
Definition replay (self : RiskManager) (pnls : list Q) : RiskManager :=
  fold_left update_daily_pnl pnls self.

(** The sum of a list of floats, and the loss in one result. *)
Definition sum (l : list Q) : Q := fold_right Qplus 0 l.
Definition loss (pnl : Q) : Q := if lt pnl 0 then abs pnl else 0.

(** [RiskManager.reset_daily_metrics] *)
Definition reset_daily_metrics (self : RiskManager) : RiskManager :=
  set_daily self 0.0 0.0 [].


(** [key in d] and [del d[key]]. *)
Definition has_key {V} (d : list (string * V)) (key : string) : bool :=
  existsb (fun kv => String.eqb (fst kv) key) d.

Definition delitem {V} (d : list (string * V)) (key : string)
  : list (string * V) :=
  filter (fun kv => negb (String.eqb (fst kv) key)) d.



(** [sum(abs(pos.average_price * pos.quantity) for pos in ...)] *)
Definition total_position_value (self : RiskManager) : Q :=
  fold_left
    (fun acc kv =>
       acc + abs (pos_average_price (snd kv)
                  * inject_Z (pos_quantity (snd kv))))
    (current_positions self) 0.

(** The dictionary [check_risk_limits] returns. *)
Record limits_exceeded : Type := {
  portfolio_risk_exceeded : bool;
  daily_loss_exceeded : bool;
  position_limit_exceeded : bool;
  margin_exceeded : bool;
  portfolio_var_exceeded : bool
}.

(** [RiskManager.check_risk_limits]; both divisions are guarded by a
    positive divisor. *)
Definition check_risk_limits (self : RiskManager) : limits_exceeded :=
  let rc := risk_config self in
  let total_position_value := total_position_value self in
  let portfolio_risk_percentage :=
    if gt (portfolio_value self) 0
    then total_position_value / portfolio_value self else 0 in
  let margin_utilization :=
    if gt (margin_available self + margin_used self) 0
    then margin_used self / (margin_available self + margin_used self)
    else 0 in
  let portfolio_var :=
    if gt (portfolio_value self) 0
    then total_position_value / portfolio_value self else 0 in
  {| portfolio_risk_exceeded :=
       gt portfolio_risk_percentage (portfolio_risk_limit rc);
     daily_loss_exceeded := ge (daily_losses self) (daily_loss_limit rc);
     position_limit_exceeded :=
       (max_concurrent_positions rc
        <=? Z.of_nat (length (current_positions self)))%Z;
     margin_exceeded := gt margin_utilization (margin_utilization_limit rc);
     portfolio_var_exceeded :=
       gt portfolio_var (max_portfolio_value_at_risk rc) |}.

(** [RiskManager.enforce_risk_limits] *)
Definition enforce_risk_limits (self : RiskManager) : bool :=
  let limits_status := check_risk_limits self in
  let critical_limit_exceeded :=
    daily_loss_exceeded limits_status
    || position_limit_exceeded limits_status
    || margin_exceeded limits_status in
  if critical_limit_exceeded then false else true.

End RiskLimits.

(** ** config/config.py: further settings *)

Module Settings.

(** Fields of [OptionWheelConfig] that the functions below read and that
    the record [Config.OptionWheelConfig] leaves out. *)
Record more_settings : Type := {
  symbol : string;
  profit_target_percentage : Q;
  loss_limit_percentage : Q;
  min_open_interest : Z;
  enable_notifications : bool;
  notification_type : string;
  telegram_chat_id : string
}.

(** The class defaults when no variable of the environment is set. *)
Definition defaults : more_settings :=
  {| symbol := "TCS";
     profit_target_percentage := 0.50;
     loss_limit_percentage := 1.00;
     min_open_interest := 1000;
     enable_notifications := false;
     notification_type := "webhook";
     telegram_chat_id := "" |}.

End Settings.

(** ** models/models.py: positions *)

Module Positions.
Import Datetime.

(** [Position], with [position_type] as the field is annotated. *)
Record Position : Type := {
  symbol : string;
  exchange : string;
  instrument_token : Z;
  product : string;
  quantity : Z;
  average_price : Q;
  pnl : Q;
  unrealized_pnl : Q;
  realized_pnl : Q;
  multiplier : Q;
  last_price : Q;
  close_price : Q;
  buy_quantity : Z;
  buy_price : Q;
  buy_value : Q;
  sell_quantity : Z;
  sell_price : Q;
  sell_value : Q;
  day_buy_quantity : Z;
  day_buy_price : Q;
  day_buy_value : Q;
  day_sell_quantity : Z;
  day_sell_price : Q;
  day_sell_value : Q;
  entry_timestamp : option datetime;
  exit_timestamp : option datetime;
  position_type : option string
}.

Definition opt_valid (d : option datetime) : bool :=
  match d with
  | Some d => valid d
  | None => true
  end.

(** Every timestamp a [Position] carries is a datetime Python can
    construct. *)
Definition well_formed (p : Position) : bool :=
  opt_valid (entry_timestamp p) && opt_valid (exit_timestamp p).

End Positions.

(** ** core/strategy.py: strike selection, new positions, closing *)

Module StrategyCycle.
Import Py.
Import Config.
Import Enums.
Import OptionContracts.
Import RiskManagement.
Import Strategy.
Local Open Scope py_scope.

(** [_calculate_approximate_delta] *)
Definition _calculate_approximate_delta (strike : Q) (option_type : string)
  (underlying_price : Q) : option Q :=
  if le underlying_price 0 || le strike 0 then None
  else
    match truediv underlying_price strike with
    | inl _ => None
    | inr moneyness =>
        if String.eqb option_type "CE" then
          if gt moneyness 1.1 then Some 0.95
          else if gt moneyness 1.05 then Some 0.7
          else if gt moneyness 0.95 then Some 0.5
          else if gt moneyness 0.9 then Some 0.3
          else Some 0.05
        else
          if lt moneyness 0.9 then Some (-0.95)
          else if lt moneyness 0.95 then Some (-0.7)
          else if lt moneyness 1.05 then Some (-0.5)
          else if lt moneyness 1.1 then Some (-0.3)
          else Some (-0.05)
    end.

(** The delta band [find_best_otm_strikes] works with. *)
Definition delta_band (config : OptionWheelConfig) : Q * Q :=
  if String.eqb (strategy_mode config) "conservative" then (0.10, 0.15)
  else if String.eqb (strategy_mode config) "aggressive" then (0.25, 0.35)
  else (otm_delta_range_low config, otm_delta_range_high config).

(** [abs(option.delta) if option.delta else 0]: [None] and [0.0] are
    false. *)
Definition delta_truthy (d : option Q) : bool :=
  match d with
  | Some q => negb (Qeq_bool q 0)
  | None => false
  end.

Definition abs_delta (d : option Q) : Q :=
  match d with
  | Some q => if delta_truthy d then abs q else 0
  | None => 0
  end.

(** The test of the [for option in chain] loop: is the option appended? *)
Definition selected (delta_low delta_high : Q) (min_open_interest : Z)
  (strategy_type : StrategyType) (option : OptionContract) : bool :=
  let option_delta := abs_delta (delta option) in
  if negb (delta_truthy (delta option)) || lt option_delta delta_low
     || gt option_delta delta_high
  then false
  else if lt (open_interest option) (inject_Z min_open_interest) then false
  else
    match strategy_type with
    | CASH_SECURED_PUT => String.eqb (option_type option) "PE"
    | COVERED_CALL => String.eqb (option_type option) "CE"
    end.

(** The sort key: distance of the delta from the middle of the band, then
    open interest, highest first. *)
Definition sort_key (delta_low delta_high : Q) (x : OptionContract) : Q * Q :=
  (abs (abs (match delta x with Some q => q | None => 0 end)
        - (delta_low + delta_high) / 2),
   - open_interest x).

(** [<] on the key tuples. *)
Definition key_lt (a b : Q * Q) : bool :=
  lt (fst a) (fst b) || (Qeq_bool (fst a) (fst b) && lt (snd a) (snd b)).

(** The key [a] does not come after the key [b]. *)
Definition key_le (a b : Q * Q) : Prop := key_lt b a = false.

(** [list.sort(key=...)] is stable; so is this insertion sort, which
    therefore gives the same list. *)
Fixpoint insert_by {A} (key : A -> Q * Q) (x : A) (l : list A) : list A :=
  match l with
  | [] => [x]
  | y :: rest =>
      if key_lt (key y) (key x) then y :: insert_by key x rest
      else x :: l
  end.

Fixpoint sort_by {A} (key : A -> Q * Q) (l : list A) : list A :=
  match l with
  | [] => []
  | x :: rest => insert_by key x (sort_by key rest)
  end.

(** [find_best_otm_strikes]; [chain] is what [get_options_chain] returns.
    No step of the [try] block raises on a well-typed chain. *)
Definition find_best_otm_strikes (config : OptionWheelConfig)
  (more : Settings.more_settings) (strategy_type : StrategyType)
  (chain : list OptionContract) : list OptionContract :=
  let '(delta_low, delta_high) := delta_band config in
  let filtered_options :=
    filter (selected delta_low delta_high (Settings.min_open_interest more)
              strategy_type) chain in
  sort_by (sort_key delta_low delta_high) filtered_options.

(** [a // b] on ints. *)
Definition floordiv (a b : Z) : result Z :=
  if (b =? 0)%Z
  then raise (ZeroDivisionError "integer division or modulo by zero")
  else ret (a / b)%Z.

(** The strategy instance with its map of active positions. *)
Record strategy : Type := {
  sys : system;
  active_positions : list (string * Positions.Position)
}.

Definition with_sys (self : strategy) (s : system) : strategy :=
  {| sys := s; active_positions := active_positions self |}.

Section Cycle.

Variable repr_float : Q -> string.

(** [_look_for_new_positions]; an exception of the [try] block is logged
    and the state reached is kept. *)
Definition _look_for_new_positions (config : OptionWheelConfig)
  (more : Settings.more_settings) (w : world) (self : strategy)
  (chain : list OptionContract) : strategy :=
  let active_positions_count := Z.of_nat (length (active_positions self)) in
  if (Config.max_concurrent_positions config <=? active_positions_count)%Z
  then self
  else
    let strategy_type := CASH_SECURED_PUT in
    let best_options :=
      find_best_otm_strikes config more strategy_type chain in
    match best_options with
    | [] => self
    | best_option :: _ =>
        match calculate_max_position_size config (risk_manager (sys self))
                0 strategy_type with
        | inl _ => self
        | inr max_position_size =>
            if (max_position_size <=? 0)%Z then self
            else
              match floordiv max_position_size (quantity_per_lot config) with
              | inl _ => self
              | inr whole_lots =>
                  let lots :=
                    if (lot_size best_option <? whole_lots)%Z
                    then lot_size best_option else whole_lots in
                  let quantity := (lots * quantity_per_lot config)%Z in
                  if (quantity <=? 0)%Z then self
                  else
                    let (s, order_id) :=
                      place_order repr_float config w (sys self)
                        (OptionContracts.symbol best_option) "SELL" quantity
                        (last_price best_option) "LIMIT" "NRML" no_kwargs in
                    match order_id with
                    | Some (String _ _) =>
                        with_sys self
                          (notify s "New Position Opened"
                             ("New Cash Secured Put position: SELL "
                              ++ str_int quantity ++ " "
                              ++ OptionContracts.symbol best_option ++ " @ ₹"
                              ++ repr_float (last_price best_option)))
                    | _ => with_sys self s
                    end
              end
        end
    end.

(** [_close_position]; [quote] is what [kite.quote] and the lookup of
    [last_price] in its answer come to. *)
Definition _close_position (config : OptionWheelConfig) (w : world)
  (quote : result Q) (self : strategy) (position : Positions.Position)
  (reason : string) : strategy :=
  let '(closing_transaction, quantity) :=
    if (Positions.quantity position <? 0)%Z
    then ("BUY", Z.abs (Positions.quantity position))
    else ("SELL", Positions.quantity position) in
  match quote with
  | inr current_price =>
      let (s, order_id) :=
        place_order repr_float config w (sys self)
          (Positions.symbol position) closing_transaction quantity
          current_price "LIMIT" "NRML" no_kwargs in
      match order_id with
      | Some (String _ _) =>
          let s :=
            notify s "Position Notification"
              ("POSITION CLOSED (" ++ reason ++ "): " ++ str_int quantity
               ++ " " ++ Positions.symbol position ++ " @ â‚¹"
               ++ repr_float (Positions.average_price position)
               ++ " (P&L: â‚¹"
               ++ (if ge (Positions.pnl position) 0 then "+" else "")
               ++ repr_float (Positions.pnl position) ++ ")") in
          {| sys := s;
             active_positions :=
               if RiskLimits.has_key (active_positions self)
                    (Positions.symbol position)
               then RiskLimits.delitem (active_positions self)
                      (Positions.symbol position)
               else active_positions self |}
      | _ => with_sys self s
      end
  | inl _ =>
      let (s, order_id) :=
        place_order repr_float config w (sys self)
          (Positions.symbol position) closing_transaction quantity
          0 "MARKET" "NRML" no_kwargs in
      with_sys self s
  end.

(** [_manage_existing_positions]: what the loop decides for one position.
    [quote] is the price the broker's quote holds for the position. *)
Definition exit_reason (more : Settings.more_settings)
  (position : Positions.Position) (quote : result Q) : option string :=
  let pnl := Positions.pnl position in
  let avg_price := Positions.average_price position in
  let quantity := Positions.quantity position in
  let is_short_position := gt avg_price 0 && (quantity <? 0)%Z in
  if is_short_position then
    let original_premium := abs avg_price in
    let profit_target :=
      original_premium * Settings.profit_target_percentage more in
    let loss_limit :=
      original_premium * Settings.loss_limit_percentage more in
    match quote with
    | inr current_price =>
        let current_pnl :=
          (original_premium - current_price) * inject_Z (Z.abs quantity) in
        if ge current_pnl (profit_target * inject_Z (Z.abs quantity))
        then Some "PROFIT_TARGET"
        else if le current_pnl (- loss_limit * inject_Z (Z.abs quantity))
        then Some "STOP_LOSS"
        else None
    | inl _ => None
    end
  else None.

(** [_manage_existing_positions]; [quotes symbol] is what the broker's
    quote for the symbol comes to during the cycle. *)
Definition _manage_existing_positions (config : OptionWheelConfig)
  (more : Settings.more_settings) (w : world) (quotes : string -> result Q)
  (self : strategy) (positions : list Positions.Position) : strategy :=
  fold_left
    (fun self position =>
       match exit_reason more position
               (quotes (Positions.symbol position)) with
       | Some reason =>
           _close_position config w (quotes (Positions.symbol position))
             self position reason
       | None => self
       end)
    positions self.

End Cycle.

(** An entry of the instrument dump of the broker; [last_price] and [oi]
    may be absent. *)
Record instrument : Type := {
  i_tradingsymbol : string;
  i_instrument_token : Z;
  i_exchange : string;
  i_last_price : option Q;
  i_expiry : N * N * N;
  i_strike : Q;
  i_tick_size : Q;
  i_lot_size : Z;
  i_instrument_type : string;
  i_segment : string;
  i_oi : option Q
}.

(** [d.date()] and [datetime.combine(date, datetime.min.time())]. *)
Definition date_of (d : Datetime.datetime) : N * N * N :=
  (Datetime.year d, Datetime.month d, Datetime.day d).

Definition at_midnight (d : N * N * N) : Datetime.datetime :=
  {| Datetime.year := fst (fst d); Datetime.month := snd (fst d);
     Datetime.day := snd d; Datetime.hour := 0; Datetime.minute := 0;
     Datetime.second := 0; Datetime.microsecond := 0 |}.

Definition date_eqb (a b : N * N * N) : bool :=
  N.eqb (fst (fst a)) (fst (fst b)) && N.eqb (snd (fst a)) (snd (fst b))
  && N.eqb (snd a) (snd b).

(** The contract built for an instrument: the delta is approximated with
    the placeholder price [0]. *)
Definition contract_of (inst : instrument) : OptionContract :=
  {| OptionContracts.symbol := i_tradingsymbol inst;
     OptionContracts.instrument_token := i_instrument_token inst;
     OptionContracts.exchange := i_exchange inst;
     OptionContracts.last_price :=
       match i_last_price inst with Some p => p | None => 0 end;
     OptionContracts.expiry := at_midnight (i_expiry inst);
     OptionContracts.strike := i_strike inst;
     OptionContracts.tick_size := i_tick_size inst;
     OptionContracts.lot_size := i_lot_size inst;
     OptionContracts.instrument_type := i_instrument_type inst;
     OptionContracts.segment := i_segment inst;
     OptionContracts.option_type :=
       if contains "CE" (i_instrument_type inst) then "CE" else "PE";
     OptionContracts.tradingsymbol := i_tradingsymbol inst;
     OptionContracts.open_interest :=
       match i_oi inst with Some q => q | None => 0 end;
     OptionContracts.delta :=
       _calculate_approximate_delta (i_strike inst) (i_instrument_type inst)
         0 |}.

Definition set_delta (contract : OptionContract) (d : option Q)
  : OptionContract :=
  {| OptionContracts.symbol :=
       OptionContracts.symbol contract;
     OptionContracts.instrument_token :=
       OptionContracts.instrument_token contract;
     OptionContracts.exchange :=
       OptionContracts.exchange contract;
     OptionContracts.last_price :=
       OptionContracts.last_price contract;
     OptionContracts.expiry :=
       OptionContracts.expiry contract;
     OptionContracts.strike :=
       OptionContracts.strike contract;
     OptionContracts.tick_size :=
       OptionContracts.tick_size contract;
     OptionContracts.lot_size :=
       OptionContracts.lot_size contract;
     OptionContracts.instrument_type :=
       OptionContracts.instrument_type contract;
     OptionContracts.segment :=
       OptionContracts.segment contract;
     OptionContracts.option_type :=
       OptionContracts.option_type contract;
     OptionContracts.tradingsymbol :=
       OptionContracts.tradingsymbol contract;
     OptionContracts.open_interest :=
       OptionContracts.open_interest contract;
     OptionContracts.delta := d |}.

(** [_fetch_options_chain_kite] once [self.instruments] is filled;
    [underlying_quote] is what the quote of the underlying comes to: an
    exception, no entry for the symbol, or its last price. *)
Definition _fetch_options_chain_kite (instruments : list (Z * instrument))
  (underlying_symbol : string) (expiry_date : option Datetime.datetime)
  (underlying_quote : result (option Q)) : list OptionContract :=
  match find (fun ti => String.eqb (i_tradingsymbol (snd ti))
                          underlying_symbol) instruments with
  | None => []
  | Some (underlying_token, _) =>
      if (underlying_token =? 0)%Z then []
      else
        let options :=
          map (fun ti => contract_of (snd ti))
            (filter
               (fun ti =>
                  String.eqb (i_segment (snd ti)) "NFO-OPT"
                  && contains underlying_symbol (i_tradingsymbol (snd ti))
                  && match expiry_date with
                     | Some e =>
                         date_eqb (i_expiry (snd ti)) (date_of e)
                     | None => true
                     end)
               instruments) in
        match underlying_quote with
        | inr (Some underlying_price) =>
            map (fun option =>
                   set_delta option
                     (_calculate_approximate_delta (strike option)
                        (option_type option) underlying_price))
              options
        | _ => options
        end
  end.

(** What [get_portfolio_metrics] can raise. *)
Inductive failure : Type :=
| AttributeError (msg : string)
| ZeroDivision (msg : string).

(** [t.pnl]: [Trade] has the property [net_pnl] and no attribute [pnl]. *)
Definition trade_pnl (t : Models.Trade) : failure + Q :=
  inl (AttributeError "'Trade' object has no attribute 'pnl'").

(** [t.order_timestamp.date()] *)
Definition order_date (t : Models.Trade) : failure + (N * N * N) :=
  match Models.order_timestamp t with
  | Some d => inr (date_of d)
  | None => inl (AttributeError "'NoneType' object has no attribute 'date'")
  end.

(** [sum(t.pnl for t in trades if keep(t))] *)
Fixpoint sum_pnl (keep : Models.Trade -> failure + bool)
  (trades : list Models.Trade) (acc : Q) : failure + Q :=
  match trades with
  | [] => inr acc
  | t :: rest =>
      match keep t with
      | inl e => inl e
      | inr false => sum_pnl keep rest acc
      | inr true =>
          match trade_pnl t with
          | inl e => inl e
          | inr p => sum_pnl keep rest (acc + p)
          end
      end
  end.

(** [[t for t in trades if test(t.pnl)]] *)
Fixpoint select_pnl (test : Q -> bool) (trades : list Models.Trade)
  : failure + list Models.Trade :=
  match trades with
  | [] => inr []
  | t :: rest =>
      match trade_pnl t with
      | inl e => inl e
      | inr p =>
          match select_pnl test rest with
          | inl e => inl e
          | inr l => inr (if test p then t :: l else l)
          end
      end
  end.

(** A value of the metrics dictionary. *)
Inductive metric : Type :=
| MInt (n : Z)
| MFloat (q : Q)
| MInf.

(** The [try] block of [get_portfolio_metrics]. *)
Definition portfolio_metrics_body (today : N * N * N)
  (trades : list Models.Trade) : failure + list (string * metric) :=
  match trades with
  | [] =>
      inr [("daily_pnl", MFloat 0.0); ("total_pnl", MFloat 0.0);
           ("win_rate", MFloat 0.0); ("profit_factor", MFloat 0.0);
           ("total_trades", MInt 0); ("winning_trades", MInt 0);
           ("losing_trades", MInt 0)]
  | _ =>
      match sum_pnl (fun t => match order_date t with
                              | inl e => inl e
                              | inr d => inr (date_eqb d today)
                              end) trades 0 with
      | inl e => inl e
      | inr daily_pnl =>
      match sum_pnl (fun _ => inr true) trades 0 with
      | inl e => inl e
      | inr total_pnl =>
      match select_pnl (fun p => gt p 0) trades with
      | inl e => inl e
      | inr winning_trades =>
      match select_pnl (fun p => lt p 0) trades with
      | inl e => inl e
      | inr losing_trades =>
          let win_rate :=
            inject_Z (Z.of_nat (length winning_trades))
            / inject_Z (Z.of_nat (length trades)) in
          match sum_pnl (fun _ => inr true) winning_trades 0 with
          | inl e => inl e
          | inr winning_pnl =>
          match sum_pnl (fun _ => inr true) losing_trades 0 with
          | inl e => inl e
          | inr losing_sum =>
              let losing_pnl := abs losing_sum in
              let profit_factor :=
                if Qeq_bool losing_pnl 0 then MInf
                else MFloat (winning_pnl / losing_pnl) in
              inr [("daily_pnl", MFloat daily_pnl);
                   ("total_pnl", MFloat total_pnl);
                   ("win_rate", MFloat win_rate);
                   ("profit_factor", profit_factor);
                   ("total_trades", MInt (Z.of_nat (length trades)));
                   ("winning_trades",
                    MInt (Z.of_nat (length winning_trades)));
                   ("losing_trades",
                    MInt (Z.of_nat (length losing_trades)))]
          end end
      end end end end
  end.

(** [get_portfolio_metrics]; [trades] is what [db_manager.get_all_trades]
    returns.  An exception is logged and answered with the empty
    dictionary. *)
Definition get_portfolio_metrics (today : N * N * N)
  (trades : list Models.Trade) : list (string * metric) :=
  match portfolio_metrics_body today trades with
  | inr metrics => metrics
  | inl _ => []
  end.

(** The strategy instance as [_fetch_instruments] sees it: the cells of
    its circuit breaker, the cached instruments, and the number of calls
    of [kite.instruments] made so far. *)
Record fetch_state : Type := {
  breaker : SetupUtils.cells;
  instruments : list (Z * instrument);
  api_calls : nat
}.

(** [{inst['instrument_token']: inst for inst in all_instruments}] *)
Fixpoint set_token (d : list (Z * instrument)) (token : Z)
  (inst : instrument) : list (Z * instrument) :=
  match d with
  | [] => [(token, inst)]
  | (k, v) :: rest =>
      if (k =? token)%Z then (k, inst) :: rest
      else (k, v) :: set_token rest token inst
  end.

Definition by_token (all_instruments : list instrument)
  : list (Z * instrument) :=
  fold_left (fun d inst => set_token d (i_instrument_token inst) inst)
    all_instruments [].

(** The body of [_fetch_instruments]: the new cache and the outcome. *)
Definition fetch_body (reply : result (list instrument))
  (cache : list (Z * instrument)) : list (Z * instrument) * result unit :=
  match reply with
  | inr all_instruments => (by_token all_instruments, ret tt)
  | inl e =>
      match cache with
      | [] => (cache, raise e)
      | _ => (cache, ret tt)
      end
  end.

(** [_fetch_instruments] as decorated:
    [with_retry(max_retries=2, backoff_factor=1)] around
    [circuit_breaker(failure_threshold=3, timeout=120)] around the body.
    [replies k] is what the [k]-th call of [kite.instruments] does and
    [clock k] the reading of [time.time()] in the [k]-th call. *)
Definition _fetch_instruments
  (replies : nat -> result (list instrument)) (clock : nat -> Q)
  (s : fetch_state) : Retry.report fetch_state unit :=
  Retry.with_retry 2 1
    (fun s k =>
       let (cache, func_result) := fetch_body (replies k) (instruments s) in
       let (c, r) :=
         SetupUtils.wrapper 3 120 (breaker s) (clock k) func_result in
       if SetupUtils.invoked r
       then ({| breaker := c; instruments := cache;
                api_calls := Datatypes.S (api_calls s) |},
             SetupUtils.outcome r)
       else ({| breaker := c; instruments := instruments s;
                api_calls := api_calls s |},
             SetupUtils.outcome r))
    s.

End StrategyCycle.

(** ** database/generic_dao.py: deleting *)

Module DAO.
Import Py.
Import Database.


End DAO.

(** ** notifications/notification_interface.py *)

Module Notifications.
Import Py.

(** What the manager is built from: [config.enable_notifications],
    [config.notification_type], and the credentials of the two systems.  *)
Record manager : Type := {
  enabled : bool;
  notification_type : string;
  webhook_url : string;
  telegram_token : string;
  telegram_chat_id : string
}.

(** What the network answers: the status of the webhook request, and the
    status of the Telegram request with the [ok] field of its answer. *)
Record network : Type := {
  webhook_reply : result Z;
  telegram_reply : result (Z * bool)
}.

(** The requests made: the system and the message handed to its [send]. *)
Definition requests : Type := list (string * string).

(** [WebhookNotification.send] *)
Definition webhook_send (m : manager) (n : network) (log : requests)
  (message : string) : requests * bool :=
  if String.eqb (webhook_url m) "" then (log, false)
  else
    let log := (log ++ [("webhook", message)])%list in
    match webhook_reply n with
    | inr status_code =>
        (log, (status_code =? 200)%Z || (status_code =? 201)%Z
              || (status_code =? 202)%Z)
    | inl _ => (log, false)
    end.

(** [TelegramNotification.send] *)
Definition telegram_send (m : manager) (n : network) (log : requests)
  (message : string) : requests * bool :=
  if String.eqb (telegram_token m) "" || String.eqb (telegram_chat_id m) ""
  then (log, false)
  else
    let log := (log ++ [("telegram", message)])%list in
    match telegram_reply n with
    | inr (status_code, ok) =>
        if (status_code =? 200)%Z then (log, ok) else (log, false)
    | inl _ => (log, false)
    end.

(** The keys of [notification_systems], in insertion order. *)
Definition notification_systems : list string := ["webhook"; "telegram"].

(** [NotificationManager.send_notification] *)
Definition send_notification (m : manager) (n : network) (log : requests)
  (message : string) (notification_type' : option string) (title : string)
  : requests * bool :=
  if negb (enabled m) then (log, true)
  else
    let send_type :=
      match notification_type' with
      | Some (String c rest) => String c rest
      | _ => notification_type m
      end in
    if negb (str_in send_type notification_systems) then (log, false)
    else
      let formatted_message := title ++ ": " ++ message in
      if String.eqb send_type "webhook"
      then webhook_send m n log formatted_message
      else telegram_send m n log formatted_message.

(** [NotificationManager.send_critical_alert]: [and] does not evaluate its
    right operand when the left one is false. *)
Definition send_critical_alert (m : manager) (n : network) (log : requests)
  (alert_type message : string) : requests * bool :=
  let critical_message :=
    "ðŸš¨ CRITICAL ALERT ðŸš¨" ++ String "010" "Type: " ++ alert_type
    ++ String "010" "Message: " ++ message in
  fold_left
    (fun (st : requests * bool) notification_type' =>
       let (log, success) := st in
       if success
       then send_notification m n log critical_message
              (Some notification_type') "CRITICAL ALERT"
       else (log, false))
    notification_systems (log, true).

End Notifications.

(** ** ai/kill/semantic_kill.py: who may ask *)

Module KillAuth.
Import Py.

(** [s.split(',')] *)
Fixpoint split_comma (s : string) : list string :=
  match s with
  | EmptyString => [EmptyString]
  | String c rest =>
      if Ascii.eqb c ","%char then EmptyString :: split_comma rest
      else
        match split_comma rest with
        | head :: tail => String c head :: tail
        | [] => [String c EmptyString]
        end
  end.

Section Auth.

(** [str.lower] *)
Variable lower : string -> string.

(** [config.telegram_chat_id] *)
Variable telegram_chat_id : string.

(** [should_respond_to_user] *)
Definition should_respond_to_user (user_id user_role : option string)
  : bool :=
  let is_admin :=
    match user_role with
    | Some (String c rest) => String.eqb (lower (String c rest)) "admin"
    | _ => false
    end in
  if is_admin then true
  else
    match user_id with
    | Some (String c rest) =>
        let authorized_users :=
          match telegram_chat_id with
          | EmptyString => []
          | _ => split_comma telegram_chat_id
          end in
        str_in (String c rest) authorized_users
    | _ => false
    end.

Definition stop_keywords : list string :=
  ["stop"; "kill"; "halt"; "shutdown"; "emergency"; "pause"].

(** [validate_kill_switch_request]; no step of its [try] block raises on a
    string. *)
Definition validate_kill_switch_request (message_text : string)
  (user_id : option string) : bool * string :=
  if negb (should_respond_to_user user_id None)
  then (false, "Unauthorized user - kill switch request denied")
  else
    let text_lower := lower message_text in
    let has_stop_keyword :=
      existsb (fun keyword => contains keyword text_lower) stop_keywords in
    if negb has_stop_keyword
    then (false, "Message does not contain recognized stop keywords")
    else (true, "Valid kill switch request").

End Auth.

End KillAuth.

(** ** ai/slippage/predictor.py: the execution price *)

Module Execution.
Import Py.

Section Price.

(** [str.upper] *)
Variable upper : string -> string.

(** [get_execution_price] *)
Definition get_execution_price (mid_price predicted_slip_bps : Q)
  (direction : string) : Q :=
  let slip_multiplier := predicted_slip_bps / 10000.0 in
  if String.eqb (upper direction) "SELL"
  then mid_price * (1 - slip_multiplier)
  else mid_price * (1 + slip_multiplier).

End Price.

End Execution.

(** ** ai/slippage/predictor.py: order dictionaries *)

Module OrderDict.
Import SlippagePredictor.

(** The order dictionary with the key [bid_ask_spread] rebound. *)
Definition with_bid_ask_spread (o : order) (e : entry) : order :=
  {| bid_ask_spread := e;
     seconds_to_expiry := seconds_to_expiry o;
     open_interest := open_interest o;
     volume := volume o;
     vwap_deviation := vwap_deviation o;
     event_dummy := event_dummy o;
     quantity := quantity o;
     price := price o;
     market_volatility := market_volatility o;
     order_book_imbalance := order_book_imbalance o;
     timestamp := timestamp o;
     delta := delta o |}.

(** The order dictionary with the key [event_dummy] rebound. *)
Definition with_event_dummy (o : order) (e : entry) : order :=
  {| bid_ask_spread := bid_ask_spread o;
     seconds_to_expiry := seconds_to_expiry o;
     open_interest := open_interest o;
     volume := volume o;
     vwap_deviation := vwap_deviation o;
     event_dummy := e;
     quantity := quantity o;
     price := price o;
     market_volatility := market_volatility o;
     order_book_imbalance := order_book_imbalance o;
     timestamp := timestamp o;
     delta := delta o |}.

End OrderDict.

(** ** Further inputs used in the examples *)

Module Examples2.

(** The underlying and two of its options, as the broker lists them. *)
Definition tcs_instruments : list (Z * StrategyCycle.instrument) :=
  [(2953217%Z,
    {| StrategyCycle.i_tradingsymbol := "TCS";
       StrategyCycle.i_instrument_token := 2953217;
       StrategyCycle.i_exchange := "NSE";
       StrategyCycle.i_last_price := Some 3500;
       StrategyCycle.i_expiry := (2024, 1, 25)%N;
       StrategyCycle.i_strike := 0;
       StrategyCycle.i_tick_size := 0.05;
       StrategyCycle.i_lot_size := 1;
       StrategyCycle.i_instrument_type := "EQ";
       StrategyCycle.i_segment := "NSE";
       StrategyCycle.i_oi := None |});
   (101%Z,
    {| StrategyCycle.i_tradingsymbol := "TCS24JAN3300PE";
       StrategyCycle.i_instrument_token := 101;
       StrategyCycle.i_exchange := "NFO";
       StrategyCycle.i_last_price := Some 12.5;
       StrategyCycle.i_expiry := (2024, 1, 25)%N;
       StrategyCycle.i_strike := 3300;
       StrategyCycle.i_tick_size := 0.05;
       StrategyCycle.i_lot_size := 150;
       StrategyCycle.i_instrument_type := "PE";
       StrategyCycle.i_segment := "NFO-OPT";
       StrategyCycle.i_oi := Some 25000 |});
   (102%Z,
    {| StrategyCycle.i_tradingsymbol := "TCS24JAN3700CE";
       StrategyCycle.i_instrument_token := 102;
       StrategyCycle.i_exchange := "NFO";
       StrategyCycle.i_last_price := Some 9.75;
       StrategyCycle.i_expiry := (2024, 1, 25)%N;
       StrategyCycle.i_strike := 3700;
       StrategyCycle.i_tick_size := 0.05;
       StrategyCycle.i_lot_size := 150;
       StrategyCycle.i_instrument_type := "CE";
       StrategyCycle.i_segment := "NFO-OPT";
       StrategyCycle.i_oi := Some 18000 |})].

(** A wrapped function that fails on every call, and one that succeeds
    on its third call; the state counts the calls. *)
Definition always_fails (s : nat) (k : nat) : nat * Py.result string :=
  (Datatypes.S s, inl (Py.Exception "connection refused")).

Definition third_time_lucky (s : nat) (k : nat) : nat * Py.result string :=
  (Datatypes.S s,
   if (k <? 2)%nat then inl (Py.Exception "connection refused")
   else inr "connected").

Definition expiry_day : Datetime.datetime :=
  {| Datetime.year := 2024; Datetime.month := 1; Datetime.day := 25;
     Datetime.hour := 0; Datetime.minute := 0; Datetime.second := 0;
     Datetime.microsecond := 0 |}.

(** Ten past three in the afternoon: the last hour of trading. *)
Definition last_hour : Datetime.datetime :=
  {| Datetime.year := 2024; Datetime.month := 1; Datetime.day := 15;
     Datetime.hour := 15; Datetime.minute := 10; Datetime.second := 0;
     Datetime.microsecond := 0 |}.

Definition contract (symbol option_type : string) (strike last_price : Q)
  (open_interest : Q) (delta : option Q) : OptionContracts.OptionContract :=
  {| OptionContracts.symbol := symbol;
     OptionContracts.instrument_token := 101;
     OptionContracts.exchange := "NFO";
     OptionContracts.last_price := last_price;
     OptionContracts.expiry := expiry_day;
     OptionContracts.strike := strike;
     OptionContracts.tick_size := 0.05;
     OptionContracts.lot_size := 150;
     OptionContracts.instrument_type := option_type;
     OptionContracts.segment := "NFO-OPT";
     OptionContracts.option_type := option_type;
     OptionContracts.tradingsymbol := symbol;
     OptionContracts.open_interest := open_interest;
     OptionContracts.delta := delta |}.

(** A call that is in the money at 3500 and two puts with a quoted
    delta. *)
Definition tcs_call : OptionContracts.OptionContract :=
  contract "TCS24JAN3400CE" "CE" 3400 120 18000 (Some 0.7).

Definition near_put : OptionContracts.OptionContract :=
  contract "TCS24JAN3300PE" "PE" 3300 12.5 25000 (Some (-0.24)).

Definition far_put : OptionContracts.OptionContract :=
  contract "TCS24JAN3200PE" "PE" 3200 8.0 30000 (Some (-0.2)).

Definition quoted_chain : list OptionContracts.OptionContract :=
  [tcs_call; near_put; far_put].


(** A risk manager with funds for the trade of the test suite. *)
Definition healthy : RiskManagement.RiskManager :=
  {| RiskManagement.risk_config :=
       RiskManagement.default_RiskConfig Config.dry_run_defaults;
     RiskManagement.daily_pnl := 0.0;
     RiskManagement.daily_losses := 0.0;
     RiskManagement.current_positions := [];
     RiskManagement.trades_today := [];
     RiskManagement.portfolio_value := 1000000;
     RiskManagement.cash_available := 50000;
     RiskManagement.margin_available := 100000;
     RiskManagement.margin_used := 0 |}.






(** A first start: nothing cached, the breaker as [circuit_breaker] builds
    it, and a broker that cannot be reached. *)
Definition cold_start : StrategyCycle.fetch_state :=
  {| StrategyCycle.breaker := SetupUtils.decorator;
     StrategyCycle.instruments := [];
     StrategyCycle.api_calls := 0 |}.

Definition unreachable (k : nat)
  : Py.result (list StrategyCycle.instrument) :=
  inl (Py.Exception "connection refused").

Definition seconds (k : nat) : Q := inject_Z (Z.of_nat k).

(** Notifications over Telegram only: no webhook URL is configured. *)
Definition telegram_only : Notifications.manager :=
  {| Notifications.enabled := true;
     Notifications.notification_type := "telegram";
     Notifications.webhook_url := "";
     Notifications.telegram_token := "123456:TEST";
     Notifications.telegram_chat_id := "42" |}.

Definition all_is_well : Notifications.network :=
  {| Notifications.webhook_reply := inr 200%Z;
     Notifications.telegram_reply := inr (200%Z, true) |}.

(** An order dictionary with a spread of 0.1. *)
Definition quiet_order : SlippagePredictor.order :=
  OrderDict.with_bid_ask_spread Examples.empty_order
    (SlippagePredictor.Num 0.1).

End Examples2.
(** * Properties *)

(** ** Timestamps survive [isoformat] and [fromisoformat] *)

Section DatetimeFacts.
Import Py Datetime.
Local Open Scope N_scope.









End DatetimeFacts.

(** ** Persistence of trades *)

Section DatabaseFacts.
Import Py Datetime Models Database.






End DatabaseFacts.



(** ** Settings record *)

Section ConfigFacts.
Import Py Config.

(** A construction that succeeds returns the fields it was given: the
    method the class is left with only validates. *)
Lemma new_returns_fields (fields cfg : OptionWheelConfig) :
  new fields = inr cfg -> cfg = fields.
Proof.
  unfold new, __post_init__, bind.
  destruct (validate fields) as [e | []]; [discriminate |].
  unfold ret. intros H. injection H as <-. reflexivity.
Qed.

(** The thresholds play no part in the construction. *)
Lemma new_ignores_thresholds (fields : OptionWheelConfig) (ai : Q)
  (semantic_kill : pyval) :
  validate (with_ai_thresholds fields ai semantic_kill) = validate fields.
Proof. reflexivity. Qed.

(** The first definition, which the class does not keep, does write the
    band of the mode. *)
Lemma first_definition_applies_mode_band (fields cfg : OptionWheelConfig) :
  FirstDefinition.__post_init__ fields = inr cfg ->
  (otm_delta_range_low cfg, otm_delta_range_high cfg)
  = if String.eqb (strategy_mode fields) "conservative" then
      (otm_delta_range_conservative_low fields,
       otm_delta_range_conservative_high fields)
    else if String.eqb (strategy_mode fields) "aggressive" then
      (otm_delta_range_aggressive_low fields,
       otm_delta_range_aggressive_high fields)
    else
      (otm_delta_range_balanced_low fields,
       otm_delta_range_balanced_high fields).
Proof.
  unfold FirstDefinition.__post_init__, bind.
  destruct (validate fields) as [e | []]; [discriminate |].
  destruct (String.eqb (strategy_mode fields) "conservative");
    [| destruct (String.eqb (strategy_mode fields) "aggressive")];
    cbn [ai_confidence_threshold semantic_kill_confidence_threshold
         set_otm_delta_range];
    (destruct (_ || _); [discriminate |]);
    (destruct (lt_float _ _) as [e | below]; [discriminate |]);
    (destruct below;
      [ cbn; discriminate
      | destruct (gt_float _ _) as [e | above]; [discriminate |];
        destruct above; [discriminate |]]);
    unfold ret; intros H; injection H as <-; reflexivity.
Qed.

(** The first definition rejects a general threshold outside [0, 1]. *)
Lemma first_definition_checks_ai_threshold (fields : OptionWheelConfig) :
  validate fields = inr tt ->
  ai_confidence_threshold fields < 0 \/ 1 < ai_confidence_threshold fields ->
  exists msg, FirstDefinition.__post_init__ fields = inl (ValueError msg).
Proof.
  intros Hv Hout. unfold FirstDefinition.__post_init__, bind. rewrite Hv.
  assert (E : lt (ai_confidence_threshold fields) 0.0
              || gt (ai_confidence_threshold fields) 1.0 = true).
  { unfold lt, gt. apply orb_true_iff.
    destruct Hout as [H | H]; [left | right]; apply negb_true_iff;
      (destruct (Qle_bool _ _) eqn:El; [| reflexivity]);
      apply Qle_bool_iff in El; lra. }
  destruct (String.eqb (strategy_mode fields) "conservative");
    [| destruct (String.eqb (strategy_mode fields) "aggressive")];
    cbn [ai_confidence_threshold set_otm_delta_range]; rewrite E;
    eexists; reflexivity.
Qed.

End ConfigFacts.

(** C1 (the code does not meet the claim).  Constructing the settings
    record with [strategy_mode = "conservative"] and the generic band left
    at [0.15, 0.25] succeeds and leaves the band at [0.15, 0.25]: the band
    of the mode, [0.10, 0.15], is not written.  The overwrite sits in the
    first [__post_init__] of the class body, which the second definition
    replaces. *)
Theorem C1_mode_band_not_applied :
  let fields :=
    Config.with_strategy_mode Config.dry_run_defaults "conservative" in
  exists cfg,
    Config.new fields = inr cfg /\
    Config.otm_delta_range_low cfg = 0.15 /\
    Config.otm_delta_range_high cfg = 0.25 /\
    Config.mode_band (Config.strategy_mode cfg) = (0.10, 0.15) /\
    ~ (Config.otm_delta_range_low cfg
       == fst (Config.mode_band (Config.strategy_mode cfg))).
Proof.
  cbv zeta. eexists. split; [reflexivity |].
  repeat split; try reflexivity.
  cbn. intros H. discriminate H.
Qed.

(** C5 (the code does not meet the claim).  Constructing the settings
    record with [ai_confidence_threshold = 1.5], or with
    [semantic_kill_confidence_threshold = -0.5], succeeds: the range checks
    sit in the first [__post_init__], which the second definition replaces
    and which tests neither threshold. *)
Theorem C5_thresholds_not_validated :
  (exists cfg,
     Config.new
       (Config.with_ai_thresholds Config.dry_run_defaults 1.5 (Py.PyFloat 0.9))
     = inr cfg /\ Config.ai_confidence_threshold cfg = 1.5) /\
  (exists cfg,
     Config.new
       (Config.with_ai_thresholds Config.dry_run_defaults 0.7
          (Py.PyFloat (-0.5)))
     = inr cfg /\
     Config.semantic_kill_confidence_threshold cfg = Py.PyFloat (-0.5)).
Proof.
  split; eexists; split; reflexivity.
Qed.

(** ** Trade *)

(** C2.  [net_pnl] is the signed notional, [average_price *
    filled_quantity] for a BUY and its opposite for a SELL, minus the sum
    of the five fee fields; a SELL of 50 at 150.0 with no fees gives
    -7500.0. *)
Theorem C2_net_pnl_signed_notional_minus_fees (t : Models.Trade) :
  let notional :=
    Models.average_price t * inject_Z (Models.filled_quantity t) in
  let fees := Models.stt_paid t + Models.brokerage t + Models.taxes t
              + Models.turnover_charges t + Models.stamp_duty t in
  (Models.transaction_type t = "BUY" -> Models.net_pnl t = notional - fees) /\
  (Models.transaction_type t = "SELL" ->
   Models.net_pnl t = - notional - fees) /\
  (Models.transaction_type t = "SELL" ->
   Models.filled_quantity t = 50%Z ->
   Models.average_price t == 150.0 ->
   Models.stt_paid t == 0 -> Models.brokerage t == 0 ->
   Models.taxes t == 0 -> Models.turnover_charges t == 0 ->
   Models.stamp_duty t == 0 ->
   Models.net_pnl t == -7500.0).
Proof.
  cbv zeta. unfold Models.net_pnl.
  split; [| split].
  - intros ->. reflexivity.
  - intros ->. reflexivity.
  - intros -> -> Ha H1 H2 H3 H4 H5. cbn [String.eqb Ascii.eqb Bool.eqb].
    rewrite Ha, H1, H2, H3, H4, H5. reflexivity.
Qed.

(** C2 at the trade of the test suite. *)
Lemma C2_net_pnl_witness :
  Models.net_pnl Examples.test_trade
  = - (150.0 * inject_Z 50) - (0.0 + 0.0 + 0.0 + 0.0 + 0.0)
  /\ Models.net_pnl Examples.test_trade == -7500.0.
Proof.
  split.
  - apply (proj1 (proj2
             (C2_net_pnl_signed_notional_minus_fees Examples.test_trade))).
    reflexivity.
  - apply (proj2 (proj2
             (C2_net_pnl_signed_notional_minus_fees Examples.test_trade)));
      reflexivity.
Defined.

(** ** Circuit breaker *)

Section BreakerFacts.
Import Py SetupUtils.
Context {A : Type}.
Variables (failure_threshold : Z) (timeout : Q).

(** In the [except] block the first statement reads the unbound local
    [failures]: the block raises before it counts anything. *)
Lemma on_failure_raises (c : cells) (now : Q) :
  exists msg,
    on_failure failure_threshold c fresh_frame now
    = inl (UnboundLocalError msg).
Proof. eexists. reflexivity. Qed.

(** A closed breaker stays closed, whatever the wrapped function does, and
    the wrapped function is called. *)
Lemma wrapper_closed (c : cells) (now : Q) (func_result : result A) :
  state c = CLOSED ->
  state (fst (wrapper failure_threshold timeout c now func_result)) = CLOSED
  /\ invoked (snd (wrapper failure_threshold timeout c now func_result)) = true.
Proof.
  intros Hc. unfold wrapper. rewrite Hc.
  destruct func_result as [e | v]; cbn; rewrite ?Hc; auto.
Qed.

Lemma run_closed (events : list (Q * result A)) :
  forall c, state c = CLOSED ->
    state (fst (run failure_threshold timeout c events)) = CLOSED
    /\ Forall (fun r => invoked r = true)
              (snd (run failure_threshold timeout c events)).
Proof.
  induction events as [| [now fr] rest IH]; intros c Hc.
  - cbn. auto.
  - cbn [run].
    destruct (wrapper_closed c now fr Hc) as [Hs Hi].
    destruct (wrapper failure_threshold timeout c now fr) as [c1 r].
    cbn [fst snd] in Hs, Hi.
    destruct (IH c1 Hs) as [Hs' Hall].
    destruct (run failure_threshold timeout c1 rest) as [c2 rs].
    cbn [fst snd] in *. split; [exact Hs' | constructor; assumption].
Qed.

End BreakerFacts.

(** C4 (the code does not meet the claim).  From the state in which the
    decorator leaves the breaker, every call of every sequence of calls
    invokes the wrapped function and the breaker is CLOSED afterwards,
    however many of the calls fail: the breaker never opens, so no call is
    refused.  With [failure_threshold = 3] and [timeout = 120], four
    failing calls one second apart are all passed to the wrapped function,
    and each raises [UnboundLocalError] in place of the failure. *)
Theorem C4_breaker_never_opens :
  (forall (A : Type) (failure_threshold : Z) (timeout : Q)
          (events : list (Q * Py.result A)),
      SetupUtils.state
        (fst (SetupUtils.run failure_threshold timeout SetupUtils.decorator
                events))
      = SetupUtils.CLOSED /\
      Forall (fun r => SetupUtils.invoked r = true)
        (snd (SetupUtils.run failure_threshold timeout SetupUtils.decorator
                events)))
  /\
  (let unbound :=
     Py.UnboundLocalError
       "cannot access local variable 'failures' where it is not associated with a value" in
   SetupUtils.run 3 120 SetupUtils.decorator Examples.four_failures
   = (SetupUtils.decorator,
      [ {| SetupUtils.invoked := true; SetupUtils.outcome := inl unbound |};
        {| SetupUtils.invoked := true; SetupUtils.outcome := inl unbound |};
        {| SetupUtils.invoked := true; SetupUtils.outcome := inl unbound |};
        {| SetupUtils.invoked := true; SetupUtils.outcome := inl unbound |} ])).
Proof.
  split.
  - intros A ft to events. apply run_closed. reflexivity.
  - reflexivity.
Qed.

(** ** Risk manager: order gate *)

(** C9.  [should_place_order] returns a pair of a boolean and a string for
    every risk manager and every trade, and raises nothing; when a step of
    its [try] block raises, the pair is a denial whose reason carries the
    message of the exception; the risk manager is in the same state after
    the call as before. *)
Theorem C9_should_place_order_total
  (repr_float format_percent : Q -> string)
  (self : RiskManagement.RiskManager) (trade : Models.Trade) :
  exists (allow : bool) (reason : string),
    RiskManagement.should_place_order repr_float format_percent self trade
    = (self, inr (allow, reason)) /\
    forall e,
      RiskManagement.should_place_order_body repr_float format_percent
        self trade = inl e ->
      allow = false /\ reason = "Risk check failed: " ++ Py.str_exn e.
Proof.
  unfold RiskManagement.should_place_order.
  destruct (RiskManagement.should_place_order_body _ _ self trade)
    as [e | [allow reason]].
  - exists false, ("Risk check failed: " ++ Py.str_exn e).
    split; [reflexivity |].
    intros e' H. injection H as <-. split; reflexivity.
  - exists allow, reason. split; [reflexivity |]. intros e H. discriminate H.
Qed.

(** The failure branch of C9 is inhabited: a division by zero inside the
    margin check is turned into a denial, and an order within the limits
    is approved. *)
Lemma should_place_order_division_by_zero
  (repr_float format_percent : Q -> string) :
  RiskManagement.should_place_order_body repr_float format_percent
    Examples.cancelling_margins Examples.test_trade
  = inl (Py.ZeroDivisionError "float division by zero") /\
  RiskManagement.should_place_order repr_float format_percent
    Examples.cancelling_margins Examples.test_trade
  = (Examples.cancelling_margins,
     inr (false, "Risk check failed: float division by zero")).
Proof. split; reflexivity. Qed.

(** C9 at a call whose margin check divides by zero. *)
Lemma C9_should_place_order_witness :
  exists (allow : bool) (reason : string),
    RiskManagement.should_place_order Examples.repr_stub Examples.repr_stub
      Examples.cancelling_margins Examples.test_trade
    = (Examples.cancelling_margins, inr (allow, reason)) /\
    allow = false /\ reason = "Risk check failed: float division by zero".
Proof.
  destruct (C9_should_place_order_total Examples.repr_stub Examples.repr_stub
              Examples.cancelling_margins Examples.test_trade)
    as (allow & reason & Hcall & Hfail).
  exists allow, reason. split; [exact Hcall |].
  apply (Hfail (Py.ZeroDivisionError "float division by zero")).
  reflexivity.
Defined.

(** ** Slippage predictor *)

Section PredictorFacts.
Import Py SlippagePredictor.

Lemma min_cases (a b : Q) :
  (a <= b /\ min a b = a) \/ (b < a /\ min a b = b).
Proof.
  unfold min, lt. destruct (Qle_bool a b) eqn:E; cbn [negb].
  - left. split; [apply Qle_bool_iff; exact E | reflexivity].
  - right. split; [| reflexivity].
    apply Qnot_le_lt. intros H. apply Qle_bool_iff in H. congruence.
Qed.

Lemma max_cases (a b : Q) :
  (b <= a /\ max a b = a) \/ (a < b /\ max a b = b).
Proof.
  unfold max, gt. destruct (Qle_bool b a) eqn:E; cbn [negb].
  - left. split; [apply Qle_bool_iff; exact E | reflexivity].
  - right. split; [| reflexivity].
    apply Qnot_le_lt. intros H. apply Qle_bool_iff in H. congruence.
Qed.

Lemma max_min_bounds (x : Q) : 1.0 <= max 1.0 (min x 100.0) <= 100.0.
Proof.
  destruct (min_cases x 100.0) as [[H1 ->] | [H1 ->]];
    destruct (max_cases 1.0 x) as [[H2 E2] | [H2 E2]];
    destruct (max_cases 1.0 100.0) as [[H3 E3] | [H3 E3]];
    rewrite ?E2, ?E3; lra.
Qed.

(** What the rule-based path returns lies in [1.0, 100.0]. *)
Lemma predict_body_bounds (now : Datetime.datetime) (o : order) (q : Q) :
  predict_body now o = inr q -> 1.0 <= q <= 100.0.
Proof.
  unfold predict_body, bind.
  destruct (_extract_features now o) as [e | f]; [discriminate |].
  unfold _calculate_predicted_slippage, bind.
  destruct (number_of (f_bid_ask_spread f)); [discriminate |].
  destruct (number_of (f_open_interest f)); [discriminate |].
  destruct (number_of (f_market_volatility f)); [discriminate |].
  unfold ret. intros H. injection H as <-. apply max_min_bounds.
Qed.

End PredictorFacts.

(** C10.  With the slippage feature disabled, [predict] returns the
    configured [slippage_bps]; so it does when the feature is enabled and
    a step of the prediction raises.  The interval [1.0, 100.0] bounds only
    what the rule-based path returns: a configured 500 is returned as it
    is. *)
Theorem C10_predict_falls_back_to_configured_bps :
  (forall config now order_dict,
      AIBase.is_enabled config "slippage" = false ->
      SlippagePredictor.predict config now order_dict
      = Py.Int (Config.slippage_bps config)) /\
  (forall config now order_dict e,
      SlippagePredictor.predict_body now order_dict = inl e ->
      SlippagePredictor.predict config now order_dict
      = Py.Int (Config.slippage_bps config)) /\
  (forall config now order_dict q,
      AIBase.is_enabled config "slippage" = true ->
      SlippagePredictor.predict_body now order_dict = inr q ->
      SlippagePredictor.predict config now order_dict = Py.Float q /\
      1.0 <= q <= 100.0) /\
  (AIBase.is_enabled Examples.ai_config_500 "slippage" = true /\
   SlippagePredictor.predict Examples.ai_config_500 Examples.noon
     Examples.order_without_spread = Py.Int 500 /\
   ~ (inject_Z 500 <= 100.0)).
Proof.
  split; [| split; [| split]].
  - intros config now o H. unfold SlippagePredictor.predict.
    rewrite H. reflexivity.
  - intros config now o e H. unfold SlippagePredictor.predict. rewrite H.
    destruct (negb _); reflexivity.
  - intros config now o q Hen Hbody. split.
    + unfold SlippagePredictor.predict. rewrite Hen, Hbody. reflexivity.
    + exact (predict_body_bounds now o q Hbody).
  - split; [reflexivity | split; [reflexivity |]].
    intros H. apply H. reflexivity.
Qed.

(** C10 at a disabled feature, at an order whose spread is [None], and at
    an order that the rule-based path prices. *)
Lemma C10_predict_witness :
  SlippagePredictor.predict Config.dry_run_defaults Examples.noon
    Examples.empty_order = Py.Int 5 /\
  SlippagePredictor.predict Examples.ai_config_500 Examples.noon
    Examples.order_without_spread = Py.Int 500 /\
  (exists q,
      SlippagePredictor.predict Examples.ai_config_500 Examples.noon
        Examples.empty_order = Py.Float q
      /\ 1.0 <= q <= 100.0).
Proof.
  split; [| split].
  - apply (proj1 C10_predict_falls_back_to_configured_bps). reflexivity.
  - apply (proj1 (proj2 C10_predict_falls_back_to_configured_bps))
      with (e := Py.TypeError "unsupported operand type(s): 'NoneType'").
    reflexivity.
  - eexists.
    apply (proj1 (proj2 (proj2 C10_predict_falls_back_to_configured_bps))).
    + reflexivity.
    + reflexivity.
Defined.

(** ** Semantic kill-switch *)

Section JudgeFacts.
Import Py Config AIBase SemanticKill.
Variable re_search : string -> string -> bool.
Variable lower_strip : string -> string.
Variable ask_llm : string -> llm_answer.
Variable repr_float : Q -> string.

(** With a threshold that is a float, the two outcomes are the ones the
    specification describes. *)
Lemma judge_message_float_threshold
  (config : OptionWheelConfig) (message_text : string) (threshold : Q)
  (decision explanation : string) (confidence : Q) :
  is_enabled config "semantic_kill" = true ->
  semantic_kill_confidence_threshold config = PyFloat threshold ->
  (let '(has, c) :=
     _check_obvious_kill_intent re_search lower_strip message_text in
   has && ge c 0.95) = false ->
  ask_llm message_text = Judged decision confidence explanation ->
  (threshold <= confidence ->
   judge_message re_search lower_strip ask_llm repr_float config message_text
   = (str_in decision ["KILL"; "PAUSE"], confidence, explanation)) /\
  (confidence < threshold ->
   exists explanation',
     judge_message re_search lower_strip ask_llm repr_float config message_text
     = (false, confidence * 0.5, explanation')).
Proof.
  intros Hen Hth Hregex Hllm.
  unfold judge_message, judge_message_body. rewrite Hen. cbn [negb].
  destruct (_check_obvious_kill_intent re_search lower_strip message_text)
    as [has c].
  rewrite Hregex, Hllm, Hth. cbn [bind ret float_lt].
  split; intros Hc.
  - apply Qle_bool_iff in Hc. rewrite Hc. reflexivity.
  - destruct (Qle_bool threshold confidence) eqn:E.
    + apply Qle_bool_iff in E. lra.
    + cbn. eexists. reflexivity.
Qed.

(** With a threshold that is a string, the comparison raises and the
    handler answers, whatever the decision and the confidence. *)
Lemma judge_message_str_threshold
  (config : OptionWheelConfig) (message_text s : string)
  (decision explanation : string) (confidence : Q) :
  is_enabled config "semantic_kill" = true ->
  semantic_kill_confidence_threshold config = PyStr s ->
  (let '(has, c) :=
     _check_obvious_kill_intent re_search lower_strip message_text in
   has && ge c 0.95) = false ->
  ask_llm message_text = Judged decision confidence explanation ->
  judge_message re_search lower_strip ask_llm repr_float config message_text
  = (false, 0.1,
     "Error in judgment: '<' not supported between instances of 'float' and 'str'").
Proof.
  intros Hen Hth Hregex Hllm.
  unfold judge_message, judge_message_body. rewrite Hen. cbn [negb].
  destruct (_check_obvious_kill_intent re_search lower_strip message_text)
    as [has c].
  rewrite Hregex, Hllm, Hth. reflexivity.
Qed.

End JudgeFacts.

(** The class default of the threshold is a string in every environment. *)
Lemma default_threshold_is_str (environ : list (string * string)) :
  exists s, Config.default_semantic_kill_confidence_threshold environ
            = Py.PyStr s.
Proof. eexists. reflexivity. Qed.

(** C6 (the code does not meet the claim).  The settings record that
    [get_config()] builds binds [semantic_kill_confidence_threshold] to the
    string read from the environment (["0.9"] when the variable is unset).
    For a message that no pattern matches and that the model classifies as
    KILL with confidence 0.95, at or above the threshold, [judge_message]
    answers [(False, 0.1, "Error in judgment: ...")]: comparing a float
    with a string raises [TypeError], and activation is off. *)
Theorem C6_string_threshold_blocks_activation :
  Config.new Examples.ai_config_500 = inr Examples.ai_config_500 /\
  Config.semantic_kill_confidence_threshold Examples.ai_config_500
  = Py.PyStr "0.9" /\
  AIBase.is_enabled Examples.ai_config_500 "semantic_kill" = true /\
  SemanticKill._check_obvious_kill_intent Examples.no_match
    Examples.already_lower "positions look wrong to me" = (false, 0.1) /\
  SemanticKill.judge_message Examples.no_match Examples.already_lower
    Examples.llm_says_kill Examples.repr_stub Examples.ai_config_500
    "positions look wrong to me"
  = (false, 0.1,
     "Error in judgment: '<' not supported between instances of 'float' and 'str'").
Proof.
  repeat split.
Qed.

(** ** Risk manager: position sizing *)

Section TruncationFacts.
Import Py.






End TruncationFacts.

Section SizingFacts.
Import Py Config Enums RiskManagement Examples.

Variable config : OptionWheelConfig.
Variable underlying_price : Q.
Variable strategy_type : StrategyType.
Hypothesis lot_positive : (0 < quantity_per_lot config)%Z.
Hypothesis price_positive : 0 < underlying_price.





End SizingFacts.



(** ** Dry-run orders *)




(** * Further properties of the modelled code *)

(** ** Settings record: when construction succeeds *)

Section ComparisonFacts.
Import Py.

Lemma lt_true_iff (a b : Q) : lt a b = true <-> a < b.
Proof.
  unfold lt. rewrite negb_true_iff. split.
  - intros E. apply Qnot_le_lt. intros H. apply Qle_bool_iff in H. congruence.
  - intros H. destruct (Qle_bool b a) eqn:E; [| reflexivity].
    apply Qle_bool_iff in E. lra.
Qed.

Lemma gt_true_iff (a b : Q) : gt a b = true <-> b < a.
Proof. unfold gt. apply (lt_true_iff b a). Qed.

Lemma le_true_iff (a b : Q) : le a b = true <-> a <= b.
Proof. unfold le. apply Qle_bool_iff. Qed.

Lemma ge_true_iff (a b : Q) : ge a b = true <-> b <= a.
Proof. unfold ge. apply Qle_bool_iff. Qed.

Lemma lt_false_iff (a b : Q) : lt a b = false <-> b <= a.
Proof.
  unfold lt. rewrite negb_false_iff. apply Qle_bool_iff.
Qed.

Lemma gt_false_iff (a b : Q) : gt a b = false <-> a <= b.
Proof. unfold gt. apply (lt_false_iff b a). Qed.

Lemma le_false_iff (a b : Q) : le a b = false <-> b < a.
Proof.
  unfold le. split.
  - intros E. apply Qnot_le_lt. intros H. apply Qle_bool_iff in H. congruence.
  - intros H. destruct (Qle_bool a b) eqn:E; [| reflexivity].
    apply Qle_bool_iff in E. lra.
Qed.

Lemma ge_false_iff (a b : Q) : ge a b = false <-> a < b.
Proof. unfold ge. apply (le_false_iff b a). Qed.

End ComparisonFacts.

(** Turns the boolean comparisons of the hypotheses and of the goal into
    order facts on rationals. *)
Ltac order_facts :=
  repeat match goal with
  | H : Py.lt _ _ = true |- _ => apply lt_true_iff in H
  | H : Py.lt _ _ = false |- _ => apply lt_false_iff in H
  | H : Py.gt _ _ = true |- _ => apply gt_true_iff in H
  | H : Py.gt _ _ = false |- _ => apply gt_false_iff in H
  | H : Py.le _ _ = true |- _ => apply le_true_iff in H
  | H : Py.le _ _ = false |- _ => apply le_false_iff in H
  | H : Py.ge _ _ = true |- _ => apply ge_true_iff in H
  | H : Py.ge _ _ = false |- _ => apply ge_false_iff in H
  end.

(** X1.  Constructing the settings record succeeds, and returns the fields
    unchanged, exactly when the strategy mode is one of the three names,
    the generic delta band is ordered, the risk per trade lies in
    (0, 0.10], and either [dry_run] is set or the three credentials are
    non-empty; in every other case it raises [ValueError]. *)
Theorem X1_config_new_succeeds_iff (fields : Config.OptionWheelConfig) :
  let acceptable :=
    (Config.strategy_mode fields = "conservative"
     \/ Config.strategy_mode fields = "balanced"
     \/ Config.strategy_mode fields = "aggressive") /\
    Config.otm_delta_range_low fields < Config.otm_delta_range_high fields /\
    0 < Config.risk_per_trade_percent fields /\
    Config.risk_per_trade_percent fields <= 0.10 /\
    (Config.dry_run fields = true \/
     (Config.api_key fields <> "" /\ Config.api_secret fields <> ""
      /\ Config.access_token fields <> "")) in
  (acceptable <-> Config.new fields = inr fields) /\
  (~ acceptable -> exists msg, Config.new fields = inl (Py.ValueError msg)).
Proof.
  cbv zeta.
  unfold Config.new, Config.__post_init__, Config.validate, Py.bind, Py.ret,
    Py.raise, Py.str_in. cbn [existsb].
  destruct (String.eqb_spec (Config.strategy_mode fields) "conservative")
    as [Em1 | Em1];
  destruct (String.eqb_spec (Config.strategy_mode fields) "balanced")
    as [Em2 | Em2];
  destruct (String.eqb_spec (Config.strategy_mode fields) "aggressive")
    as [Em3 | Em3]; cbn [orb negb];
  try (split; [split; [intros (M & _); destruct M as [M | [M | M]];
                        congruence | discriminate]
              | intros _; eexists; reflexivity]);
  (destruct (Py.ge (Config.otm_delta_range_low fields)
               (Config.otm_delta_range_high fields)) eqn:Eb;
   [ order_facts; split;
     [ split; [intros (_ & Hb & _); lra | discriminate]
     | intros _; eexists; reflexivity ] | ]);
  (destruct (Py.le (Config.risk_per_trade_percent fields) 0) eqn:Er1;
   [ order_facts; split;
     [ split; [intros (_ & _ & Hr & _); lra | discriminate]
     | intros _; eexists; reflexivity ] | ]);
  (destruct (Py.gt (Config.risk_per_trade_percent fields) 0.10) eqn:Er2;
   [ order_facts; split;
     [ split; [intros (_ & _ & _ & Hr & _); lra | discriminate]
     | intros _; eexists; reflexivity ] | ]);
  cbn [orb]; order_facts;
  (destruct (Config.dry_run fields) eqn:Ed; cbn [negb andb];
   [ split; [split; [reflexivity | intros _; repeat split; auto]
            | intros Hn; exfalso; apply Hn; repeat split; auto] | ]);
  (destruct (String.eqb_spec (Config.api_key fields) "") as [Ek | Ek];
   [ split;
     [ split; [intros (_ & _ & _ & _ & [Hd | (Hk & _)]);
               [discriminate | contradiction] | discriminate]
     | intros _; eexists; reflexivity ] | ]);
  (destruct (String.eqb_spec (Config.api_secret fields) "") as [Es | Es];
   [ split;
     [ split; [intros (_ & _ & _ & _ & [Hd | (_ & Hk & _)]);
               [discriminate | contradiction] | discriminate]
     | intros _; eexists; reflexivity ] | ]);
  (destruct (String.eqb_spec (Config.access_token fields) "") as [Et | Et];
   [ split;
     [ split; [intros (_ & _ & _ & _ & [Hd | (_ & _ & Hk)]);
               [discriminate | contradiction] | discriminate]
     | intros _; eexists; reflexivity ] | ]);
  (split; [split; [reflexivity | intros _; repeat split; auto]
          | intros Hn; exfalso; apply Hn; repeat split; auto]).
Qed.

(** X1 at the class defaults in dry-run mode, and at an unknown mode. *)
Lemma X1_config_new_witness :
  Config.new Config.dry_run_defaults = inr Config.dry_run_defaults /\
  exists msg,
    Config.new (Config.with_strategy_mode Config.dry_run_defaults "invalid_mode")
    = inl (Py.ValueError msg).
Proof.
  split.
  - apply (proj1 (X1_config_new_succeeds_iff Config.dry_run_defaults)).
    cbn. repeat split; auto; discriminate.
  - apply (proj2 (X1_config_new_succeeds_iff
                    (Config.with_strategy_mode Config.dry_run_defaults
                       "invalid_mode"))).
    cbn. intros (M & _). destruct M as [M | [M | M]]; discriminate.
Defined.

(** ** The retry decorator *)

Section RetryFacts.
Import Py Retry.
Context {S A : Type}.
Variable max_retries : Z.
Variable backoff_factor : Q.
Variable func : S -> nat -> S * result A.
Hypothesis backoff_nonneg : 0 <= backoff_factor.

Lemma pause_nonneg (k : nat) : lt (pause backoff_factor k) 0 = false.
Proof.
  apply lt_false_iff. unfold pause.
  apply Qmult_le_0_compat; [exact backoff_nonneg |].
  change 0 with (inject_Z 0). rewrite <- Zle_Qle.
  apply Z.pow_nonneg. lia.
Qed.

(** Calls [attempt], ..., [last - 1] fail and call [last] decides. *)
Lemma loop_until (last : nat) :
  forall (remaining attempt : nat) (s : S) (naps : list Q),
    (attempt <= last)%nat ->
    (last < attempt + remaining)%nat ->
    (Z.of_nat last <= max_retries)%Z ->
    (forall s' k, (attempt <= k < last)%nat ->
                  exists e, snd (func s' k) = inl e) ->
    (forall s', (exists v, snd (func s' last) = inr v)
                \/ Z.of_nat last = max_retries) ->
    exists s',
      loop max_retries backoff_factor func remaining attempt s naps
      = loop max_retries backoff_factor func
          (remaining - (last - attempt)) last s'
          (naps ++ map (pause backoff_factor) (seq attempt (last - attempt)))%list.
Proof.
  induction remaining as [| remaining IH]; intros attempt s naps Hle Hlt Hmax Hfail Hlast.
  - lia.
  - destruct (Nat.eq_dec attempt last) as [-> | Hne].
    + exists s. rewrite Nat.sub_diag. cbn [seq map].
      rewrite app_nil_r, Nat.sub_0_r. reflexivity.
    + assert (Hk : (attempt <= attempt < last)%nat) by lia.
      cbn [loop].
      destruct (Hfail s attempt Hk) as [e He].
      destruct (func s attempt) as [s1 r]. cbn [snd] in He. subst r.
      destruct (Z.eqb_spec (Z.of_nat attempt) max_retries) as [E | E]; [lia |].
      rewrite pause_nonneg.
      destruct (IH (Datatypes.S attempt) s1 (naps ++ [pause backoff_factor attempt])%list)
        as [s' Hs']; try lia.
      * intros s2 k Hk2. apply Hfail. lia.
      * exact Hlast.
      * exists s'. rewrite Hs'.
        replace (last - attempt)%nat
          with (Datatypes.S (last - Datatypes.S attempt)) by lia.
        cbn [seq map]. rewrite <- app_assoc. cbn [app].
        reflexivity.
Qed.

Lemma total_app (l1 l2 : list Q) : total (l1 ++ l2) == total l1 + total l2.
Proof.
  unfold total. induction l1 as [| x l1 IH]; cbn [app fold_right].
  - lra.
  - rewrite IH. lra.
Qed.

(** The pauses double: their sum is a geometric sum. *)
Lemma total_pauses (n : nat) :
  total (map (pause backoff_factor) (seq 0 n))
  == backoff_factor * (inject_Z (2 ^ Z.of_nat n) - 1).
Proof.
  induction n as [| n IH].
  - change (total (map (pause backoff_factor) (seq 0 0))) with 0.
    change (inject_Z (2 ^ Z.of_nat 0)) with 1. lra.
  - rewrite seq_S, map_app, total_app, IH.
    change (total (map (pause backoff_factor) [(0 + n)%nat]))
      with (pause backoff_factor n + 0).
    unfold pause. rewrite Nat2Z.inj_succ, Z.pow_succ_r by lia.
    rewrite inject_Z_mult. change (inject_Z 2) with 2. lra.
Qed.

End RetryFacts.

(** X2.  When every call of the wrapped function fails, the function that
    [with_retry] returns calls it [max_retries + 1] times, sleeps
    [backoff_factor * 2^k] after the [k]-th failure except the last, in
    total [backoff_factor * (2^max_retries - 1)], and raises the exception
    of the last call. *)
Theorem X2_with_retry_exhausts
  (S A : Type) (max_retries : Z) (backoff_factor : Q)
  (func : S -> nat -> S * Py.result A) (s : S) :
  (0 <= max_retries)%Z ->
  0 <= backoff_factor ->
  (forall s' k, exists e, snd (func s' k) = inl e) ->
  let r := Retry.with_retry max_retries backoff_factor func s in
  Z.of_nat (Retry.calls r) = (max_retries + 1)%Z /\
  Retry.slept r
  = map (Retry.pause backoff_factor) (seq 0 (Z.to_nat max_retries)) /\
  Retry.total (Retry.slept r)
  == backoff_factor * (inject_Z (2 ^ max_retries) - 1) /\
  exists s' e,
    func s' (Z.to_nat max_retries) = (Retry.final r, inl e) /\
    Retry.outcome r = inl e.
Proof.
  intros Hmax Hb Hfail. cbv zeta. unfold Retry.with_retry.
  assert (L : exists s',
    Retry.loop max_retries backoff_factor func
      (Z.to_nat (max_retries + 1)) 0 s []
    = Retry.loop max_retries backoff_factor func
        (Z.to_nat (max_retries + 1) - (Z.to_nat max_retries - 0))
        (Z.to_nat max_retries) s'
        ([] ++ map (Retry.pause backoff_factor)
                 (seq 0 (Z.to_nat max_retries - 0)))%list).
  { apply (loop_until max_retries backoff_factor func Hb);
      try lia; try (intros s1 k _; apply Hfail);
      try (intros s1; right; lia). }
  destruct L as [s' Hs'].
  rewrite Hs'. rewrite Nat.sub_0_r. cbn [app].
    replace (Z.to_nat (max_retries + 1) - Z.to_nat max_retries)%nat
      with 1%nat by lia.
    cbn [Retry.loop].
    destruct (Hfail s' (Z.to_nat max_retries)) as [e He].
    destruct (func s' (Z.to_nat max_retries)) as [s2 r] eqn:Ef.
    cbn [snd] in He. subst r.
    rewrite Z2Nat.id by lia. rewrite Z.eqb_refl.
    cbn [Retry.calls Retry.slept Retry.final Retry.outcome].
    split; [lia |]. split; [reflexivity |]. split.
    + rewrite (total_pauses backoff_factor (Z.to_nat max_retries)).
      rewrite Z2Nat.id by lia. reflexivity.
    + exists s', e. split; [exact Ef | reflexivity].
Qed.

(** X3.  When the calls before the [k]-th fail and the [k]-th succeeds,
    with [k <= max_retries], the function that [with_retry] returns makes
    [k + 1] calls, sleeps after each of the [k] failures, and returns the
    value of the [k]-th call; later calls are not made. *)
Theorem X3_with_retry_returns_first_success
  (S A : Type) (max_retries : Z) (backoff_factor : Q)
  (func : S -> nat -> S * Py.result A) (s : S) (k : nat) (v : A) :
  (Z.of_nat k <= max_retries)%Z ->
  0 <= backoff_factor ->
  (forall s' j, (j < k)%nat -> exists e, snd (func s' j) = inl e) ->
  (forall s', snd (func s' k) = inr v) ->
  let r := Retry.with_retry max_retries backoff_factor func s in
  Retry.calls r = Datatypes.S k /\
  Retry.slept r
  = map (Retry.pause backoff_factor) (seq 0 k) /\
  Retry.outcome r = inr (Some v).
Proof.
  intros Hk Hb Hfail Hok. cbv zeta. unfold Retry.with_retry.
  assert (L : exists s',
    Retry.loop max_retries backoff_factor func
      (Z.to_nat (max_retries + 1)) 0 s []
    = Retry.loop max_retries backoff_factor func
        (Z.to_nat (max_retries + 1) - (k - 0)) k s'
        ([] ++ map (Retry.pause backoff_factor) (seq 0 (k - 0)))%list).
  { apply (loop_until max_retries backoff_factor func Hb);
      try lia; try (intros s1 j Hj; apply Hfail; lia);
      try (intros s1; left; exists v; apply Hok). }
  destruct L as [s' Hs'].
  rewrite Hs'. rewrite Nat.sub_0_r. cbn [app].
    destruct (Z.to_nat (max_retries + 1) - k)%nat as [| n] eqn:En; [lia |].
    cbn [Retry.loop].
    specialize (Hok s'). destruct (func s' k) as [s2 r]. cbn [snd] in Hok.
    subst r. cbn. repeat split.
Qed.

(** With a negative [max_retries] the loop has no iteration: the wrapped
    function is not called and [None] is returned. *)
Lemma with_retry_negative
  (S A : Type) (max_retries : Z) (backoff_factor : Q)
  (func : S -> nat -> S * Py.result A) (s : S) :
  (max_retries < 0)%Z ->
  Retry.with_retry max_retries backoff_factor func s
  = {| Retry.calls := 0; Retry.slept := []; Retry.final := s;
       Retry.outcome := inr None |}.
Proof.
  intros H. unfold Retry.with_retry.
  replace (Z.to_nat (max_retries + 1)) with 0%nat by lia. reflexivity.
Qed.

(** ** Option contracts *)

(** X4.  The intrinsic value of an option contract is never negative, and
    it is positive exactly when the contract is in the money. *)
Theorem X4_intrinsic_value_in_the_money
  (self : OptionContracts.OptionContract) (underlying_price : Q) :
  0 <= OptionContracts.intrinsic_value self underlying_price /\
  (OptionContracts.is_in_the_money self underlying_price = true
   <-> 0 < OptionContracts.intrinsic_value self underlying_price).
Proof.
  unfold OptionContracts.intrinsic_value, OptionContracts.is_in_the_money.
  destruct (String.eqb (OptionContracts.option_type self) "CE").
  - destruct (max_cases 0 (underlying_price - OptionContracts.strike self))
      as [[H ->] | [H ->]]; rewrite ?gt_true_iff; split; try lra;
      split; intros; lra.
  - destruct (max_cases 0 (OptionContracts.strike self - underlying_price))
      as [[H ->] | [H ->]]; rewrite ?lt_true_iff; split; try lra;
      split; intros; lra.
Qed.

(** X5.  The time value is never negative and, with the intrinsic value,
    covers the last price; when the last price is at least the intrinsic
    value the two add up to the last price. *)
Theorem X5_time_value_decomposition
  (self : OptionContracts.OptionContract) (underlying_price : Q) :
  let intrinsic := OptionContracts.intrinsic_value self underlying_price in
  let time := OptionContracts.time_value self underlying_price in
  0 <= time /\
  OptionContracts.last_price self <= intrinsic + time /\
  (intrinsic <= OptionContracts.last_price self ->
   intrinsic + time == OptionContracts.last_price self) /\
  (OptionContracts.last_price self <= intrinsic -> time == 0).
Proof.
  cbv zeta. unfold OptionContracts.time_value.
  set (i := OptionContracts.intrinsic_value self underlying_price).
  destruct (max_cases 0 (OptionContracts.last_price self - i))
    as [[H ->] | [H ->]]; repeat split; intros; lra.
Qed.

(** ** Risk manager: what an approval guarantees *)

(** X6.  When [should_place_order] approves an order, the daily losses are
    below the daily loss limit, fewer positions are tracked than the
    maximum, the order's value is at most the position-size limit of a
    positive portfolio value, the cash available covers the required
    margin, and with a positive available margin the utilisation after the
    order is at most the utilisation limit. *)
Theorem X6_approval_implies_limits
  (repr_float format_percent : Q -> string)
  (self : RiskManagement.RiskManager) (trade : Models.Trade)
  (reason : string) :
  RiskManagement.should_place_order repr_float format_percent self trade
  = (self, inr (true, reason)) ->
  let rc := RiskManagement.risk_config self in
  let required :=
    RiskManagement._calculate_required_margin self trade in
  reason = "Order approved" /\
  RiskManagement.daily_losses self < RiskManagement.daily_loss_limit rc /\
  (Z.of_nat (length (RiskManagement.current_positions self))
   < RiskManagement.max_concurrent_positions rc)%Z /\
  (0 < RiskManagement.portfolio_value self ->
   Py.abs (Models.price trade * inject_Z (Models.quantity trade))
   / RiskManagement.portfolio_value self
   <= RiskManagement.position_size_limit rc) /\
  required <= RiskManagement.cash_available self /\
  (0 < RiskManagement.margin_available self ->
   ~ RiskManagement.margin_available self + RiskManagement.margin_used self
     == 0 /\
   (RiskManagement.margin_used self + required)
   / (RiskManagement.margin_available self + RiskManagement.margin_used self)
   <= RiskManagement.margin_utilization_limit rc).
Proof.
  cbv zeta.
  unfold RiskManagement.should_place_order,
    RiskManagement.should_place_order_body, Py.bind, Py.ret.
  destruct (Py.ge (RiskManagement.daily_losses self) _) eqn:E1;
    [discriminate |].
  destruct (_ <=? _)%Z eqn:E2; [discriminate |].
  apply Z.leb_gt in E2.
  destruct (Py.gt (RiskManagement.portfolio_value self) 0) eqn:E3.
  - unfold Py.truediv at 1.
    destruct (Qeq_bool (RiskManagement.portfolio_value self) 0) eqn:E3z.
    { apply Qeq_bool_iff in E3z. order_facts. lra. }
    cbn [Py.ret].
    destruct (Py.gt (_ / _) (RiskManagement.position_size_limit _)) eqn:E4;
      [discriminate |].
    destruct (Py.lt (RiskManagement.cash_available self) _) eqn:E5;
      [discriminate |].
    destruct (Py.gt (RiskManagement.margin_available self) 0) eqn:E6.
    + unfold Py.truediv.
      destruct (Qeq_bool (_ + _) 0) eqn:E6z; [discriminate |].
      cbn [Py.ret].
      destruct (Py.gt (_ / _) (RiskManagement.margin_utilization_limit _))
        eqn:E7; [discriminate |].
      intros H. injection H as <-. order_facts.
      repeat split; auto.
      intros Hz. apply Qeq_bool_iff in Hz. congruence.
    + intros H. injection H as <-. order_facts.
      repeat split; auto; lra.
  - destruct (Py.lt (RiskManagement.cash_available self) _) eqn:E5;
      [discriminate |].
    destruct (Py.gt (RiskManagement.margin_available self) 0) eqn:E6.
    + unfold Py.truediv.
      destruct (Qeq_bool (_ + _) 0) eqn:E6z; [discriminate |].
      cbn [Py.ret].
      destruct (Py.gt (_ / _) (RiskManagement.margin_utilization_limit _))
        eqn:E7; [discriminate |].
      intros H. injection H as <-. order_facts.
      repeat split; auto; try lra.
      intros Hz. apply Qeq_bool_iff in Hz. congruence.
    + intros H. injection H as <-. order_facts.
      repeat split; auto; lra.
Qed.

(** ** Risk manager: daily counters *)

Section DailyCounterFacts.
Import Py RiskManagement RiskLimits.

Lemma loss_nonneg (pnl : Q) : 0 <= loss pnl.
Proof.
  unfold loss, abs. destruct (lt pnl 0) eqn:E; [| lra].
  order_facts. lra.
Qed.

Lemma pnl_plus_loss_nonneg (pnl : Q) : 0 <= pnl + loss pnl.
Proof.
  unfold loss, abs. destruct (lt pnl 0) eqn:E; order_facts; lra.
Qed.

Lemma update_daily_pnl_step (self : RiskManager) (pnl : Q) :
  daily_pnl (update_daily_pnl self pnl) == daily_pnl self + pnl /\
  daily_losses (update_daily_pnl self pnl) == daily_losses self + loss pnl.
Proof.
  unfold update_daily_pnl, loss. cbn [daily_pnl daily_losses set_daily].
  destruct (lt pnl 0); split; lra.
Qed.

Lemma replay_totals (pnls : list Q) :
  forall self,
    daily_pnl (replay self pnls) == daily_pnl self + sum pnls /\
    daily_losses (replay self pnls)
    == daily_losses self + sum (map loss pnls).
Proof.
  unfold replay, sum.
  induction pnls as [| p pnls IH]; intros self; cbn [fold_left map fold_right].
  - split; lra.
  - destruct (IH (update_daily_pnl self p)) as [H1 H2].
    destruct (update_daily_pnl_step self p) as [S1 S2].
    rewrite H1, H2, S1, S2. split; lra.
Qed.

Lemma sum_loss_nonneg (pnls : list Q) : 0 <= sum (map loss pnls).
Proof.
  unfold sum. induction pnls as [| p pnls IH]; cbn [map fold_right].
  - lra.
  - pose proof (loss_nonneg p). lra.
Qed.

Lemma sum_gain_nonneg (pnls : list Q) : 0 <= sum pnls + sum (map loss pnls).
Proof.
  unfold sum. induction pnls as [| p pnls IH]; cbn [map fold_right].
  - lra.
  - pose proof (pnl_plus_loss_nonneg p). lra.
Qed.

End DailyCounterFacts.

(** X7.  After a reset of the daily metrics and any sequence of
    [update_daily_pnl] calls, [daily_pnl] is the sum of the results,
    [daily_losses] is the sum of the magnitudes of the negative results,
    [daily_losses] is not negative, and [daily_pnl] is never below
    [-daily_losses]. *)
Theorem X7_daily_counters_after_reset
  (self : RiskManagement.RiskManager) (pnls : list Q) :
  let day := RiskLimits.replay (RiskLimits.reset_daily_metrics self) pnls in
  RiskManagement.daily_pnl day == RiskLimits.sum pnls /\
  RiskManagement.daily_losses day
  == RiskLimits.sum (map RiskLimits.loss pnls) /\
  0 <= RiskManagement.daily_losses day /\
  - RiskManagement.daily_losses day <= RiskManagement.daily_pnl day.
Proof.
  cbv zeta.
  destruct (replay_totals pnls (RiskLimits.reset_daily_metrics self))
    as [H1 H2].
  cbn [RiskLimits.reset_daily_metrics RiskLimits.set_daily
       RiskManagement.daily_pnl RiskManagement.daily_losses] in H1, H2.
  pose proof (sum_loss_nonneg pnls).
  pose proof (sum_gain_nonneg pnls).
  rewrite H1, H2. repeat split; lra.
Qed.

(** X8.  A single result that loses at least the daily loss limit blocks
    new orders: afterwards [should_place_order] denies every trade and
    [enforce_risk_limits] is false; [reset_daily_metrics] clears the
    daily-loss flag again when the limit is positive. *)
Theorem X8_loss_limit_blocks_orders
  (repr_float format_percent : Q -> string)
  (self : RiskManagement.RiskManager) (trade : Models.Trade) (pnl : Q) :
  0 <= RiskManagement.daily_losses self ->
  pnl <= - RiskManagement.daily_loss_limit (RiskManagement.risk_config self) ->
  let after := RiskLimits.update_daily_pnl self pnl in
  (exists reason,
      RiskManagement.should_place_order repr_float format_percent after trade
      = (after, inr (false, reason))) /\
  RiskLimits.enforce_risk_limits after = false /\
  (0 < RiskManagement.daily_loss_limit (RiskManagement.risk_config self) ->
   RiskLimits.daily_loss_exceeded
     (RiskLimits.check_risk_limits (RiskLimits.reset_daily_metrics after))
   = false).
Proof.
  intros Hl Hp. cbv zeta.
  assert (Hge : Py.ge (RiskManagement.daily_losses
                         (RiskLimits.update_daily_pnl self pnl))
                  (RiskManagement.daily_loss_limit
                     (RiskManagement.risk_config self)) = true).
  { apply ge_true_iff.
    destruct (update_daily_pnl_step self pnl) as [_ ->].
    unfold RiskLimits.loss, Py.abs.
    destruct (Py.lt pnl 0) eqn:E; order_facts; lra. }
  split; [| split].
  - unfold RiskManagement.should_place_order,
      RiskManagement.should_place_order_body.
    change (RiskManagement.risk_config (RiskLimits.update_daily_pnl self pnl))
      with (RiskManagement.risk_config self).
    rewrite Hge. eexists. reflexivity.
  - unfold RiskLimits.enforce_risk_limits, RiskLimits.check_risk_limits.
    cbn [RiskLimits.daily_loss_exceeded RiskLimits.position_limit_exceeded
         RiskLimits.margin_exceeded].
    change (RiskManagement.risk_config (RiskLimits.update_daily_pnl self pnl))
      with (RiskManagement.risk_config self).
    rewrite Hge. reflexivity.
  - intros Hpos. cbn. apply ge_false_iff. lra.
Qed.

(** ** Risk manager: tracked positions *)

Section PositionDictFacts.
Import Py RiskManagement RiskLimits.
Context {V : Type}.




End PositionDictFacts.


(** ** Positions: opening *)

Section OpeningFacts.
Import Py Config Enums RiskManagement Strategy StrategyCycle.

(** At the placeholder price [0] the divisor of the lot computation is
    zero. *)
Lemma calculate_max_position_size_at_zero (config : OptionWheelConfig)
  (self : RiskManager) (strategy_type : StrategyType) :
  calculate_max_position_size config self 0 strategy_type
  = if le (portfolio_value self) 0 then inr 0%Z
    else inl (ZeroDivisionError "float division by zero").
Proof.
  unfold calculate_max_position_size.
  destruct (le (portfolio_value self) 0); [reflexivity |].
  assert (Z1 : Qeq_bool (0 * 0.95 * inject_Z (quantity_per_lot config)) 0
               = true) by (apply Qeq_bool_iff; ring).
  assert (Z2 : Qeq_bool (0 * inject_Z (quantity_per_lot config)) 0 = true)
    by (apply Qeq_bool_iff; ring).
  destruct strategy_type; unfold truediv; rewrite ?Z1, ?Z2; reflexivity.
Qed.

End OpeningFacts.

(** X10.  [_look_for_new_positions] asks the risk manager for the position
    size at the placeholder price 0.  The answer is 0 when the portfolio
    value is not positive and a division by zero otherwise, so the method
    returns before it places an order: whatever the option chain, the
    settings and the state, the strategy is left as it was (no order, no
    trade row, no notification). *)
Theorem X10_look_for_new_positions_never_orders
  (repr_float : Q -> string) (config : Config.OptionWheelConfig)
  (more : Settings.more_settings) (w : Strategy.world)
  (self : StrategyCycle.strategy)
  (chain : list OptionContracts.OptionContract) :
  RiskManagement.calculate_max_position_size config
    (Strategy.risk_manager (StrategyCycle.sys self)) 0
    Enums.CASH_SECURED_PUT
  = (if Py.le (RiskManagement.portfolio_value
                 (Strategy.risk_manager (StrategyCycle.sys self))) 0
     then inr 0%Z
     else inl (Py.ZeroDivisionError "float division by zero")) /\
  StrategyCycle._look_for_new_positions repr_float config more w self chain
  = self.
Proof.
  split; [apply calculate_max_position_size_at_zero |].
  unfold StrategyCycle._look_for_new_positions.
  destruct (Config.max_concurrent_positions config <=? _)%Z;
    [reflexivity |].
  destruct (StrategyCycle.find_best_otm_strikes _ _ _ _);
    [reflexivity |].
  rewrite calculate_max_position_size_at_zero.
  destruct (Py.le _ 0); reflexivity.
Qed.

(** ** Trades table: writes under different and equal order ids *)

Section UpsertFacts.
Import Py Datetime Models Database.




End UpsertFacts.


(** ** Trades table: deleting *)

Section DeleteFacts.
Import Py Database.





End DeleteFacts.


(** ** Orders *)

Section OrderFacts.
Import Py Config Models Database RiskManagement Strategy.

Variable repr_float : Q -> string.




End OrderFacts.

(** X13.  What [place_order] never does.  The broker client is called only
    in live mode, after the line typed at the prompt is CONFIRM, with no
    kill-switch file, the market open, a positive quantity and, for a LIMIT
    order, a positive price.  An order id is returned only when the market
    is open, no kill-switch file exists and the quantity is positive.  In
    live mode neither the trades table nor the risk manager is written,
    whether the broker accepts the order or not. *)
Theorem X13_place_order_safety
  (repr_float : Q -> string) (config : Config.OptionWheelConfig)
  (w : Strategy.world) (s : Strategy.system)
  (symbol transaction_type : string) (quantity : Z) (price : Q)
  (order_type product : string) (kw : Strategy.kwargs) :
  let result :=
    Strategy.place_order repr_float config w s symbol transaction_type
      quantity price order_type product kw in
  (Strategy.broker_calls (fst result) <> Strategy.broker_calls s ->
   Config.dry_run config = false /\
   Strategy.typed_confirmation w = "CONFIRM" /\
   Strategy.kill_switch_file_exists w = false /\
   Strategy.market_open w = true /\
   (0 < quantity)%Z /\
   (order_type = "LIMIT" -> 0 < price)) /\
  (snd result <> None ->
   Strategy.kill_switch_file_exists w = false /\
   Strategy.market_open w = true /\
   (0 < quantity)%Z) /\
  (Config.dry_run config = false ->
   Strategy.database (fst result) = Strategy.database s /\
   Strategy.risk_manager (fst result) = Strategy.risk_manager s).
Proof.
  cbv zeta. unfold Strategy.place_order, Strategy._check_kill_switch,
    Strategy._confirm_live_trading.
  destruct (Strategy.kill_switch_file_exists w) eqn:Hkill.
  { cbn. repeat split; intros; try congruence; try contradiction. }
  destruct (Strategy.market_open w) eqn:Hopen; cbn [negb].
  2:{ cbn. repeat split; intros; try congruence; try contradiction. }
  destruct (Z.leb_spec quantity 0) as [Hq | Hq].
  { cbn. repeat split; intros; try congruence; try contradiction. }
  destruct (Py.le price 0 && String.eqb order_type "LIMIT") eqn:Hprice.
  { cbn. repeat split; intros; try congruence; try contradiction. }
  assert (Hlimit : order_type = "LIMIT" -> 0 < price).
  { intros E. subst order_type. rewrite andb_true_r in Hprice.
    apply le_false_iff in Hprice. exact Hprice. }
  destruct (Config.dry_run config) eqn:Hdry.
  { cbn. repeat split; intros; try congruence; try contradiction;
      try assumption. }
  destruct (String.eqb_spec (Strategy.typed_confirmation w) "CONFIRM")
    as [Hc | Hc]; cbn [negb].
  2:{ cbn. repeat split; intros; try congruence; try contradiction;
        try assumption. }
  destruct (Strategy.broker_reply w) as [e | order_id];
    cbn; repeat split; intros; try congruence; try assumption;
    apply Hlimit; assumption.
Qed.


(** ** Positions: closing *)

Section ClosingFacts.
Import Py RiskLimits.


End ClosingFacts.




(** ** Positions: profit target and stop loss *)

(** X18.  The decision of [_manage_existing_positions] for one position,
    freed of the quantity: only a short position with a positive average
    price is ever closed; it is closed for PROFIT_TARGET exactly when the
    quoted price is at most [average_price * (1 - profit_target_percentage)],
    else for STOP_LOSS exactly when the quoted price is at least
    [average_price * (1 + loss_limit_percentage)]; without a quote it is
    left alone. *)
Theorem X18_exit_reason_closed_form
  (more : Settings.more_settings) (position : Positions.Position)
  (quote : Py.result Q) :
  StrategyCycle.exit_reason more position quote
  = if Py.gt (Positions.average_price position) 0
       && (Positions.quantity position <? 0)%Z
    then
      match quote with
      | inr current_price =>
          if Py.le current_price
               (Positions.average_price position
                * (1 - Settings.profit_target_percentage more))
          then Some "PROFIT_TARGET"
          else if Py.ge current_price
                    (Positions.average_price position
                     * (1 + Settings.loss_limit_percentage more))
          then Some "STOP_LOSS"
          else None
      | inl _ => None
      end
    else None.
Proof.
  unfold StrategyCycle.exit_reason.
  destruct (Py.gt (Positions.average_price position) 0) eqn:Havg;
    [| reflexivity].
  destruct (Z.ltb_spec (Positions.quantity position) 0) as [Hq | Hq];
    [| reflexivity].
  cbn [andb]. destruct quote as [e | current_price]; [reflexivity |].
  apply gt_true_iff in Havg.
  assert (Habs : Py.abs (Positions.average_price position)
                 = Positions.average_price position).
  { unfold Py.abs.
    destruct (Py.lt (Positions.average_price position) 0) eqn:E;
      [| reflexivity].
    apply lt_true_iff in E. lra. }
  rewrite Habs.
  set (a := Positions.average_price position) in *.
  set (n := inject_Z (Z.abs (Positions.quantity position))).
  set (pt := Settings.profit_target_percentage more).
  set (ll := Settings.loss_limit_percentage more).
  assert (Hn : 0 < n).
  { subst n. change 0 with (inject_Z 0). rewrite <- Zlt_Qlt. lia. }
  assert (P : Py.ge ((a - current_price) * n) (a * pt * n)
              = Py.le current_price (a * (1 - pt))).
  { destruct (Py.le current_price (a * (1 - pt))) eqn:E.
    - apply le_true_iff in E. apply ge_true_iff. nra.
    - apply le_false_iff in E. apply ge_false_iff. nra. }
  assert (L : Py.le ((a - current_price) * n) (- (a * ll) * n)
              = Py.ge current_price (a * (1 + ll))).
  { destruct (Py.ge current_price (a * (1 + ll))) eqn:E.
    - apply ge_true_iff in E. apply le_true_iff. nra.
    - apply ge_false_iff in E. apply le_false_iff. nra. }
  rewrite P, L. reflexivity.
Qed.

(** ** Strike selection *)

Section StrikeFacts.
Import Py OptionContracts StrategyCycle.

Lemma key_lt_iff (a b : Q * Q) :
  key_lt a b = true
  <-> fst a < fst b \/ (fst a == fst b /\ snd a < snd b).
Proof.
  unfold key_lt. rewrite orb_true_iff, andb_true_iff, !lt_true_iff,
    Qeq_bool_iff. reflexivity.
Qed.

Lemma key_le_iff (a b : Q * Q) :
  key_le a b <-> fst a < fst b \/ (fst a == fst b /\ snd a <= snd b).
Proof.
  unfold key_le. rewrite <- not_true_iff_false, key_lt_iff.
  split.
  - intros H.
    destruct (Qlt_le_dec (fst a) (fst b)) as [L | L]; [left; exact L |].
    right. split.
    + apply Qle_antisym; [| exact L].
      apply Qnot_lt_le. intros C. apply H. left. exact C.
    + apply Qnot_lt_le. intros C. apply H. right. split; [| exact C].
      apply Qle_antisym; [exact L |].
      apply Qnot_lt_le. intros C'. apply H. left. exact C'.
  - intros [L | [E L]] [C | [E' C]]; lra.
Qed.

Lemma key_le_trans (a b c : Q * Q) : key_le a b -> key_le b c -> key_le a c.
Proof.
  rewrite !key_le_iff.
  intros [L1 | [E1 L1]] [L2 | [E2 L2]];
    try (left; lra); right; split; lra.
Qed.

Lemma key_lt_le (a b : Q * Q) : key_lt a b = true -> key_le a b.
Proof.
  rewrite key_lt_iff, key_le_iff. intros [L | [E L]]; [left; lra |].
  right. split; lra.
Qed.

Context {A : Type}.
Variable key : A -> Q * Q.

Lemma insert_by_perm (x : A) (l : list A) :
  Permutation (x :: l) (insert_by key x l).
Proof.
  induction l as [| y l IH]; cbn [insert_by]; [apply Permutation_refl |].
  destruct (key_lt (key y) (key x)); [| apply Permutation_refl].
  eapply perm_trans; [apply perm_swap |].
  apply perm_skip. exact IH.
Qed.

Lemma sort_by_perm (l : list A) : Permutation l (sort_by key l).
Proof.
  induction l as [| x l IH]; cbn [sort_by]; [apply perm_nil |].
  eapply perm_trans; [| apply insert_by_perm].
  apply perm_skip. exact IH.
Qed.

Lemma insert_by_sorted (x : A) (l : list A) :
  StronglySorted (fun a b => key_le (key a) (key b)) l ->
  StronglySorted (fun a b => key_le (key a) (key b)) (insert_by key x l).
Proof.
  intros Hs. induction Hs as [| y l Hs IH Hy]; cbn [insert_by].
  - constructor; constructor.
  - destruct (key_lt (key y) (key x)) eqn:E.
    + constructor; [exact IH |].
      rewrite Forall_forall in Hy |- *.
      intros z Hz.
      apply (Permutation_in _ (Permutation_sym (insert_by_perm x l))) in Hz.
      destruct Hz as [<- | Hz]; [apply key_lt_le; exact E | apply Hy; exact Hz].
    + constructor; [constructor; assumption |].
      constructor; [exact E |].
      rewrite Forall_forall in Hy |- *.
      intros z Hz. apply (key_le_trans _ (key y)); [exact E | apply Hy; exact Hz].
Qed.

Lemma sort_by_sorted (l : list A) :
  StronglySorted (fun a b => key_le (key a) (key b)) (sort_by key l).
Proof.
  induction l as [| x l IH]; cbn [sort_by]; [constructor |].
  apply insert_by_sorted. exact IH.
Qed.

End StrikeFacts.

(** X19.  [find_best_otm_strikes] returns the options of the chain that
    pass its filter, each as often as it is in the chain, in the order of
    its sort key: an option is returned exactly when it has a non-zero
    delta whose absolute value lies in the band of the strategy mode, an
    open interest of at least [min_open_interest], and the type of the
    strategy (PE for cash-secured puts, CE for covered calls); and the
    option returned first, the one the strategy would sell, is nearest to
    the middle of the band among them. *)
Theorem X19_find_best_otm_strikes_selects_and_sorts
  (config : Config.OptionWheelConfig) (more : Settings.more_settings)
  (strategy_type : Enums.StrategyType)
  (chain : list OptionContracts.OptionContract) :
  let result :=
    StrategyCycle.find_best_otm_strikes config more strategy_type chain in
  let delta_low := fst (StrategyCycle.delta_band config) in
  let delta_high := snd (StrategyCycle.delta_band config) in
  let distance (o : OptionContracts.OptionContract) :=
    fst (StrategyCycle.sort_key delta_low delta_high o) in
  Permutation result
    (filter (StrategyCycle.selected delta_low delta_high
               (Settings.min_open_interest more) strategy_type) chain) /\
  (forall o, In o result ->
     In o chain /\
     (exists d, OptionContracts.delta o = Some d /\ ~ d == 0 /\
                delta_low <= Py.abs d <= delta_high) /\
     inject_Z (Settings.min_open_interest more)
     <= OptionContracts.open_interest o /\
     OptionContracts.option_type o
     = match strategy_type with
       | Enums.CASH_SECURED_PUT => "PE"
       | Enums.COVERED_CALL => "CE"
       end) /\
  StronglySorted
    (fun a b =>
       StrategyCycle.key_le (StrategyCycle.sort_key delta_low delta_high a)
         (StrategyCycle.sort_key delta_low delta_high b))
    result /\
  (forall best rest o,
     result = best :: rest -> In o result -> distance best <= distance o).
Proof.
  cbv zeta. unfold StrategyCycle.find_best_otm_strikes.
  destruct (StrategyCycle.delta_band config) as [delta_low delta_high].
  cbn [fst snd].
  set (keep := StrategyCycle.selected delta_low delta_high
                 (Settings.min_open_interest more) strategy_type).
  set (key := StrategyCycle.sort_key delta_low delta_high).
  pose proof (sort_by_perm key (filter keep chain)) as Hperm.
  pose proof (sort_by_sorted key (filter keep chain)) as Hsorted.
  split; [apply Permutation_sym; exact Hperm |].
  split; [| split; [exact Hsorted |]].
  - intros o Hin.
    apply (Permutation_in _ (Permutation_sym Hperm)) in Hin.
    apply filter_In in Hin. destruct Hin as [Hin Hkeep].
    split; [exact Hin |].
    subst keep. unfold StrategyCycle.selected in Hkeep.
    destruct (OptionContracts.delta o) as [d |] eqn:Ed;
      [| discriminate Hkeep].
    cbn [StrategyCycle.delta_truthy StrategyCycle.abs_delta] in Hkeep.
    destruct (Qeq_bool d 0) eqn:Ez; [discriminate Hkeep |].
    cbn [negb orb] in Hkeep.
    destruct (Py.lt (Py.abs d) delta_low) eqn:E1; [discriminate Hkeep |].
    destruct (Py.gt (Py.abs d) delta_high) eqn:E2; [discriminate Hkeep |].
    cbn [orb] in Hkeep.
    destruct (Py.lt (OptionContracts.open_interest o) _) eqn:E3;
      [discriminate Hkeep |].
    order_facts.
    split; [| split; [exact E3 |]].
    + exists d. split; [reflexivity |]. split; [| split; assumption].
      intros C. apply Qeq_bool_iff in C. congruence.
    + destruct strategy_type; apply String.eqb_eq; exact Hkeep.
  - intros best rest o Hres Hin. rewrite Hres in Hsorted, Hin.
    inversion Hsorted as [| ? ? _ Hall]; subst.
    destruct Hin as [<- | Hin]; [apply Qle_refl |].
    rewrite Forall_forall in Hall. specialize (Hall o Hin).
    apply key_le_iff in Hall. destruct Hall as [L | [E _]]; lra.
Qed.

(** ** Approximated deltas *)

Section DeltaFacts.
Import Py OptionContracts StrategyCycle.

(** The five steps of the approximation. *)
Lemma approximate_delta_steps (strike : Q) (option_type : string)
  (underlying_price : Q) (d : Q) :
  _calculate_approximate_delta strike option_type underlying_price = Some d ->
  Py.abs d = 0.95 \/ Py.abs d = 0.7 \/ Py.abs d = 0.5 \/ Py.abs d = 0.3
  \/ Py.abs d = 0.05.
Proof.
  unfold _calculate_approximate_delta.
  destruct (le underlying_price 0 || le strike 0); [discriminate |].
  destruct (truediv underlying_price strike) as [e | moneyness];
    [discriminate |].
  destruct (String.eqb option_type "CE");
    repeat match goal with
    | |- context [if ?c then _ else _] => destruct c
    end;
    intros E; injection E as <-; cbv; tauto.
Qed.

Lemma moneyness_defined (strike underlying_price : Q) :
  0 < strike ->
  truediv underlying_price strike = inr (underlying_price / strike).
Proof.
  intros Hs. unfold truediv.
  destruct (Qeq_bool strike 0) eqn:E; [| reflexivity].
  apply Qeq_bool_iff in E. lra.
Qed.

Lemma moneyness_monotone (strike p1 p2 : Q) :
  0 < strike -> p1 <= p2 -> p1 / strike <= p2 / strike.
Proof.
  intros Hs Hp. unfold Qdiv.
  apply Qmult_le_compat_r; [exact Hp |].
  apply Qlt_le_weak, Qinv_lt_0_compat. exact Hs.
Qed.

End DeltaFacts.

(** X20.  [_calculate_approximate_delta] answers [None] exactly when the
    underlying price or the strike is not positive.  Otherwise the delta of
    a call is one of 0.05, 0.3, 0.5, 0.7, 0.95 and that of any other type
    is the negative of one of them; and for a fixed strike and type the
    delta never falls when the underlying price rises. *)
Theorem X20_approximate_delta_range_and_monotone
  (strike : Q) (option_type : string) (p1 p2 : Q) :
  (StrategyCycle._calculate_approximate_delta strike option_type p1 = None
   <-> p1 <= 0 \/ strike <= 0) /\
  (forall d,
     StrategyCycle._calculate_approximate_delta strike option_type p1
     = Some d ->
     (if String.eqb option_type "CE" then 0 < d else d < 0) /\
     (Py.abs d = 0.95 \/ Py.abs d = 0.7 \/ Py.abs d = 0.5
      \/ Py.abs d = 0.3 \/ Py.abs d = 0.05)) /\
  (forall d1 d2,
     p1 <= p2 ->
     StrategyCycle._calculate_approximate_delta strike option_type p1
     = Some d1 ->
     StrategyCycle._calculate_approximate_delta strike option_type p2
     = Some d2 ->
     d1 <= d2).
Proof.
  split; [| split].
  - unfold StrategyCycle._calculate_approximate_delta.
    destruct (Py.le p1 0) eqn:E1; cbn [orb].
    + order_facts. split; [intros _; left; exact E1 | reflexivity].
    + destruct (Py.le strike 0) eqn:E2.
      * order_facts. split; [intros _; right; exact E2 | reflexivity].
      * order_facts. rewrite (moneyness_defined strike p1 E2).
        split.
        -- destruct (String.eqb option_type "CE");
             repeat match goal with
             | |- context [if ?c then _ else _] => destruct c
             end; discriminate.
        -- intros [C | C]; lra.
  - intros d Hd. split; [| exact (approximate_delta_steps _ _ _ _ Hd)].
    revert Hd. unfold StrategyCycle._calculate_approximate_delta.
    destruct (Py.le p1 0 || Py.le strike 0); [discriminate |].
    destruct (Py.truediv p1 strike) as [e | moneyness]; [discriminate |].
    destruct (String.eqb option_type "CE");
      repeat match goal with
      | |- context [if ?c then _ else _] => destruct c
      end;
      intros E; injection E as <-; reflexivity.
  - intros d1 d2 Hp.
    unfold StrategyCycle._calculate_approximate_delta.
    destruct (Py.le p1 0) eqn:A1; [discriminate |].
    destruct (Py.le p2 0) eqn:A2; [discriminate |].
    cbn [orb].
    destruct (Py.le strike 0) eqn:A3; [discriminate |].
    order_facts.
    rewrite !(moneyness_defined strike _ A3).
    pose proof (moneyness_monotone strike p1 p2 A3 Hp) as Hm.
    destruct (String.eqb option_type "CE").
    + destruct (Py.gt (p1 / strike) 1.1) eqn:B1;
      [| destruct (Py.gt (p1 / strike) 1.05) eqn:B2;
         [| destruct (Py.gt (p1 / strike) 0.95) eqn:B3;
            [| destruct (Py.gt (p1 / strike) 0.9) eqn:B4]]];
      (destruct (Py.gt (p2 / strike) 1.1) eqn:C1;
       [| destruct (Py.gt (p2 / strike) 1.05) eqn:C2;
          [| destruct (Py.gt (p2 / strike) 0.95) eqn:C3;
             [| destruct (Py.gt (p2 / strike) 0.9) eqn:C4]]]);
      intros E1 E2; injection E1 as <-; injection E2 as <-;
      order_facts; lra.
    + destruct (Py.lt (p1 / strike) 0.9) eqn:B1;
      [| destruct (Py.lt (p1 / strike) 0.95) eqn:B2;
         [| destruct (Py.lt (p1 / strike) 1.05) eqn:B3;
            [| destruct (Py.lt (p1 / strike) 1.1) eqn:B4]]];
      (destruct (Py.lt (p2 / strike) 0.9) eqn:C1;
       [| destruct (Py.lt (p2 / strike) 0.95) eqn:C2;
          [| destruct (Py.lt (p2 / strike) 1.05) eqn:C3;
             [| destruct (Py.lt (p2 / strike) 1.1) eqn:C4]]]);
      intros E1 E2; injection E1 as <-; injection E2 as <-;
      order_facts; lra.
Qed.

Section ChainFacts.
Import Py OptionContracts StrategyCycle.

(** Every delta in a chain built from the instruments is an approximated
    one. *)
Lemma chain_deltas_are_approximated (instruments : list (Z * instrument))
  (underlying_symbol : string) (expiry_date : option Datetime.datetime)
  (underlying_quote : result (option Q)) (o : OptionContract) (d : Q) :
  In o (_fetch_options_chain_kite instruments underlying_symbol expiry_date
          underlying_quote) ->
  delta o = Some d ->
  exists strike option_type underlying_price,
    _calculate_approximate_delta strike option_type underlying_price
    = Some d.
Proof.
  unfold _fetch_options_chain_kite.
  destruct (find _ instruments) as [[token inst] |]; [| contradiction].
  destruct (token =? 0)%Z; [contradiction |].
  destruct underlying_quote as [e | [underlying_price |]].
  - intros Hin Hd. apply in_map_iff in Hin.
    destruct Hin as (ti & <- & _). cbn [contract_of delta] in Hd.
    eauto.
  - intros Hin Hd. apply in_map_iff in Hin.
    destruct Hin as (c & <- & _). cbn [set_delta delta] in Hd.
    eauto.
  - intros Hin Hd. apply in_map_iff in Hin.
    destruct Hin as (ti & <- & _). cbn [contract_of delta] in Hd.
    eauto.
Qed.

Lemma filter_none {A} (keep : A -> bool) (l : list A) :
  (forall x, In x l -> keep x = false) -> filter keep l = [].
Proof.
  induction l as [| a l IH]; intros H; cbn [filter]; [reflexivity |].
  rewrite (H a (or_introl eq_refl)). apply IH.
  intros x Hx. apply H. right. exact Hx.
Qed.

End ChainFacts.

(** X21.  The chain that [_fetch_options_chain_kite] builds carries
    approximated deltas only, of absolute value 0.05, 0.3, 0.5, 0.7 or
    0.95.  When none of these five values lies in the delta band of the
    strategy mode, as for the band [0.10, 0.15] of the conservative mode and
    for the band [0.15, 0.25] that the balanced mode has by default,
    [find_best_otm_strikes] finds no strike in such a chain, whatever the
    instruments, the quote and the open interest. *)
Theorem X21_no_strike_in_approximated_chain
  (config : Config.OptionWheelConfig) (more : Settings.more_settings)
  (strategy_type : Enums.StrategyType)
  (instruments : list (Z * StrategyCycle.instrument))
  (underlying_symbol : string) (expiry_date : option Datetime.datetime)
  (underlying_quote : Py.result (option Q)) :
  (forall step, In step [0.05; 0.3; 0.5; 0.7; 0.95] ->
     step < fst (StrategyCycle.delta_band config)
     \/ snd (StrategyCycle.delta_band config) < step) ->
  StrategyCycle.find_best_otm_strikes config more strategy_type
    (StrategyCycle._fetch_options_chain_kite instruments underlying_symbol
       expiry_date underlying_quote)
  = [].
Proof.
  intros Hband. unfold StrategyCycle.find_best_otm_strikes.
  destruct (StrategyCycle.delta_band config) as [delta_low delta_high].
  cbn [fst snd] in Hband.
  rewrite filter_none; [reflexivity |].
  intros o Hin. unfold StrategyCycle.selected.
  destruct (OptionContracts.delta o) as [d |] eqn:Ed; [| reflexivity].
  destruct (chain_deltas_are_approximated _ _ _ _ o d Hin Ed)
    as (strike & option_type & price & Happrox).
  apply approximate_delta_steps in Happrox.
  cbn [StrategyCycle.delta_truthy StrategyCycle.abs_delta].
  destruct (Qeq_bool d 0); [reflexivity |]. cbn [negb orb].
  destruct (Py.lt (Py.abs d) delta_low) eqn:E1; [reflexivity |].
  destruct (Py.gt (Py.abs d) delta_high) eqn:E2; [reflexivity |].
  exfalso. order_facts.
  assert (Hstep : In (Py.abs d) [0.05; 0.3; 0.5; 0.7; 0.95]).
  { cbn [In]. intuition congruence. }
  destruct (Hband _ Hstep) as [L | L]; lra.
Qed.

(** The conservative mode and the default settings meet the condition of
    X21. *)
Lemma X21_no_strike_witness :
  StrategyCycle.find_best_otm_strikes
    (Config.with_strategy_mode Config.dry_run_defaults "conservative")
    Settings.defaults Enums.CASH_SECURED_PUT
    (StrategyCycle._fetch_options_chain_kite Examples2.tcs_instruments "TCS"
       None (inr (Some 3500)))
  = [] /\
  StrategyCycle.find_best_otm_strikes Config.dry_run_defaults
    Settings.defaults Enums.CASH_SECURED_PUT
    (StrategyCycle._fetch_options_chain_kite Examples2.tcs_instruments "TCS"
       None (inr (Some 3500)))
  = [].
Proof.
  split.
  - apply (X21_no_strike_in_approximated_chain
             (Config.with_strategy_mode Config.dry_run_defaults
                "conservative")).
    cbn. intros step H.
    repeat (destruct H as [<- | H]; [first [left; reflexivity | right; reflexivity] |]).
    contradiction.
  - apply (X21_no_strike_in_approximated_chain Config.dry_run_defaults).
    cbn. intros step H.
    repeat (destruct H as [<- | H]; [first [left; reflexivity | right; reflexivity] |]).
    contradiction.
Defined.

(** ** Portfolio metrics *)

(** X22.  [get_portfolio_metrics] reads the attribute [pnl] of each trade,
    which [Trade] does not have.  With no trade stored it returns the seven
    metrics at zero; with one trade or more it returns the empty
    dictionary, whatever the trades and the day. *)
Theorem X22_portfolio_metrics_of_stored_trades
  (today : N * N * N) (t : Models.Trade) (rest : list Models.Trade) :
  StrategyCycle.get_portfolio_metrics today (t :: rest) = [] /\
  map fst (StrategyCycle.get_portfolio_metrics today [])
  = ["daily_pnl"; "total_pnl"; "win_rate"; "profit_factor"; "total_trades";
     "winning_trades"; "losing_trades"].
Proof.
  split; [| reflexivity].
  unfold StrategyCycle.get_portfolio_metrics,
    StrategyCycle.portfolio_metrics_body.
  destruct (StrategyCycle.sum_pnl _ (t :: rest) 0) as [e | daily_pnl];
    reflexivity.
Qed.

(** ** Fetching the instruments *)

Section FetchFacts.
Import Py SetupUtils StrategyCycle.

(** One call of the breaker-wrapped body while the breaker is closed. *)
Lemma wrapper_while_closed {A} (c : cells) (now : Q)
  (func_result : result A) :
  state c = CLOSED ->
  wrapper 3 120 c now func_result
  = (c, {| invoked := true;
           outcome :=
             match func_result with
             | inr v => inr v
             | inl _ =>
                 inl (UnboundLocalError
                        ("cannot access local variable 'failures' where it "
                         ++ "is not associated with a value"))
             end |}).
Proof.
  intros Hc. unfold wrapper. rewrite Hc.
  destruct func_result as [e | v]; cbn [ret]; rewrite ?Hc; reflexivity.
Qed.

End FetchFacts.

(** X23.  [_fetch_instruments] behind its two decorators, with the breaker
    closed.  When the cache is empty and the broker fails each time, the
    broker is called three times, with pauses of 1 and 2 seconds, the
    breaker stays closed, and the exception that comes out is the
    [UnboundLocalError] of the breaker, not the broker's.  When the cache
    holds instruments, a failing broker is called once, the cache is kept
    and the call returns normally.  When the broker answers, the cache is
    the answer indexed by instrument token, after one call. *)
Theorem X23_fetch_instruments_decorated
  (replies : nat -> Py.result (list StrategyCycle.instrument))
  (clock : nat -> Q) (s : StrategyCycle.fetch_state) :
  SetupUtils.state (StrategyCycle.breaker s) = SetupUtils.CLOSED ->
  let r := StrategyCycle._fetch_instruments replies clock s in
  ((forall k, exists e, replies k = inl e) ->
   StrategyCycle.instruments s = [] ->
   Retry.calls r = 3%nat /\
   Retry.slept r = [Retry.pause 1 0; Retry.pause 1 1] /\
   Retry.total (Retry.slept r) == 3 /\
   Retry.outcome r
   = inl (Py.UnboundLocalError
            ("cannot access local variable 'failures' where it "
             ++ "is not associated with a value")) /\
   Retry.final r
   = {| StrategyCycle.breaker := StrategyCycle.breaker s;
        StrategyCycle.instruments := [];
        StrategyCycle.api_calls := 3 + StrategyCycle.api_calls s |}) /\
  ((exists e, replies 0%nat = inl e) ->
   StrategyCycle.instruments s <> [] ->
   Retry.calls r = 1%nat /\ Retry.slept r = [] /\
   Retry.outcome r = inr (Some tt) /\
   StrategyCycle.instruments (Retry.final r) = StrategyCycle.instruments s) /\
  (forall all_instruments,
     replies 0%nat = inr all_instruments ->
     Retry.calls r = 1%nat /\ Retry.slept r = [] /\
     Retry.outcome r = inr (Some tt) /\
     StrategyCycle.instruments (Retry.final r)
     = StrategyCycle.by_token all_instruments).
Proof.
  intros Hclosed. cbv zeta.
  unfold StrategyCycle._fetch_instruments, Retry.with_retry.
  change (Z.to_nat (2 + 1)) with 3%nat.
  split; [| split].
  - intros Hfail Hempty.
    destruct (Hfail 0%nat) as [e0 E0].
    destruct (Hfail 1%nat) as [e1 E1].
    destruct (Hfail 2%nat) as [e2 E2].
    cbn [Retry.loop]. rewrite E0, Hempty.
    cbn [StrategyCycle.fetch_body Py.raise].
    rewrite (wrapper_while_closed _ _ _ Hclosed).
    cbn [SetupUtils.invoked SetupUtils.outcome StrategyCycle.instruments
         StrategyCycle.breaker StrategyCycle.api_calls Z.of_nat Z.eqb].
    change (Py.lt (Retry.pause 1 0) 0) with false. cbn iota.
    rewrite E1. cbn [StrategyCycle.fetch_body Py.raise].
    rewrite (wrapper_while_closed _ _ _ Hclosed).
    cbn [SetupUtils.invoked SetupUtils.outcome StrategyCycle.instruments
         StrategyCycle.breaker StrategyCycle.api_calls].
    change (Z.of_nat 1 =? 2)%Z with false.
    change (Py.lt (Retry.pause 1 1) 0) with false. cbn iota.
    rewrite E2. cbn [StrategyCycle.fetch_body Py.raise].
    rewrite (wrapper_while_closed _ _ _ Hclosed).
    cbn [SetupUtils.invoked SetupUtils.outcome StrategyCycle.instruments
         StrategyCycle.breaker StrategyCycle.api_calls].
    change (Z.of_nat 2 =? 2)%Z with true. cbn iota.
    cbn [Retry.calls Retry.slept Retry.outcome Retry.final app].
    repeat split.
  - intros [e E0] Hcache. cbn [Retry.loop]. rewrite E0.
    destruct (StrategyCycle.instruments s) as [| i rest] eqn:Ei;
      [contradiction |].
    cbn [StrategyCycle.fetch_body Py.ret].
    rewrite (wrapper_while_closed _ _ _ Hclosed).
    cbn. repeat split.
  - intros all_instruments E0. cbn [Retry.loop]. rewrite E0.
    cbn [StrategyCycle.fetch_body Py.ret].
    rewrite (wrapper_while_closed _ _ _ Hclosed).
    cbn. repeat split.
Qed.

(** ** Critical alerts *)

(** X24.  [send_critical_alert] walks the systems in the order webhook,
    telegram and stops sending at the first failure.  With notifications
    enabled, the webhook request is made when a webhook URL is configured;
    the Telegram request is made only when the webhook request succeeded
    (status 200, 201 or 202) and the Telegram credentials are configured;
    the answer is [True] exactly when both requests succeeded.  So without
    a webhook URL no critical alert reaches Telegram.  With notifications
    disabled nothing is sent and the answer is [True]. *)
Theorem X24_critical_alert_stops_at_first_failure
  (m : Notifications.manager) (n : Notifications.network)
  (log : Notifications.requests) (alert_type message : string) :
  let result :=
    Notifications.send_critical_alert m n log alert_type message in
  let text :=
    "CRITICAL ALERT: "
    ++ ("ðŸš¨ CRITICAL ALERT ðŸš¨" ++ String "010" "Type: " ++ alert_type
        ++ String "010" "Message: " ++ message) in
  let webhook_ready := negb (String.eqb (Notifications.webhook_url m) "") in
  let webhook_ok :=
    webhook_ready
    && match Notifications.webhook_reply n with
       | inr status_code =>
           (status_code =? 200)%Z || (status_code =? 201)%Z
           || (status_code =? 202)%Z
       | inl _ => false
       end in
  let telegram_ready :=
    negb (String.eqb (Notifications.telegram_token m) "")
    && negb (String.eqb (Notifications.telegram_chat_id m) "") in
  let telegram_ok :=
    telegram_ready
    && match Notifications.telegram_reply n with
       | inr (status_code, ok) => (status_code =? 200)%Z && ok
       | inl _ => false
       end in
  (Notifications.enabled m = false -> result = (log, true)) /\
  (Notifications.enabled m = true ->
   fst result
   = (log ++ (if webhook_ready then [("webhook", text)] else [])
          ++ (if webhook_ok && telegram_ready then [("telegram", text)]
              else []))%list /\
   snd result = webhook_ok && telegram_ok).
Proof.
  cbv zeta. unfold Notifications.send_critical_alert,
    Notifications.notification_systems.
  cbn [fold_left]. unfold Notifications.send_notification.
  split.
  - intros ->. reflexivity.
  - intros ->. cbn [negb].
    cbn [Py.str_in existsb String.eqb Ascii.eqb Bool.eqb orb negb
         Notifications.notification_systems].
    unfold Notifications.webhook_send, Notifications.telegram_send.
    destruct (String.eqb (Notifications.webhook_url m) "");
      [cbn [negb andb orb app fst snd]; rewrite ?app_nil_r;
       split; reflexivity |].
    destruct (Notifications.webhook_reply n) as [e | status_code];
      [cbn [negb andb orb app fst snd]; rewrite ?app_nil_r;
       split; reflexivity |].
    destruct ((status_code =? 200)%Z || (status_code =? 201)%Z
              || (status_code =? 202)%Z);
      [| cbn [negb andb orb app fst snd]; rewrite ?app_nil_r;
         split; reflexivity].
    cbn [Py.str_in existsb String.eqb Ascii.eqb Bool.eqb orb negb].
    destruct (String.eqb (Notifications.telegram_token m) "");
      [cbn [negb andb orb app fst snd]; rewrite ?app_nil_r;
       split; reflexivity |].
    destruct (String.eqb (Notifications.telegram_chat_id m) "");
      [cbn [negb andb orb app fst snd]; rewrite ?app_nil_r;
       split; reflexivity |].
    destruct (Notifications.telegram_reply n) as [e | [code ok]];
      [| destruct (code =? 200)%Z];
      cbn [negb andb orb app fst snd]; rewrite <- ?app_assoc;
      split; reflexivity.
Qed.

(** ** Who may ask for the kill switch *)

Section AuthFacts.
Import Py KillAuth.

Lemma str_in_iff (x : string) (xs : list string) :
  str_in x xs = true <-> In x xs.
Proof.
  unfold str_in. rewrite existsb_exists. split.
  - intros (y & Hy & E). apply String.eqb_eq in E. subst y. exact Hy.
  - intros H. exists x. split; [exact H | apply String.eqb_refl].
Qed.

Lemma split_comma_nonempty (s : string) : split_comma s <> [].
Proof.
  destruct s as [| c s]; cbn [split_comma]; [discriminate |].
  destruct (Ascii.eqb c ","); [discriminate |].
  destruct (split_comma s); discriminate.
Qed.

(** Joining the pieces with commas gives the string back. *)
Lemma join_split_comma (s : string) : String.concat "," (split_comma s) = s.
Proof.
  induction s as [| c s IH]; [reflexivity |].
  cbn [split_comma].
  destruct (Ascii.eqb_spec c ","%char) as [-> | Hc].
  - pose proof (split_comma_nonempty s) as Hne.
    destruct (split_comma s) as [| h t]; [contradiction |].
    change (String.concat "," (EmptyString :: h :: t))
      with ("," ++ String.concat "," (h :: t)).
    rewrite IH. reflexivity.
  - pose proof (split_comma_nonempty s) as Hne.
    destruct (split_comma s) as [| h t]; [contradiction |].
    destruct t as [| h' t'].
    + change (String c h = String c s). f_equal. exact IH.
    + change (String c (h ++ "," ++ String.concat "," (h' :: t'))
              = String c s).
      f_equal. exact IH.
Qed.

End AuthFacts.

(** X25.  [validate_kill_switch_request] accepts a request exactly when the
    user id is a non-empty string that is one of the comma-separated
    entries of [telegram_chat_id] and the lower-cased message contains one
    of the six stop keywords.  A request without a user id, and any request
    while [telegram_chat_id] is empty (its default), is denied as
    unauthorized, whatever the message says. *)
Theorem X25_kill_switch_request_validation
  (lower : string -> string) (telegram_chat_id message_text : string)
  (user_id : option string) :
  let answer :=
    KillAuth.validate_kill_switch_request lower telegram_chat_id
      message_text user_id in
  (fst answer = true
   <-> (exists uid,
          user_id = Some uid /\ uid <> "" /\
          In uid (KillAuth.split_comma telegram_chat_id) /\
          telegram_chat_id <> "") /\
       (exists keyword,
          In keyword KillAuth.stop_keywords /\
          Py.contains keyword (lower message_text) = true)) /\
  (user_id = None \/ telegram_chat_id = "" ->
   answer = (false, "Unauthorized user - kill switch request denied")).
Proof.
  cbv zeta. unfold KillAuth.validate_kill_switch_request,
    KillAuth.should_respond_to_user.
  split.
  - destruct user_id as [[| c uid] |]; cbn [negb fst].
    + split; [discriminate |].
      intros [(u & E & Hne & _) _]. injection E as <-. contradiction.
    + destruct telegram_chat_id as [| c' chat] eqn:Echat.
      * cbn [Py.str_in existsb negb fst]. split; [discriminate |].
        intros [(u & _ & _ & _ & Hne) _]. contradiction.
      * rewrite <- Echat.
        destruct (Py.str_in (String c uid) (KillAuth.split_comma telegram_chat_id))
          eqn:Ein; cbn [negb fst].
        -- apply str_in_iff in Ein.
           destruct (existsb _ KillAuth.stop_keywords) eqn:Ek; cbn [negb fst].
           ++ split; [intros _ | reflexivity].
              split.
              ** exists (String c uid).
                 repeat split; [discriminate | exact Ein |].
                 rewrite Echat. discriminate.
              ** apply existsb_exists in Ek. exact Ek.
           ++ split; [discriminate |].
              intros [_ Hk]. apply existsb_exists in Hk. congruence.
        -- split; [discriminate |].
           intros [(u & E & _ & Hin & _) _]. injection E as <-.
           apply str_in_iff in Hin. congruence.
    + split; [discriminate |].
      intros [(u & E & _) _]. discriminate E.
  - intros [-> | ->]; [reflexivity |].
    destruct user_id as [[| c uid] |]; reflexivity.
Qed.

(** ** Slippage prediction: time of day, spread, events, execution price *)

(** X26.  [_get_time_of_day_factor] has three values.  It is 1.0 before
    09:15 and from 09:45 to 14:45, 1.5 from 09:15 to 09:44, and 1.4 after
    14:45; the branch for the hour 15 that would give 1.3 is never
    reached, every time in that hour being later than 14:45. *)
Theorem X26_time_of_day_factor_values
  (now : Datetime.datetime) (timestamp : option Datetime.datetime) :
  let t := match timestamp with Some t => t | None => now end in
  let minutes :=
    (Z.of_N (Datetime.hour t) * 60 + Z.of_N (Datetime.minute t))%Z in
  SlippagePredictor._get_time_of_day_factor now timestamp
  = (if (minutes <? 555)%Z then 1.0
     else if (minutes <? 585)%Z then 1.5
     else if (885 <? minutes)%Z then 1.4
     else 1.0) /\
  ~ SlippagePredictor._get_time_of_day_factor now timestamp == 1.3 /\
  (Datetime.hour t = 15%N ->
   SlippagePredictor._get_time_of_day_factor now timestamp = 1.4).
Proof.
  cbv zeta. unfold SlippagePredictor._get_time_of_day_factor.
  set (t := match timestamp with Some t => t | None => now end).
  set (h := Z.of_N (Datetime.hour t)).
  set (mi := Z.of_N (Datetime.minute t)).
  assert (Hh : (0 <= h)%Z) by (subst h; lia).
  assert (Hm : (0 <= mi)%Z) by (subst mi; lia).
  change (9 * 60 + 15)%Z with 555%Z. change (6 * 60 - 30)%Z with 330%Z.
  destruct (Z.ltb_spec (h * 60 + mi - 555) 0) as [A | A];
    destruct (Z.ltb_spec (h * 60 + mi) 555) as [A' | A']; try lia.
  { repeat split; [discriminate | intros E]. 
    assert (h = 15%Z) by (subst h; rewrite E; reflexivity). lia. }
  destruct (Z.ltb_spec (h * 60 + mi - 555) 30) as [B | B];
    destruct (Z.ltb_spec (h * 60 + mi) 585) as [B' | B']; try lia.
  { repeat split; [discriminate | intros E].
    assert (h = 15%Z) by (subst h; rewrite E; reflexivity). lia. }
  destruct (Z.ltb_spec 330 (h * 60 + mi - 555)) as [C | C];
    destruct (Z.ltb_spec 885 (h * 60 + mi)) as [C' | C']; try lia.
  { repeat split. discriminate. }
  destruct (Z.eqb_spec h 15) as [D | D]; [lia |].
  cbn [andb]. repeat split; [discriminate | intros E].
  assert (h = 15%Z) by (subst h; rewrite E; reflexivity). lia.
Qed.

Section SlippageFacts.
Import Py SlippagePredictor.

Lemma min_monotone (x y c : Q) : x <= y -> min x c <= min y c.
Proof.
  intros H.
  destruct (min_cases x c) as [[? ->] | [? ->]];
    destruct (min_cases y c) as [[? ->] | [? ->]]; lra.
Qed.

Lemma max_monotone (c x y : Q) : x <= y -> max c x <= max c y.
Proof.
  intros H.
  destruct (max_cases c x) as [[? ->] | [? ->]];
    destruct (max_cases c y) as [[? ->] | [? ->]]; lra.
Qed.

Lemma clamp_monotone (x y : Q) :
  x <= y -> max 1.0 (min x 100.0) <= max 1.0 (min y 100.0).
Proof. intros H. apply max_monotone, min_monotone, H. Qed.

Lemma clamp_below (x y : Q) :
  x <= 0 -> max 1.0 (min x 100.0) <= max 1.0 (min y 100.0).
Proof.
  intros H.
  destruct (min_cases x 100.0) as [[? ->] | [? ->]]; [| lra].
  destruct (max_cases 1.0 x) as [[? ->] | [? ->]]; [| lra].
  apply max_min_bounds.
Qed.

Lemma liquidity_factor_positive (oi : Q) : 0 < max (1.0 - oi / 100000) 0.2.
Proof.
  destruct (max_cases (1.0 - oi / 100000) 0.2) as [[? ->] | [? ->]]; lra.
Qed.

Lemma time_of_day_factor_positive (now : Datetime.datetime)
  (timestamp : option Datetime.datetime) :
  0 < _get_time_of_day_factor now timestamp.
Proof.
  unfold _get_time_of_day_factor.
  repeat match goal with
  | |- context [if ?c then _ else _] => destruct c
  end; reflexivity.
Qed.

End SlippageFacts.

(** X27.  The rule-based prediction never falls when the bid-ask spread of
    the order widens, and flagging the order as an event-day order never
    lowers it; the order is otherwise the same, and the prediction fails
    for both orders or for neither. *)
Theorem X27_prediction_monotone_in_spread_and_event
  (now : Datetime.datetime) (order_dict : SlippagePredictor.order)
  (spread1 spread2 flag : Q) :
  spread1 <= spread2 ->
  let narrow :=
    SlippagePredictor.predict_body now
      (OrderDict.with_bid_ask_spread order_dict
         (SlippagePredictor.Num spread1)) in
  let wide :=
    SlippagePredictor.predict_body now
      (OrderDict.with_bid_ask_spread order_dict
         (SlippagePredictor.Num spread2)) in
  let calm :=
    SlippagePredictor.predict_body now
      (OrderDict.with_event_dummy
         (OrderDict.with_bid_ask_spread order_dict
            (SlippagePredictor.Num spread1))
         (SlippagePredictor.Num 0)) in
  let eventful :=
    SlippagePredictor.predict_body now
      (OrderDict.with_event_dummy
         (OrderDict.with_bid_ask_spread order_dict
            (SlippagePredictor.Num spread1))
         (SlippagePredictor.Num flag)) in
  match narrow, wide, calm, eventful with
  | inr q1, inr q2, inr q0, inr qe => q1 <= q2 /\ q0 <= qe
  | inl _, inl _, inl _, inl _ => True
  | _, _, _, _ => False
  end.
Proof.
  intros Hs. cbv zeta.
  unfold SlippagePredictor.predict_body,
    SlippagePredictor._extract_features, Py.bind.
  cbn [OrderDict.with_bid_ask_spread OrderDict.with_event_dummy
       SlippagePredictor.quantity SlippagePredictor.price
       SlippagePredictor.bid_ask_spread SlippagePredictor.open_interest
       SlippagePredictor.market_volatility SlippagePredictor.event_dummy
       SlippagePredictor.timestamp].
  destruct (SlippagePredictor.number_of
              (SlippagePredictor.get (SlippagePredictor.quantity order_dict) 50))
    as [e | qty]; [exact I |].
  destruct (SlippagePredictor.number_of
              (SlippagePredictor.get (SlippagePredictor.price order_dict) 100))
    as [e | prc]; [exact I |].
  unfold Py.ret, SlippagePredictor._calculate_predicted_slippage, Py.bind.
  cbn [SlippagePredictor.f_bid_ask_spread SlippagePredictor.f_open_interest
       SlippagePredictor.f_market_volatility SlippagePredictor.f_event_dummy
       SlippagePredictor.f_order_size SlippagePredictor.f_time_of_day_factor
       SlippagePredictor.get SlippagePredictor.number_of Py.ret].
  destruct (SlippagePredictor.number_of
              (SlippagePredictor.get
                 (SlippagePredictor.open_interest order_dict) 10000))
    as [e | oi]; [exact I |].
  destruct (SlippagePredictor.number_of
              (SlippagePredictor.get
                 (SlippagePredictor.market_volatility order_dict) 0.20))
    as [e | vol]; [exact I |].
  cbn [SlippagePredictor.truth].
  change (Qeq_bool 0 0) with true. cbn [negb].
  pose proof (liquidity_factor_positive oi) as Hl.
  pose proof (time_of_day_factor_positive now
                (SlippagePredictor.timestamp order_dict)) as Ht.
  set (l := Py.max (1.0 - oi / 100000) 0.2) in *.
  set (tf := SlippagePredictor._get_time_of_day_factor now
               (SlippagePredictor.timestamp order_dict)) in *.
  set (sz := Py.min (qty * prc / 100000) 2.0).
  assert (Hlt : 0 < l * tf) by nra.
  split.
  - destruct (SlippagePredictor.truth
                (SlippagePredictor.get
                   (SlippagePredictor.event_dummy order_dict) 0));
      apply clamp_monotone; nra.
  - destruct (Qeq_bool flag 0); cbn [negb]; [apply Qle_refl |].
    destruct (Qlt_le_dec ((5.0 + spread1 * 50 + sz + vol * 10) * l * tf) 0)
      as [N | N].
    + apply clamp_below. lra.
    + apply clamp_monotone. lra.
Qed.

(** X28.  The execution price moves against the order by the predicted
    slippage and by no more than one percent: for a positive mid price and
    a slippage that the rule-based prediction returned, a SELL is priced
    below the mid price and at least at 99 percent of it, and any other
    direction above the mid price and at most at 101 percent of it. *)
Theorem X28_execution_price_is_adverse_and_bounded
  (upper : string -> string) (now : Datetime.datetime)
  (order_dict : SlippagePredictor.order) (mid_price slip : Q)
  (direction : string) :
  0 < mid_price ->
  SlippagePredictor.predict_body now order_dict = inr slip ->
  let price :=
    Execution.get_execution_price upper mid_price slip direction in
  if String.eqb (upper direction) "SELL"
  then mid_price * 0.99 <= price /\ price < mid_price
  else mid_price < price /\ price <= mid_price * 1.01.
Proof.
  intros Hmid Hslip. cbv zeta.
  apply predict_body_bounds in Hslip.
  unfold Execution.get_execution_price.
  assert (Hdiv : slip / 10000.0 == slip * (1 # 10000)) by (field).
  destruct (String.eqb (upper direction) "SELL"); rewrite Hdiv; split; nra.
Qed.

(** ** When the kill switch is activated *)

(** X29.  [judge_message] asks for the kill switch in two cases only, and
    only while the feature is enabled: a high-confidence pattern matches
    the message, or none does and a judgment (that of the language model,
    or the heuristic one when the model's answer cannot be read) decides
    KILL or PAUSE with a confidence that is not below the configured
    threshold, the threshold being a float.  With a threshold that is a
    string, only the patterns can activate it. *)
Theorem X29_kill_switch_activation
  (re_search : string -> string -> bool) (lower_strip : string -> string)
  (ask_llm : string -> SemanticKill.llm_answer) (repr_float : Q -> string)
  (config : Config.OptionWheelConfig) (message_text : string) :
  let obvious :=
    SemanticKill._check_obvious_kill_intent re_search lower_strip
      message_text in
  let judged decision confidence explanation :=
    ask_llm message_text
    = SemanticKill.Judged decision confidence explanation
    \/ (ask_llm message_text = SemanticKill.Malformed /\
        SemanticKill._heuristic_judgment lower_strip message_text
        = (decision, confidence, explanation)) in
  fst (fst (SemanticKill.judge_message re_search lower_strip ask_llm
              repr_float config message_text)) = true
  <-> AIBase.is_enabled config "semantic_kill" = true /\
      (obvious = (true, 0.95)
       \/ (obvious <> (true, 0.95) /\
           exists threshold decision confidence explanation,
             Config.semantic_kill_confidence_threshold config
             = Py.PyFloat threshold /\
             judged decision confidence explanation /\
             (decision = "KILL" \/ decision = "PAUSE") /\
             threshold <= confidence)).
Proof.
  cbv zeta. unfold SemanticKill.judge_message.
  destruct (AIBase.is_enabled config "semantic_kill"); cbn [negb].
  2:{ cbn [fst]. split; [discriminate | intros [C _]; discriminate C]. }
  unfold SemanticKill.judge_message_body,
    SemanticKill._check_obvious_kill_intent.
  destruct (existsb _ _) eqn:Ehigh.
  { cbn. split; [intros _ | reflexivity].
    split; [reflexivity | left; reflexivity]. }
  assert (Hnot : forall P : Prop,
            (if existsb (fun pattern => re_search pattern
                           (lower_strip message_text))
                  ["\b(pause|suspend|disable)\b";
                   "\b(problem|issue|broken|not\s+working)\b";
                   "\b(loss(es)?|drawdown|crash|disaster)\b";
                   "\b(help|assistance|required)\s+(stop|halt|pause)\b"]
             then (true, 0.75) else (false, 0.1)) = (true, 0.95) -> P).
  { intros P.
    match goal with
    | |- (if ?b then _ else _) = _ -> _ => destruct b
    end; intros C; vm_compute in C; discriminate C. }
  assert (Hlow :
    (let '(has, c) :=
       if existsb (fun pattern => re_search pattern
                     (lower_strip message_text))
            ["\b(pause|suspend|disable)\b";
             "\b(problem|issue|broken|not\s+working)\b";
             "\b(loss(es)?|drawdown|crash|disaster)\b";
             "\b(help|assistance|required)\s+(stop|halt|pause)\b"]
       then (true, 0.75) else (false, 0.1) in
     has && Py.ge c 0.95) = false).
  { match goal with
    | |- context [if ?b then (true, 0.75) else _] => destruct b
    end; reflexivity. }
  destruct (if existsb _ _ then (true, 0.75) else (false, 0.1))
    as [has c] eqn:Emed.
  rewrite Hlow. clear Hlow.
  assert (Hne : (has, c) <> (true, 0.95)).
  { intros C. exact (Hnot False C). }
  split.
  - intros Hact. split; [reflexivity |]. right. split; [exact Hne |].
    destruct (ask_llm message_text) as [d q x | | e] eqn:Ellm;
      cbn [Py.bind Py.ret Py.raise] in Hact.
    + destruct (Config.semantic_kill_confidence_threshold config)
        as [threshold | str] eqn:Eth; cbn [Py.float_lt Py.bind Py.ret Py.raise] in Hact;
        [| discriminate Hact].
      destruct (Qle_bool threshold q) eqn:Ele; cbn [negb fst] in Hact;
        [| discriminate Hact].
      exists threshold, d, q, x.
      split; [reflexivity |]. split; [left; reflexivity |].
      split; [| apply Qle_bool_iff; exact Ele].
      cbn [Py.str_in existsb] in Hact.
      destruct (String.eqb_spec d "KILL") as [-> | _]; [left; reflexivity |].
      destruct (String.eqb_spec d "PAUSE") as [-> | _];
        [right; reflexivity | discriminate Hact].
    + destruct (SemanticKill._heuristic_judgment lower_strip message_text)
        as [[d q] x] eqn:Eh.
      destruct (Config.semantic_kill_confidence_threshold config)
        as [threshold | str] eqn:Eth; cbn [Py.float_lt Py.bind Py.ret Py.raise] in Hact;
        [| discriminate Hact].
      destruct (Qle_bool threshold q) eqn:Ele; cbn [negb fst] in Hact;
        [| discriminate Hact].
      exists threshold, d, q, x.
      split; [reflexivity |]. split; [right; split; reflexivity |].
      split; [| apply Qle_bool_iff; exact Ele].
      cbn [Py.str_in existsb] in Hact.
      destruct (String.eqb_spec d "KILL") as [-> | _]; [left; reflexivity |].
      destruct (String.eqb_spec d "PAUSE") as [-> | _];
        [right; reflexivity | discriminate Hact].
    + discriminate Hact.
  - intros (_ & [C | (_ & threshold & d & q & x & Eth & Hj & Hd & Hle)]);
      [contradiction |].
    apply Qle_bool_iff in Hle.
    destruct Hj as [Ellm | (Ellm & Eh)]; rewrite Ellm, ?Eh, Eth;
      cbn [Py.bind Py.ret Py.float_lt]; rewrite Hle; cbn [negb fst];
      destruct Hd as [-> | ->]; reflexivity.
Qed.

(** ** Rows that the trades table does not take *)

Section InsertFacts.
Import Py Database.

Lemma dict_get_none_keys (data : row) (c : string) :
  dict_get data c = None <-> ~ In c (keys data).
Proof.
  unfold keys. induction data as [| [k v] data IH]; cbn [dict_get map In fst].
  - split; [intros _ [] | reflexivity].
  - destruct (String.eqb_spec k c) as [-> | Hne].
    + split; [discriminate | intros H; exfalso; apply H; left; reflexivity].
    + rewrite IH. split.
      * intros H [E | E]; [congruence | exact (H E)].
      * intros H E. apply H. right. exact E.
Qed.

(** Looking up a column in the bound columns. *)
Lemma dict_get_combine (f : string -> sql_value) (cols : list string)
  (c : string) :
  dict_get (combine cols (map f cols)) c = None
  \/ dict_get (combine cols (map f cols)) c = Some (f c).
Proof.
  induction cols as [| k cols IH]; cbn [map combine dict_get];
    [left; reflexivity |].
  destruct (String.eqb_spec k c) as [-> | _]; [right; reflexivity | exact IH].
Qed.

Lemma dict_get_combine_absent (f : string -> sql_value) (cols : list string)
  (c : string) :
  ~ In c cols -> dict_get (combine cols (map f cols)) c = None.
Proof.
  induction cols as [| k cols IH]; cbn [map combine dict_get In];
    [reflexivity |].
  intros H. destruct (String.eqb_spec k c) as [-> | _].
  - exfalso. apply H. left. reflexivity.
  - apply IH. intros E. apply H. right. exact E.
Qed.

(** Looking up a column in the row that is written. *)
Lemma dict_get_new_row (bound schema : row) (c : string) :
  dict_get
    (map (fun cd : string * sql_value =>
            match dict_get bound (fst cd) with
            | Some v => (fst cd, v)
            | None => cd
            end) schema) c
  = match dict_get schema c with
    | Some default =>
        Some match dict_get bound c with
             | Some v => v
             | None => default
             end
    | None => None
    end.
Proof.
  induction schema as [| [k default] schema IH]; cbn [map dict_get fst];
    [reflexivity |].
  destruct (dict_get bound k) as [v |] eqn:Eb; cbn [dict_get];
    destruct (String.eqb_spec k c) as [<- | _];
    rewrite ?Eb; try reflexivity; exact IH.
Qed.

Lemma not_null_default (c : string) :
  In c trades_not_null -> dict_get trades_schema c = Some SqlNull.
Proof.
  unfold trades_not_null. cbn [In]. intros H.
  repeat (destruct H as [<- | H]; [reflexivity |]). contradiction.
Qed.

Lemma dict_get_app_known (data extra : row) (c : string) :
  In c (keys data) -> dict_get (data ++ extra)%list c = dict_get data c.
Proof.
  unfold keys. induction data as [| [k v] data IH];
    cbn [map In fst app dict_get]; [contradiction |].
  intros [-> | H]; [rewrite String.eqb_refl; reflexivity |].
  destruct (String.eqb k c); [reflexivity | exact (IH H)].
Qed.

End InsertFacts.

(** X30.  [GenericDAO.insert] on the trades table answers [False] and
    leaves the table as it is when the dictionary lacks one of the sixteen
    columns declared NOT NULL, or binds it to [None]; and a key that is not
    a column of the table is ignored. *)
Theorem X30_insert_needs_every_required_column
  (d : Database.db) (data : Database.row) (column key : string)
  (value : Database.sql_value) :
  (In column Database.trades_not_null ->
   Database.dict_get data column = None
   \/ Database.dict_get data column = Some Database.SqlNull ->
   Database.insert Database.TradeDAO d data = (d, false)) /\
  (Py.str_in key (Database.columns Database.TradeDAO) = false ->
   Database.insert Database.TradeDAO d (data ++ [(key, value)])%list
   = Database.insert Database.TradeDAO d data).
Proof.
  split.
  - intros Hcol Hmissing. unfold Database.insert.
    set (cols := filter (fun k => Py.str_in k
                                    (Database.columns Database.TradeDAO))
                   (Database.keys data)).
    set (f := fun k => match Database.dict_get data k with
                       | Some v => v
                       | None => Database.SqlNull
                       end).
    unfold Database.insert_or_replace.
    destruct cols as [| k0 cols'] eqn:Ecols; [reflexivity |].
    rewrite <- Ecols.
    match goal with
    | |- context [existsb ?test Database.trades_not_null] =>
        assert (Hnull : existsb test Database.trades_not_null = true)
    end.
    { apply existsb_exists. exists column. split; [exact Hcol |].
      rewrite dict_get_new_row, (not_null_default column Hcol).
      destruct Hmissing as [Hnone | Hnull].
      - rewrite dict_get_combine_absent; [reflexivity |].
        subst cols. intros Hin. apply filter_In in Hin.
        apply (proj1 (dict_get_none_keys data column) Hnone).
        exact (proj1 Hin).
      - destruct (dict_get_combine f cols column) as [-> | ->];
          [reflexivity |].
        subst f. cbv beta. rewrite Hnull. reflexivity. }
    rewrite Hnull. reflexivity.
  - intros Hkey. unfold Database.insert.
    unfold Database.keys. rewrite map_app, filter_app.
    cbn [map fst filter]. rewrite Hkey, app_nil_r.
    fold (Database.keys data).
    set (cols := filter (fun k => Py.str_in k
                                    (Database.columns Database.TradeDAO))
                   (Database.keys data)).
    assert (Hvals :
      map (fun k => match Database.dict_get (data ++ [(key, value)])%list k
                          with
                    | Some v => v
                    | None => Database.SqlNull
                    end) cols
      = map (fun k => match Database.dict_get data k with
                      | Some v => v
                      | None => Database.SqlNull
                      end) cols).
    { apply map_ext_in. intros c Hin. subst cols.
      apply filter_In in Hin.
      rewrite (dict_get_app_known data _ c (proj1 Hin)). reflexivity. }
    rewrite Hvals. reflexivity.
Qed.

(** * The properties at concrete inputs *)

(** X2 at [with_retry(max_retries=2, backoff_factor=1)] around a function
    that always fails: three calls, three seconds of sleep. *)
Lemma X2_with_retry_witness :
  Retry.calls (Retry.with_retry 2 1 Examples2.always_fails 0%nat) = 3%nat /\
  Retry.total (Retry.slept (Retry.with_retry 2 1 Examples2.always_fails 0%nat))
  == 3.
Proof.
  assert (H0 : (0 <= 2)%Z) by lia.
  assert (H1 : 0 <= 1) by lra.
  assert (H2 : forall (s' : nat) (k : nat),
             exists e, snd (Examples2.always_fails s' k) = inl e)
    by (intros s' k; eexists; reflexivity).
  pose proof (X2_with_retry_exhausts nat string 2 1 Examples2.always_fails
                0%nat H0 H1 H2) as H.
  cbv zeta in H. destruct H as (Hc & _ & Ht & _).
  split; [lia | rewrite Ht; reflexivity].
Defined.

(** X3 at a function that succeeds on its third call. *)
Lemma X3_with_retry_witness :
  Retry.calls (Retry.with_retry 2 1 Examples2.third_time_lucky 0%nat) = 3%nat /\
  Retry.outcome (Retry.with_retry 2 1 Examples2.third_time_lucky 0%nat)
  = inr (Some "connected").
Proof.
  assert (H0 : (Z.of_nat 2 <= 2)%Z) by lia.
  assert (H1 : 0 <= 1) by lra.
  assert (H2 : forall (s' : nat) (j : nat), (j < 2)%nat ->
             exists e, snd (Examples2.third_time_lucky s' j) = inl e).
  { intros s' j Hj. unfold Examples2.third_time_lucky.
    destruct (Nat.ltb_spec j 2) as [_ | C]; [| lia].
    eexists. reflexivity. }
  assert (H3 : forall s' : nat,
             snd (Examples2.third_time_lucky s' 2) = inr "connected")
    by reflexivity.
  pose proof (X3_with_retry_returns_first_success nat string 2 1
                Examples2.third_time_lucky 0%nat 2 "connected" H0 H1 H2 H3)
    as H.
  cbv zeta in H. destruct H as (Hc & _ & Ho).
  split; [exact Hc | exact Ho].
Defined.

(** X4 at a call struck at 3400 with the underlying at 3500. *)
Lemma X4_intrinsic_value_witness :
  0 < OptionContracts.intrinsic_value Examples2.tcs_call 3500.
Proof.
  apply (proj1 (proj2 (X4_intrinsic_value_in_the_money Examples2.tcs_call
                         3500))).
  reflexivity.
Defined.

(** X5 at the same call: intrinsic value 100 and time value 20 make up
    the last price of 120. *)
Lemma X5_time_value_witness :
  OptionContracts.intrinsic_value Examples2.tcs_call 3500
  + OptionContracts.time_value Examples2.tcs_call 3500
  == OptionContracts.last_price Examples2.tcs_call.
Proof.
  apply (proj1 (proj2 (proj2 (X5_time_value_decomposition Examples2.tcs_call
                                3500)))).
  discriminate.
Defined.

(** X6 at the trade of the test suite and a funded risk manager. *)
Lemma X6_approval_witness :
  RiskManagement.daily_losses Examples2.healthy
  < RiskManagement.daily_loss_limit
      (RiskManagement.risk_config Examples2.healthy) /\
  RiskManagement._calculate_required_margin Examples2.healthy
    Examples.test_trade
  <= RiskManagement.cash_available Examples2.healthy.
Proof.
  assert (H0 : RiskManagement.should_place_order Examples.repr_stub
                 Examples.repr_stub Examples2.healthy Examples.test_trade
               = (Examples2.healthy, inr (true, "Order approved")))
    by reflexivity.
  pose proof (X6_approval_implies_limits Examples.repr_stub
                Examples.repr_stub Examples2.healthy Examples.test_trade
                "Order approved" H0) as H.
  cbv zeta in H. destruct H as (_ & Hl & _ & _ & Hc & _).
  split; [exact Hl | exact Hc].
Defined.

(** X8 at a loss of 6000 against the default limit of 5000. *)
Lemma X8_loss_limit_witness :
  RiskLimits.enforce_risk_limits
    (RiskLimits.update_daily_pnl Examples2.healthy (-6000)) = false /\
  RiskLimits.daily_loss_exceeded
    (RiskLimits.check_risk_limits
       (RiskLimits.reset_daily_metrics
          (RiskLimits.update_daily_pnl Examples2.healthy (-6000))))
  = false.
Proof.
  assert (H0 : 0 <= RiskManagement.daily_losses Examples2.healthy)
    by discriminate.
  assert (H1 : -6000 <= - RiskManagement.daily_loss_limit
                            (RiskManagement.risk_config Examples2.healthy))
    by discriminate.
  pose proof (X8_loss_limit_blocks_orders Examples.repr_stub
                Examples.repr_stub Examples2.healthy Examples.test_trade
                (-6000) H0 H1) as H.
  cbv zeta in H. destruct H as (_ & He & Hr).
  split; [exact He | apply Hr; reflexivity].
Defined.




(** X13 at a dry-run order during market hours: an order id comes back,
    so the guards held. *)
Lemma X13_place_order_safety_witness :
  Strategy.kill_switch_file_exists Examples.trading_hours = false /\
  Strategy.market_open Examples.trading_hours = true /\
  (0 < 50)%Z.
Proof.
  apply (proj1 (proj2 (X13_place_order_safety Examples.repr_stub
                         Config.dry_run_defaults Examples.trading_hours
                         Examples.idle_system "NIFTY23JUN18000CE" "SELL" 50
                         150.0 "LIMIT" "NRML" Strategy.no_kwargs))).
  discriminate.
Defined.





(** X19 at a chain of one call and two puts with quoted deltas, under the
    default band [0.15, 0.25]: both puts are selected and the put with
    delta -0.2, at the middle of the band, comes first. *)
Lemma X19_find_best_otm_strikes_witness :
  StrategyCycle.find_best_otm_strikes Config.dry_run_defaults
    Settings.defaults Enums.CASH_SECURED_PUT Examples2.quoted_chain
  = [Examples2.far_put; Examples2.near_put] /\
  OptionContracts.option_type Examples2.far_put = "PE" /\
  inject_Z 1000 <= OptionContracts.open_interest Examples2.far_put.
Proof.
  pose proof (X19_find_best_otm_strikes_selects_and_sorts
                Config.dry_run_defaults Settings.defaults
                Enums.CASH_SECURED_PUT Examples2.quoted_chain) as H.
  cbv zeta in H. destruct H as (_ & Hin & _ & _).
  assert (Hres : StrategyCycle.find_best_otm_strikes Config.dry_run_defaults
                   Settings.defaults Enums.CASH_SECURED_PUT
                   Examples2.quoted_chain
                 = [Examples2.far_put; Examples2.near_put]) by reflexivity.
  split; [exact Hres |].
  destruct (Hin Examples2.far_put) as (_ & _ & Hoi & Htype).
  - rewrite Hres. left. reflexivity.
  - split; [exact Htype | exact Hoi].
Defined.

(** X20 at a put struck at 3300 with the underlying at 3500 and at 3700:
    the delta is negative and does not fall. *)
Lemma X20_approximate_delta_witness :
  StrategyCycle._calculate_approximate_delta 3300 "PE" 3500 = Some (-0.3) /\
  StrategyCycle._calculate_approximate_delta 3300 "PE" 3700 = Some (-0.05) /\
  -0.3 < 0 /\ -0.3 <= -0.05.
Proof.
  pose proof (X20_approximate_delta_range_and_monotone 3300 "PE" 3500 3700)
    as (_ & Hrange & Hmono).
  assert (H1 : StrategyCycle._calculate_approximate_delta 3300 "PE" 3500
               = Some (-0.3)) by reflexivity.
  assert (H2 : StrategyCycle._calculate_approximate_delta 3300 "PE" 3700
               = Some (-0.05)) by reflexivity.
  assert (Hp : 3500 <= 3700) by discriminate.
  split; [exact H1 |]. split; [exact H2 |].
  split; [exact (proj1 (Hrange (-0.3) H1)) | exact (Hmono _ _ Hp H1 H2)].
Defined.

(** X23 at a first start with an unreachable broker. *)
Lemma X23_fetch_instruments_witness :
  Retry.calls
    (StrategyCycle._fetch_instruments Examples2.unreachable Examples2.seconds
       Examples2.cold_start) = 3%nat /\
  Retry.outcome
    (StrategyCycle._fetch_instruments Examples2.unreachable Examples2.seconds
       Examples2.cold_start)
  = inl (Py.UnboundLocalError
           ("cannot access local variable 'failures' where it "
            ++ "is not associated with a value")).
Proof.
  pose proof (X23_fetch_instruments_decorated Examples2.unreachable
                Examples2.seconds Examples2.cold_start eq_refl) as H.
  cbv zeta in H. destruct H as (Hcold & _ & _).
  destruct Hcold as (Hcalls & _ & _ & Hout & _).
  - intros k. eexists. reflexivity.
  - reflexivity.
  - split; [exact Hcalls | exact Hout].
Defined.

(** X24 at a manager with Telegram credentials and no webhook URL: the
    alert is not sent at all. *)
Lemma X24_critical_alert_witness :
  Notifications.send_critical_alert Examples2.telegram_only
    Examples2.all_is_well [] "KILL_SWITCH_ACTIVATED" "Trading halted"
  = ([], false).
Proof.
  pose proof (X24_critical_alert_stops_at_first_failure
                Examples2.telegram_only Examples2.all_is_well []
                "KILL_SWITCH_ACTIVATED" "Trading halted") as H.
  cbv zeta in H. destruct H as (_ & Hon).
  destruct (Hon eq_refl) as (Hlog & Hok).
  destruct (Notifications.send_critical_alert Examples2.telegram_only
              Examples2.all_is_well [] "KILL_SWITCH_ACTIVATED"
              "Trading halted") as [log ok].
  cbn [fst snd] in Hlog, Hok. rewrite Hlog, Hok. reflexivity.
Defined.

(** X25 at a list of two chat ids: the second may stop the bot, a
    stranger may not. *)
Lemma X25_kill_switch_request_witness :
  fst (KillAuth.validate_kill_switch_request (fun s => s) "42,77"
         "please stop trading" (Some "77")) = true /\
  KillAuth.validate_kill_switch_request (fun s => s) ""
    "please stop trading" (Some "77")
  = (false, "Unauthorized user - kill switch request denied").
Proof.
  pose proof (X25_kill_switch_request_validation (fun s => s) "42,77"
                "please stop trading" (Some "77")) as H1.
  pose proof (X25_kill_switch_request_validation (fun s => s) ""
                "please stop trading" (Some "77")) as H2.
  cbv zeta in H1, H2. split.
  - apply (proj2 (proj1 H1)). split.
    + exists "77". split; [reflexivity |]. split; [discriminate |].
      split; [right; left; reflexivity | discriminate].
    + exists "stop". split; [left; reflexivity | reflexivity].
  - apply (proj2 H2). right. reflexivity.
Defined.

(** X26 at ten past three. *)
Lemma X26_time_of_day_witness :
  SlippagePredictor._get_time_of_day_factor Examples.noon
    (Some Examples2.last_hour) = 1.4.
Proof.
  apply (proj2 (proj2 (X26_time_of_day_factor_values Examples.noon
                         (Some Examples2.last_hour)))).
  reflexivity.
Defined.

(** X27 at an order without keys, with spreads of 0.1 and 0.5 and the
    event flag 1. *)
Lemma X27_prediction_monotone_witness :
  exists q1 q2,
    SlippagePredictor.predict_body Examples.noon Examples2.quiet_order
    = inr q1 /\
    SlippagePredictor.predict_body Examples.noon
      (OrderDict.with_bid_ask_spread Examples.empty_order
         (SlippagePredictor.Num 0.5))
    = inr q2 /\
    q1 <= q2.
Proof.
  assert (Hs : 0.1 <= 0.5) by discriminate.
  pose proof (X27_prediction_monotone_in_spread_and_event Examples.noon
                Examples.empty_order 0.1 0.5 1 Hs) as H.
  cbv zeta in H. unfold Examples2.quiet_order.
  destruct (SlippagePredictor.predict_body Examples.noon
              (OrderDict.with_bid_ask_spread Examples.empty_order
                 (SlippagePredictor.Num 0.1))) as [e1 | q1];
    [destruct (SlippagePredictor.predict_body Examples.noon
                 (OrderDict.with_bid_ask_spread Examples.empty_order
                    (SlippagePredictor.Num 0.5)));
     contradiction |].
  destruct (SlippagePredictor.predict_body Examples.noon
              (OrderDict.with_bid_ask_spread Examples.empty_order
                 (SlippagePredictor.Num 0.5))) as [e2 | q2];
    [contradiction |].
  destruct (SlippagePredictor.predict_body Examples.noon
              (OrderDict.with_event_dummy
                 (OrderDict.with_bid_ask_spread Examples.empty_order
                    (SlippagePredictor.Num 0.1))
                 (SlippagePredictor.Num 0))) as [e3 | q3];
    [contradiction |].
  destruct (SlippagePredictor.predict_body Examples.noon
              (OrderDict.with_event_dummy
                 (OrderDict.with_bid_ask_spread Examples.empty_order
                    (SlippagePredictor.Num 0.1))
                 (SlippagePredictor.Num 1))) as [e4 | q4];
    [contradiction |].
  exists q1, q2. split; [reflexivity |]. split; [reflexivity |].
  exact (proj1 H).
Defined.

(** X28 at a mid price of 100 and the prediction for an order without
    keys. *)
Lemma X28_execution_price_witness :
  match SlippagePredictor.predict_body Examples.noon Examples.empty_order with
  | inr slip =>
      100 * 0.99
      <= Execution.get_execution_price (fun s => s) 100 slip "SELL" /\
      Execution.get_execution_price (fun s => s) 100 slip "SELL" < 100
  | inl _ => False
  end.
Proof.
  destruct (SlippagePredictor.predict_body Examples.noon Examples.empty_order)
    as [e | slip] eqn:E.
  - discriminate E.
  - assert (Hmid : 0 < 100) by reflexivity.
    exact (X28_execution_price_is_adverse_and_bounded (fun s => s)
             Examples.noon Examples.empty_order 100 slip "SELL" Hmid E).
Defined.

(** X29 at a message that no pattern matches, judged KILL with confidence
    0.95 against a float threshold of 0.9. *)
Lemma X29_kill_switch_activation_witness :
  fst (fst (SemanticKill.judge_message Examples.no_match
              Examples.already_lower Examples.llm_says_kill
              Examples.repr_stub
              (Config.with_ai_thresholds Examples.ai_config_500 0.7
                 (Py.PyFloat 0.9))
              "positions look wrong to me"))
  = true.
Proof.
  apply (proj2 (X29_kill_switch_activation Examples.no_match
                  Examples.already_lower Examples.llm_says_kill
                  Examples.repr_stub
                  (Config.with_ai_thresholds Examples.ai_config_500 0.7
                     (Py.PyFloat 0.9))
                  "positions look wrong to me")).
  split; [reflexivity |]. right. split.
  - intros C. vm_compute in C. discriminate C.
  - exists 0.9, "KILL", 0.95, "user asks for an emergency stop".
    split; [reflexivity |]. split; [left; reflexivity |].
    split; [left; reflexivity | discriminate].
Defined.

(** X30 at a dictionary that names the order id only. *)
Lemma X30_insert_witness :
  Database.insert Database.TradeDAO Database.empty_db
    [("order_id", Database.SqlText "TEST_ORDER_001")]
  = (Database.empty_db, false).
Proof.
  apply (proj1 (X30_insert_needs_every_required_column Database.empty_db
                  [("order_id", Database.SqlText "TEST_ORDER_001")]
                  "symbol" "note" Database.SqlNull)).
  - right. left. reflexivity.
  - left. reflexivity.
Defined.
